(** * Quizzler: the quiz-generation pipeline of [app/routes/chatbot.py]

    A shallow embedding of the chatbot route: the question validator
    ([QuestionCreate.validate_lengths]), the schema objects ([QuizCreate]),
    the persister with its time resolution ([create_quiz_internal]), the
    sanitizer of the model's answer ([clean_gemini_json]) and the route
    handler ([generate_quiz]).

    Conventions.
    - A Python [str] is a [text], a list of characters; one [ascii] stands
      for one character, so the texts covered are those over the code points
      0..255, and [length] is Python's [len].
    - A raised exception is a value of [exn]; a function that may raise
      returns [exn + A], and a function that also talks to the store is a
      computation in the monad [M].
    - What belongs to libraries and services outside the repository (the JSON
      decoder, the ISO timestamp parser, pydantic's field validators, the
      store, the model, the clock, the uuid source) is a [Variable] of the
      section that uses it; reference instances are given at the end of the
      definitions so that every function can be run on concrete inputs. *)

From Stdlib Require Import Ascii String List Bool Arith ZArith Lia.
Import ListNotations.

Set Warnings "-register-all".

(* ------------------------------------------------------------------ *)
(** ** Text *)

Definition text := list ascii.

Definition lit (s : string) : text := list_ascii_of_string s.

Definition nl : ascii := ascii_of_nat 10.
Definition dq : ascii := ascii_of_nat 34.

(** [quoted s] writes a text that contains double quotes: every apostrophe
    of [s] stands for one. *)
Definition quoted (s : string) : text :=
  map (fun c => if Ascii.eqb c "'" then dq else c) (lit s).

Fixpoint text_eqb (a b : text) : bool :=
  match a, b with
  | [], [] => true
  | x :: a', y :: b' => Ascii.eqb x y && text_eqb a' b'
  | _, _ => false
  end.

(** [str.startswith] *)
Fixpoint startswith (p s : text) : bool :=
  match p, s with
  | [], _ => true
  | x :: p', y :: s' => Ascii.eqb x y && startswith p' s'
  | _ :: _, [] => false
  end.

(** [str.endswith] *)
Definition endswith (p s : text) : bool := startswith (rev p) (rev s).

(** [p in s] for texts *)
Fixpoint contains (p s : text) : bool :=
  startswith p s || match s with [] => false | _ :: s' => contains p s' end.

(** [str.lower] on the code points 0..255: A-Z, and the Latin-1 capitals
    192..222 except the multiplication sign 215. *)
Definition lower_char (c : ascii) : ascii :=
  let n := nat_of_ascii c in
  if ((65 <=? n) && (n <=? 90)) || ((192 <=? n) && (n <=? 222) && negb (n =? 215))
  then ascii_of_nat (n + 32) else c.

Definition lower (s : text) : text := map lower_char s.

(** [str.isspace] on the code points 0..255. *)
Definition is_space (c : ascii) : bool :=
  let n := nat_of_ascii c in
  ((9 <=? n) && (n <=? 13)) || ((28 <=? n) && (n <=? 32)) || (n =? 133) || (n =? 160).

Fixpoint lstrip (s : text) : text :=
  match s with
  | c :: s' => if is_space c then lstrip s' else s
  | [] => []
  end.

Definition rstrip (s : text) : text := rev (lstrip (rev s)).

(** [str.strip()] *)
Definition strip (s : text) : text := rstrip (lstrip s).

(** [str.replace(old, new)] for a one-character [old]. *)
Definition replace_char (old : ascii) (new : text) (s : text) : text :=
  flat_map (fun c => if Ascii.eqb c old then new else [c]) s.

(** [str(n)] for an integer. *)
Definition digit_char (n : nat) : ascii := ascii_of_nat (48 + n mod 10).

Fixpoint str_of_Z_aux (fuel : nat) (n : Z) (acc : text) : text :=
  match fuel with
  | O => acc
  | S fuel' =>
      let acc' := digit_char (Z.to_nat (n mod 10)) :: acc in
      if (n <? 10)%Z then acc' else str_of_Z_aux fuel' (n / 10) acc'
  end.

(** A number has no more decimal digits than binary ones. *)
Definition str_of_Z (z : Z) : text :=
  let n := Z.abs z in
  let s := str_of_Z_aux (S (Z.to_nat (Z.log2 n))) n [] in
  if (z <? 0)%Z then "-"%char :: s else s.

Definition str_of_nat (n : nat) : text := str_of_Z (Z.of_nat n).

(* ------------------------------------------------------------------ *)
(** ** Exceptions *)

Inductive exn : Type :=
| HTTPException (status_code : nat) (detail : text)
| ValueError (msg : text)
| JSONDecodeError (msg : text)      (* a subclass of ValueError *)
| OverflowError (msg : text)
| KeyError (key : text)
| AttributeError (msg : text)
| Exception (msg : text).           (* any other exception *)

(** [except ValueError] catches the class and its subclasses. *)
Definition is_ValueError (e : exn) : bool :=
  match e with
  | ValueError _ | JSONDecodeError _ => true
  | _ => false
  end.

(** [str(e)] *)
Definition exn_str (e : exn) : text :=
  match e with
  | HTTPException c d => str_of_nat c ++ lit ": " ++ d
  | ValueError m | JSONDecodeError m | OverflowError m
  | AttributeError m | Exception m => m
  | KeyError k => lit "'" ++ k ++ lit "'"
  end.

(* ------------------------------------------------------------------ *)
(** ** JSON values, as [json.loads] returns them *)

Inductive JSON : Type :=
| JNull
| JBool (b : bool)
| JInt (n : Z)
| JFloat (lexeme : text)            (* a float, kept as it was written *)
| JString (s : text)
| JArray (xs : list JSON)
| JObject (kv : list (text * JSON)).

(** [d.get(key)] on a dict; [None] of Python is [JNull]. *)
Fixpoint dict_lookup (key : text) (kv : list (text * JSON)) : option JSON :=
  match kv with
  | [] => None
  | (k, v) :: kv' => if text_eqb k key then Some v else dict_lookup key kv'
  end.

Definition dict_get (key : text) (default : JSON) (kv : list (text * JSON)) : JSON :=
  match dict_lookup key kv with
  | Some v => v
  | None => default
  end.

(** [v == "literal"] for a JSON value [v]. *)
Definition json_is_str (s : text) (v : JSON) : bool :=
  match v with
  | JString s' => text_eqb s' s
  | _ => false
  end.

(* ------------------------------------------------------------------ *)
(** ** The sanitizer: [clean_gemini_json] *)

Definition is_nl (c : ascii) : bool := Ascii.eqb c nl.

(** A prefix test against a list of character classes. *)
Fixpoint matches (ps : list (ascii -> bool)) (s : text) : bool :=
  match ps, s with
  | [], _ => true
  | p :: ps', c :: s' => p c && matches ps' s'
  | _ :: _, [] => false
  end.

Definition is_bt (c : ascii) : bool := Ascii.eqb c "`".
Definition ci (x : ascii) (c : ascii) : bool := Ascii.eqb (lower_char c) x.

Definition fence3 : list (ascii -> bool) := [is_bt; is_bt; is_bt].
Definition fence_json : list (ascii -> bool) :=
  fence3 ++ [ci "j"; ci "s"; ci "o"; ci "n"]%char.

(** [$] under [re.MULTILINE]: at the end of the text or before a newline. *)
Definition at_eol (s : text) : bool :=
  match s with
  | [] => true
  | c :: _ => is_nl c
  end.

(** The length of the match of [^```(?:json)?|```$] (flags IGNORECASE and
    MULTILINE) that starts at the head of [s], 0 when there is none; [bol]
    tells whether the head of [s] is at the beginning of a line. The first
    alternative is tried first and its optional group is greedy. *)
Definition fence_at (bol : bool) (s : text) : nat :=
  if matches fence3 s then
    if bol then (if matches fence_json s then 7 else 3)
    else if at_eol (skipn 3 s) then 3 else 0
  else 0.

(** [re.sub(r"^```(?:json)?|```$", "", s, flags=IGNORECASE|MULTILINE)]:
    the matches are found from left to right and deleted; [skip] counts the
    characters of the current match still to be dropped. *)
Fixpoint sub_fences (skip : nat) (bol : bool) (s : text) : text :=
  match s with
  | [] => []
  | c :: t =>
      match skip with
      | S k => sub_fences k (is_nl c) t
      | O =>
          match fence_at bol s with
          | S k => sub_fences k (is_nl c) t
          | O => c :: sub_fences 0 (is_nl c) t
          end
      end
  end.

(** [s[1:-1]] *)
Definition slice_1_m1 (s : text) : text := removelast (tl s).

Definition strip_parens (s : text) : text :=
  if startswith (lit "(") s && endswith (lit ")") s
  then strip (slice_1_m1 s) else s.

Definition is_lbrace (c : ascii) : bool := Ascii.eqb c "{".
Definition is_rbrace (c : ascii) : bool := Ascii.eqb c "}".

Fixpoint drop_until (p : ascii -> bool) (s : text) : text :=
  match s with
  | [] => []
  | c :: s' => if p c then s else drop_until p s'
  end.

(** [re.search(r"\{.*\}", s, re.DOTALL)]: from the first opening brace to
    the last closing brace after it. *)
Definition search_braces (s : text) : option text :=
  match drop_until is_lbrace s with
  | [] => None
  | c :: rest =>
      match rev (drop_until is_rbrace (rev rest)) with
      | [] => None
      | body => Some (c :: body)
      end
  end.

(** The text handed to the decoder: the three cleaning steps, then the span. *)
Definition cleaned_text (raw_text : text) : text :=
  strip_parens (strip (sub_fences 0 true (strip raw_text))).

(** What [json.loads] raises on a text: the [JSONDecodeError] of a text that
    is not JSON, the [ValueError] of an integer literal with more digits than
    the interpreter converts, and the [RecursionError] of a nesting deeper
    than the interpreter's stack allows. *)
Inductive decoder_failure : Type :=
| NotJson (msg : text)
| TooManyDigits (msg : text)
| TooDeep (msg : text).

Definition decoder_exn (f : decoder_failure) : exn :=
  match f with
  | NotJson msg => JSONDecodeError msg
  | TooManyDigits msg => ValueError msg
  | TooDeep msg => Exception msg        (* RecursionError *)
  end.

Section Sanitizer.

(** [json.loads]: the decoded value, or what it raises. *)
Variable json_loads : text -> decoder_failure + JSON.

(** The handler is [except json.JSONDecodeError]: it catches that class
    only, and lets the two other failures of the decoder through. *)
Definition clean_gemini_json (raw_text : text) : exn + JSON :=
  let cleaned := cleaned_text raw_text in
  match search_braces cleaned with
  | None =>
      inl (HTTPException 400
             (lit "Gemini returned no JSON block." ++ [nl] ++ lit "Output:" ++ [nl]
              ++ raw_text))
  | Some cleaned =>
      match json_loads cleaned with
      | inr v => inr v
      | inl f =>
          match decoder_exn f with
          | JSONDecodeError e =>
              inl (HTTPException 400
                     (lit "Gemini returned invalid JSON: " ++ e ++ [nl]
                      ++ lit "Cleaned Output:" ++ [nl] ++ cleaned))
          | other => inl other
          end
      end
  end.

End Sanitizer.

(* ------------------------------------------------------------------ *)
(** ** Dates and times

    An aware [datetime] of the platform zone, [pytz.timezone('Asia/Kolkata')]:
    [wall] is its wall clock, the microseconds since 0001-01-01T00:00:00, and
    [utcoffset] the offset of its [tzinfo] from UTC, in seconds. pytz gives a
    datetime the [tzinfo] of the offset the zone had at that instant, and
    arithmetic on a datetime moves the wall clock and keeps the [tzinfo].
    Python's [datetime] covers the years 1 to 9999 and raises
    [OverflowError] outside; a [timedelta] holds at most 999999999 days. *)

Record datetime : Type := aware { wall : Z; utcoffset : Z }.

(** The present offset of the zone, +05:30. *)
Definition ist_offset : Z := 19800.

(** The time on the UTC clock, in microseconds. *)
Definition instant (t : datetime) : Z := (wall t - utcoffset t * 1000000)%Z.

(** [a <= b] on aware datetimes compares the instants. *)
Definition dt_le (a b : datetime) : bool := (instant a <=? instant b)%Z.

Definition us_per_minute : Z := 60000000.
Definition us_per_day : Z := 86400000000.
Definition max_ordinal : Z := 3652059.           (* 9999-12-31 *)
Definition datetime_end : Z := max_ordinal * us_per_day.

Definition in_range (t : Z) : bool := ((0 <=? t) && (t <? datetime_end))%Z.

(** [timedelta(minutes=d)], in microseconds. *)
Definition timedelta_minutes (d : Z) : exn + Z :=
  let days := (d / 1440)%Z in
  if ((days <? - 2147483648) || (2147483647 <? days))%Z then
    inl (OverflowError (lit "Python int too large to convert to C int"))
  else if (999999999 <? Z.abs days)%Z then
    inl (OverflowError (lit "days=" ++ str_of_Z days
                        ++ lit "; must have magnitude <= 999999999"))
  else inr (d * us_per_minute)%Z.

(** [t + delta] and [t - delta] on a datetime: the wall clock moves, the
    [tzinfo] stays, and the result must be a wall clock of the years 1 to
    9999. *)
Definition dt_plus (t : datetime) (delta : Z) : datetime :=
  aware (wall t + delta) (utcoffset t).

Definition dt_shift (t : datetime) (delta : Z) : exn + datetime :=
  let r := dt_plus t delta in
  if in_range (wall r) then inr r
  else inl (OverflowError (lit "date value out of range")).

Definition dt_add (t : datetime) (delta : Z) : exn + datetime := dt_shift t delta.
Definition dt_sub (t : datetime) (delta : Z) : exn + datetime := dt_shift t (- delta).

Definition days_before_month (m : Z) : Z :=
  nth (Z.to_nat m) [0; 0; 31; 59; 90; 120; 151; 181; 212; 243; 273; 304; 334]%Z 0%Z.

Definition days_in_month_common (m : Z) : Z :=
  nth (Z.to_nat m) [0; 31; 28; 31; 30; 31; 30; 31; 31; 30; 31; 30; 31]%Z 0%Z.

(** The proleptic Gregorian date of a day number, 1 being 0001-01-01. *)
Definition ord2ymd (ordinal : Z) : Z * Z * Z :=
  (let n := ordinal - 1 in
   let n400 := n / 146097 in
   let n := n mod 146097 in
   let n100 := n / 36524 in
   let n := n mod 36524 in
   let n4 := n / 1461 in
   let n := n mod 1461 in
   let n1 := n / 365 in
   let n := n mod 365 in
   let year := n400 * 400 + 1 + n100 * 100 + n4 * 4 + n1 in
   if (n1 =? 4) || (n100 =? 4) then (year - 1, 12, 31)
   else
     let leapyear := (n1 =? 3) && (negb (n4 =? 24) || (n100 =? 3)) in
     let month := (n + 50) / 32 in
     let preceding :=
       days_before_month month + (if (2 <? month) && leapyear then 1 else 0) in
     if n <? preceding then
       let month' := month - 1 in
       let preceding' :=
         preceding - (days_in_month_common month'
                      + (if (month' =? 2) && leapyear then 1 else 0)) in
       (year, month', n - preceding' + 1)
     else (year, month, n - preceding + 1))%Z.

(** [width] decimal digits of [n], zero padded. *)
Fixpoint digits (width : nat) (n : Z) : text :=
  match width with
  | O => []
  | S w => digits w (n / 10) ++ [digit_char (Z.to_nat (n mod 10))]
  end.

(** The offset as [isoformat] writes it: a sign, hours and minutes, and the
    seconds when there are some. *)
Definition format_offset (off : Z) : text :=
  (let a := Z.abs off in
   (if off <? 0 then lit "-" else lit "+")
   ++ digits 2 (a / 3600) ++ lit ":" ++ digits 2 (a / 60 mod 60)
   ++ (if a mod 60 =? 0 then [] else lit ":" ++ digits 2 (a mod 60)))%Z.

(** [datetime.isoformat()] of an aware datetime: the wall clock, then the
    offset of its [tzinfo]. *)
Definition isoformat (t : datetime) : text :=
  (let '(y, m, d) := ord2ymd (wall t / us_per_day + 1) in
   let r := wall t mod us_per_day in
   let us := r mod 1000000 in
   let s := r / 1000000 in
   digits 4 y ++ lit "-" ++ digits 2 m ++ lit "-" ++ digits 2 d ++ lit "T"
   ++ digits 2 (s / 3600) ++ lit ":" ++ digits 2 (s / 60 mod 60) ++ lit ":"
   ++ digits 2 (s mod 60)
   ++ (if us =? 0 then [] else lit "." ++ digits 6 us)
   ++ format_offset (utcoffset t))%Z.

(* ------------------------------------------------------------------ *)
(** ** Schema objects *)

Module QuestionCreate.
Record t : Type := Build {
  question_text : text;
  option_a : text;
  option_b : text;
  option_c : text;
  option_d : text;
  correct_option : text
}.
End QuestionCreate.

(** [QuestionCreate.validate_lengths]; it raises [ValueError]. *)
Definition validate_lengths (self : QuestionCreate.t) : exn + unit :=
  if 500 <? length (QuestionCreate.question_text self) then
    inl (ValueError (lit "Question text cannot exceed 500 characters"))
  else if 200 <? length (QuestionCreate.option_a self) then
    inl (ValueError (lit "Option A cannot exceed 200 characters"))
  else if 200 <? length (QuestionCreate.option_b self) then
    inl (ValueError (lit "Option B cannot exceed 200 characters"))
  else if 200 <? length (QuestionCreate.option_c self) then
    inl (ValueError (lit "Option C cannot exceed 200 characters"))
  else if 200 <? length (QuestionCreate.option_d self) then
    inl (ValueError (lit "Option D cannot exceed 200 characters"))
  else if negb (existsb (text_eqb (QuestionCreate.correct_option self))
                  [lit "a"; lit "b"; lit "c"; lit "d"]) then
    inl (ValueError (lit "Correct option must be 'a', 'b', 'c', or 'd'"))
  else inr tt.

Module QuizCreate.
Record t : Type := Build {
  title : text;
  description : text;
  is_trivia : bool;
  topic : option text;
  start_time : option text;
  end_time : option text;
  duration : Z;
  positive_mark : Z;
  negative_mark : Z;
  navigation_type : text;
  tab_switch_exit : bool;
  difficulty : option text;
  questions : list QuestionCreate.t
}.

Definition with_questions (qs : list QuestionCreate.t) (q : t) : t :=
  Build (title q) (description q) (is_trivia q) (topic q) (start_time q)
    (end_time q) (duration q) (positive_mark q) (negative_mark q)
    (navigation_type q) (tab_switch_exit q) (difficulty q) qs.

Definition with_end_time (e : option text) (q : t) : t :=
  Build (title q) (description q) (is_trivia q) (topic q) (start_time q)
    e (duration q) (positive_mark q) (negative_mark q)
    (navigation_type q) (tab_switch_exit q) (difficulty q) (questions q).
End QuizCreate.


(* ------------------------------------------------------------------ *)
(** ** The store

    The pipeline talks to the store through [db.insert(table, record)]
    only. A computation of [M] carries the list of the records handed to
    [db.insert] so far, oldest first. *)

Module QuizRow.
Record t : Type := Build {
  id : text;
  title : text;
  description : text;
  creator_id : text;
  is_trivia : bool;
  topic : option text;
  start_time : option text;
  end_time : option text;
  duration : Z;
  positive_mark : Z;
  negative_mark : Z;
  navigation_type : text;
  tab_switch_exit : bool;
  difficulty : option text;
  popularity : Z;
  is_active : bool;
  created_at : text
}.
End QuizRow.

Module QuestionRow.
Record t : Type := Build {
  quiz_id : text;
  question_text : text;
  option_a : text;
  option_b : text;
  option_c : text;
  option_d : text;
  correct_option : text;
  mark : Z
}.
End QuestionRow.

(** A call [db.insert("quizzes", r)] or [db.insert("questions", r)]. *)
Inductive Row : Type :=
| QuizzesRow (r : QuizRow.t)
| QuestionsRow (r : QuestionRow.t).

(** What the pipeline reads of the record the store returns. *)
Module Created.
Record t : Type := Build { id : text; title : text }.
End Created.

Definition M (A : Type) : Type := list Row -> (exn + A) * list Row.

Definition ret {A : Type} (a : A) : M A := fun st => (inr a, st).

Definition raise {A : Type} (e : exn) : M A := fun st => (inl e, st).

Definition lift {A : Type} (r : exn + A) : M A := fun st => (r, st).

Definition bind {A B : Type} (m : M A) (k : A -> M B) : M B :=
  fun st =>
    match m st with
    | (inr a, st') => k a st'
    | (inl e, st') => (inl e, st')
    end.

(** [try: m  except Exception as e: h e] *)
Definition try_except {A : Type} (m : M A) (h : exn -> M A) : M A :=
  fun st =>
    match m st with
    | (inl e, st') => h e st'
    | r => r
    end.

Declare Scope py_scope.
Delimit Scope py_scope with py.
Notation "x <- m ;; k" := (bind m (fun x => k))
  (at level 61, m at next level, right associativity) : py_scope.
Notation "m ;;; k" := (bind m (fun _ => k))
  (at level 61, right associativity) : py_scope.

(** The same for code that may only raise. *)
Definition ebind {A B : Type} (r : exn + A) (k : A -> exn + B) : exn + B :=
  match r with
  | inr a => k a
  | inl e => inl e
  end.

Notation "x <-! r ;; k" := (ebind r (fun x => k))
  (at level 61, r at next level, right associativity) : py_scope.

(** And for a validation that fails without a message of its own. *)
Definition obind {A B : Type} (o : option A) (k : A -> option B) : option B :=
  match o with
  | Some a => k a
  | None => None
  end.

Notation "x <-? o ;; k" := (obind o (fun x => k))
  (at level 61, o at next level, right associativity) : py_scope.
Notation "' p <-? o ;; k" := (obind o (fun p => k))
  (at level 61, p pattern, o at next level, right associativity) : py_scope.

Fixpoint omap {A B : Type} (f : A -> option B) (l : list A) : option (list B) :=
  match l with
  | [] => Some []
  | a :: l' =>
      match f a with
      | Some b => option_map (cons b) (omap f l')
      | None => None
      end
  end.

(** [current_user["id"]] *)
Definition user_id (current_user : list (text * text)) : exn + text :=
  match find (fun kv => text_eqb (fst kv) (lit "id")) current_user with
  | Some kv => inr (snd kv)
  | None => inl (KeyError (lit "id"))
  end.

(** The [for i, question in enumerate(...)] loop of [create_quiz_internal];
    [i] is the index of the head of [qs]. *)
Fixpoint validate_questions (i : nat) (qs : list QuestionCreate.t) : exn + unit :=
  match qs with
  | [] => inr tt
  | question :: qs' =>
      match validate_lengths question with
      | inl e =>
          if is_ValueError e then
            inl (HTTPException 400
                   (lit "Question " ++ str_of_nat (i + 1) ++ lit ": " ++ exn_str e))
          else inl e
      | inr _ => validate_questions (S i) qs'
      end
  end.

(** What the handler of [create_quiz_internal] makes of an exception that
    is not an [HTTPException]. *)
Definition is_duplicate (error_msg : text) : bool :=
  contains (lit "duplicate key value") error_msg
  || contains (lit "unique") (lower error_msg).

Definition classify_failure (e : exn) : exn :=
  match e with
  | HTTPException _ _ => e
  | _ =>
      let error_msg := exn_str e in
      if is_duplicate error_msg then
        HTTPException 400
          (lit "A quiz with this title already exists. Please choose a different title.")
      else HTTPException 400 (lit "Failed to create quiz: " ++ error_msg)
  end.

Module QuizRef.
Record t : Type := Build { quiz_id : text; title : text }.
End QuizRef.

Module Response.
Record t : Type := Build {
  success : bool;
  intent : text;
  message : JSON;
  quiz_id : option text;
  quiz_title : option text;
  questions_generated : option nat;
  redirect_message : option text;
  parsed_from : option text;
  is_quiz_request : bool
}.
End Response.

(** [response_json.get] needs a dict. *)
Definition type_name (v : JSON) : text :=
  match v with
  | JNull => lit "NoneType"
  | JBool _ => lit "bool"
  | JInt _ => lit "int"
  | JFloat _ => lit "float"
  | JString _ => lit "str"
  | JArray _ => lit "list"
  | JObject _ => lit "dict"
  end.

Definition as_dict (v : JSON) : exn + list (text * JSON) :=
  match v with
  | JObject kv => inr kv
  | _ => inl (AttributeError
                (lit "'" ++ type_name v ++ lit "' object has no attribute 'get'"))
  end.

(* ------------------------------------------------------------------ *)
(** ** The proxy middleware of [app/main.py]

    The scope of a request, as the middleware meets it: the scheme, the
    headers as the server lists them, names in lower case, and the entries
    the middleware does not look at. *)

Module Scope.
Record t : Type := Build {
  scheme : text;
  headers : list (text * text);
  others : list (text * text)
}.
End Scope.

(** [key in request.headers] and [request.headers[key]]: the name is sought
    in lower case and the first header of that name answers. *)
Fixpoint headers_get (key : text) (headers : list (text * text)) : option text :=
  match headers with
  | [] => None
  | (name, value) :: rest =>
      if text_eqb name (lower key) then Some value else headers_get key rest
  end.

(** [proxy_headers_middleware]; [call_next] is the rest of the application,
    which receives the request with the scope as the middleware left it. *)
Definition proxy_headers_middleware {R : Type} (request : Scope.t)
    (call_next : Scope.t -> R) : R :=
  match headers_get (lit "x-forwarded-proto") (Scope.headers request) with
  | Some proto =>
      let response :=
        call_next (Scope.Build proto (Scope.headers request) (Scope.others request)) in
      response
  | None =>
      let response := call_next request in
      response
  end.

(* ------------------------------------------------------------------ *)
(** ** Reference instances of the libraries

    Instances of what the pipeline takes from outside, to run it on
    concrete inputs. The theorems below hold for every instance. *)

(** *** A JSON decoder

    [json_loads_ref] decodes the JSON grammar as [json.loads] does: objects
    (a repeated key keeps its last value), arrays, strings with their
    escapes, numbers, [true], [false], [null] and the three float names. An
    integer literal of more than 4300 digits raises the [ValueError] of the
    integer conversion, and a nesting of objects and arrays deeper than
    [nesting_limit] the [RecursionError]. Two things are left out: an escape
    for a code point above 255 is refused, since a [text] cannot hold it,
    and every [JSONDecodeError] has one and the same message. *)

Definition not_json {A : Type} : decoder_failure + A := inl (NotJson (lit "invalid JSON")).

(** The interpreter converts integer literals of at most 4300 digits. *)
Definition max_str_digits : nat := 4300.

Definition digits_error {A : Type} (n : nat) : decoder_failure + A :=
  inl (TooManyDigits
         (lit "Exceeds the limit (4300 digits) for integer string conversion: value has "
          ++ str_of_nat n
          ++ lit " digits; use sys.set_int_max_str_digits() to increase the limit")).

(** The depth the decoder may nest to: the recursion limit of the
    interpreter, 1000 unless it was changed, less the frames in use when the
    decoder is called; 994 at the top level of a program, here 900. *)
Definition nesting_limit : nat := 900.

Definition depth_error {A : Type} (what : string) : decoder_failure + A :=
  inl (TooDeep (lit "maximum recursion depth exceeded while decoding a JSON "
                ++ lit what ++ lit " from a unicode string")).

Definition is_json_ws (c : ascii) : bool :=
  let n := nat_of_ascii c in (n =? 32) || (n =? 9) || (n =? 10) || (n =? 13).

Fixpoint skip_ws (s : text) : text :=
  match s with
  | c :: s' => if is_json_ws c then skip_ws s' else s
  | [] => []
  end.

Definition is_digit (c : ascii) : bool :=
  let n := nat_of_ascii c in (48 <=? n) && (n <=? 57).

Definition hex_value (c : ascii) : option nat :=
  let n := nat_of_ascii c in
  if (48 <=? n) && (n <=? 57) then Some (n - 48)
  else if (65 <=? n) && (n <=? 70) then Some (n - 55)
  else if (97 <=? n) && (n <=? 102) then Some (n - 87)
  else None.

Definition unescape (c : ascii) : option ascii :=
  if Ascii.eqb c dq then Some dq
  else if Ascii.eqb c "\" then Some "\"%char
  else if Ascii.eqb c "/" then Some "/"%char
  else if Ascii.eqb c "b" then Some (ascii_of_nat 8)
  else if Ascii.eqb c "f" then Some (ascii_of_nat 12)
  else if Ascii.eqb c "n" then Some (ascii_of_nat 10)
  else if Ascii.eqb c "r" then Some (ascii_of_nat 13)
  else if Ascii.eqb c "t" then Some (ascii_of_nat 9)
  else None.

(** The characters of a string after its opening quote, and what follows
    the closing quote. *)
Fixpoint scan_string (s : text) (acc : text) : option (text * text) :=
  match s with
  | [] => None
  | c :: r =>
      if Ascii.eqb c dq then Some (rev acc, r)
      else if nat_of_ascii c <? 32 then None
      else if Ascii.eqb c "\" then
        match r with
        | [] => None
        | e :: r' =>
            match unescape e with
            | Some x => scan_string r' (x :: acc)
            | None =>
                if Ascii.eqb e "u" then
                  match r' with
                  | h1 :: h2 :: h3 :: h4 :: r'' =>
                      match hex_value h1, hex_value h2, hex_value h3, hex_value h4 with
                      | Some 0, Some 0, Some a, Some b =>
                          scan_string r'' (ascii_of_nat (16 * a + b) :: acc)
                      | _, _, _, _ => None
                      end
                  | _ => None
                  end
                else None
            end
        end
      else scan_string r (c :: acc)
  end.

Fixpoint span_digits (s : text) : text * text :=
  match s with
  | c :: s' =>
      if is_digit c then let '(d, r) := span_digits s' in (c :: d, r) else ([], s)
  | [] => ([], [])
  end.

Definition Z_of_digits (d : text) : Z :=
  fold_left (fun acc c => (10 * acc + Z.of_nat (nat_of_ascii c - 48))%Z) d 0%Z.

(** A number: an optional minus sign, an integer part without a leading
    zero, an optional fraction and an optional exponent; the longest such
    prefix is taken. *)
Definition scan_number (s : text) : decoder_failure + (JSON * text) :=
  let '(sign, s1) :=
    match s with
    | c :: r => if Ascii.eqb c "-" then ([c], r) else ([], s)
    | [] => ([], s)
    end in
  let '(int_part, s2) :=
    match s1 with
    | c :: r => if Ascii.eqb c "0" then ([c], r) else span_digits s1
    | [] => ([], s1)
    end in
  match int_part with
  | [] => not_json
  | _ =>
      let '(frac, s3) :=
        match s2 with
        | c :: r =>
            if Ascii.eqb c "." then
              match span_digits r with
              | ([], _) => ([], s2)
              | (d, r') => (c :: d, r')
              end
            else ([], s2)
        | [] => ([], s2)
        end in
      let '(exp, s4) :=
        match s3 with
        | c :: r =>
            if Ascii.eqb (lower_char c) "e" then
              let '(esign, r1) :=
                match r with
                | x :: r' =>
                    if Ascii.eqb x "+" || Ascii.eqb x "-" then ([x], r') else ([], r)
                | [] => ([], r)
                end in
              match span_digits r1 with
              | ([], _) => ([], s3)
              | (d, r') => (c :: esign ++ d, r')
              end
            else ([], s3)
        | [] => ([], s3)
        end in
      match frac, exp with
      | [], [] =>
          if max_str_digits <? length int_part then digits_error (length int_part)
          else
            inr (JInt (match sign with
                       | [] => Z_of_digits int_part
                       | _ => - Z_of_digits int_part
                       end), s4)
      | _, _ => inr (JFloat (sign ++ int_part ++ frac ++ exp), s4)
      end
  end.

(** [d[key] = v] on a dict. *)
Fixpoint dict_set (key : text) (v : JSON) (kv : list (text * JSON)) : list (text * JSON) :=
  match kv with
  | [] => [(key, v)]
  | (k, w) :: kv' =>
      if text_eqb k key then (k, v) :: kv' else (k, w) :: dict_set key v kv'
  end.

Definition keyword (k : string) (v : JSON) (s : text) : decoder_failure + (JSON * text) :=
  if startswith (lit k) s then inr (v, skipn (String.length k) s) else not_json.

(** [fuel] bounds the number of steps, [depth] the nesting still allowed. *)
Fixpoint scan_value (fuel depth : nat) (s : text) : decoder_failure + (JSON * text) :=
  match fuel with
  | O => not_json
  | S f =>
      match s with
      | [] => not_json
      | c :: r =>
          if Ascii.eqb c dq then
            match scan_string r [] with
            | Some (str, r') => inr (JString str, r')
            | None => not_json
            end
          else if Ascii.eqb c "{" then
            match depth with
            | O => depth_error "object"
            | S depth' =>
                match skip_ws r with
                | c' :: r' =>
                    if Ascii.eqb c' "}" then inr (JObject [], r')
                    else scan_members f depth' (c' :: r') []
                | [] => not_json
                end
            end
          else if Ascii.eqb c "[" then
            match depth with
            | O => depth_error "array"
            | S depth' =>
                match skip_ws r with
                | c' :: r' =>
                    if Ascii.eqb c' "]" then inr (JArray [], r')
                    else scan_elements f depth' (c' :: r') []
                | [] => not_json
                end
            end
          else if Ascii.eqb c "n" then keyword "null" JNull s
          else if Ascii.eqb c "t" then keyword "true" (JBool true) s
          else if Ascii.eqb c "f" then keyword "false" (JBool false) s
          else if Ascii.eqb c "N" then keyword "NaN" (JFloat (lit "NaN")) s
          else if Ascii.eqb c "I" then keyword "Infinity" (JFloat (lit "Infinity")) s
          else if startswith (lit "-Infinity") s then
            keyword "-Infinity" (JFloat (lit "-Infinity")) s
          else scan_number s
      end
  end

with scan_members (fuel depth : nat) (s : text) (acc : list (text * JSON))
  : decoder_failure + (JSON * text) :=
  match fuel with
  | O => not_json
  | S f =>
      match s with
      | c :: r =>
          if Ascii.eqb c dq then
            match scan_string r [] with
            | Some (key, r1) =>
                match skip_ws r1 with
                | c1 :: r2 =>
                    if Ascii.eqb c1 ":" then
                      match scan_value f depth (skip_ws r2) with
                      | inr (v, r3) =>
                          let acc' := dict_set key v acc in
                          match skip_ws r3 with
                          | c3 :: r4 =>
                              if Ascii.eqb c3 "}" then inr (JObject acc', r4)
                              else if Ascii.eqb c3 "," then
                                scan_members f depth (skip_ws r4) acc'
                              else not_json
                          | [] => not_json
                          end
                      | inl e => inl e
                      end
                    else not_json
                | [] => not_json
                end
            | None => not_json
            end
          else not_json
      | [] => not_json
      end
  end

with scan_elements (fuel depth : nat) (s : text) (acc : list JSON)
  : decoder_failure + (JSON * text) :=
  match fuel with
  | O => not_json
  | S f =>
      match scan_value f depth s with
      | inr (v, r) =>
          match skip_ws r with
          | c :: r' =>
              if Ascii.eqb c "]" then inr (JArray (rev (v :: acc)), r')
              else if Ascii.eqb c "," then scan_elements f depth (skip_ws r') (v :: acc)
              else not_json
          | [] => not_json
          end
      | inl e => inl e
      end
  end.

Definition json_loads_ref (s : text) : decoder_failure + JSON :=
  match scan_value (2 * length s + 2) nesting_limit (skip_ws s) with
  | inr (v, r) =>
      match skip_ws r with
      | [] => inr v
      | _ => not_json
      end
  | inl e => inl e
  end.

(** *** An ISO timestamp parser

    [fromisoformat_ref s] is [datetime.fromisoformat(s).astimezone(IST)] on
    the timestamps YYYY-MM-DDTHH:MM:SS with an optional fraction of six
    digits and an optional offset [+HH:MM] or [-HH:MM]; a timestamp without
    an offset is read as UTC, the local zone of the server. The instance
    refuses every other text with a [ValueError]; the parser of Python reads
    further ISO forms, which ones depending on its version. The result has
    the offset of Asia/Kolkata at its instant, as pytz tabulates the zone:
    the transition times of the tz database, and offsets rounded to the
    minute. *)

Definition number (d : text) : option Z :=
  match d with
  | [] => None
  | _ => if forallb is_digit d then Some (Z_of_digits d) else None
  end.

Definition is_leap (y : Z) : bool :=
  ((y mod 4 =? 0) && (negb (y mod 100 =? 0) || (y mod 400 =? 0)))%Z.

Definition days_in_month (y m : Z) : Z :=
  (if (m =? 2) && is_leap y then 29 else days_in_month_common m)%Z.

Definition days_before_year (year : Z) : Z :=
  (let y := year - 1 in y * 365 + y / 4 - y / 100 + y / 400)%Z.

Definition ymd2ord (y m d : Z) : Z :=
  (days_before_year y + days_before_month m
   + (if (2 <? m) && is_leap y then 1 else 0) + d)%Z.

(** The field of [width] digits at the head of [s], then the separator. *)
Definition field (width : nat) (sep : text) (s : text) : option (Z * text) :=
  match number (firstn width s) with
  | Some n =>
      if (length (firstn width s) =? width) && startswith sep (skipn width s)
      then Some (n, skipn (width + length sep) s) else None
  | None => None
  end.

(** The offset in minutes, which must stay below a day; none stands for
    UTC. *)
Definition scan_offset (s : text) : option Z :=
  match s with
  | [] => Some 0%Z
  | c :: r =>
      if Ascii.eqb c "+" || Ascii.eqb c "-" then
        match field 2 (lit ":") r with
        | Some (h, r1) =>
            match field 2 [] r1 with
            | Some (m, []) =>
                if (h * 60 + m <? 1440)%Z then
                  Some (if Ascii.eqb c "-" then - (h * 60 + m) else h * 60 + m)%Z
                else None
            | _ => None
            end
        | None => None
        end
      else None
  end.

Definition scan_fraction (s : text) : option (Z * text) :=
  match s with
  | c :: r => if Ascii.eqb c "." then field 6 [] r else Some (0%Z, s)
  | [] => Some (0%Z, s)
  end.

Definition utc_us (y m d hh mm ss : Z) : Z :=
  (((ymd2ord y m d - 1) * 86400 + hh * 3600 + mm * 60 + ss) * 1000000)%Z.

(** The offset of the zone at a time of the UTC clock, in seconds: local
    mean times until 1906 (5:53:28 and 5:53:20, rounded to 5:53, then
    5:21:10, rounded to 5:21), +05:30 since, with +06:30 from October 1941
    to May 1942 and from September 1942 to October 1945. *)
Definition kolkata_offset (utc : Z) : Z :=
  (if utc <? utc_us 1854 6 27 18 6 32 then 21180
   else if utc <? utc_us 1869 12 31 18 6 40 then 21180
   else if utc <? utc_us 1905 12 31 18 38 50 then 19260
   else if utc <? utc_us 1941 9 30 18 30 0 then 19800
   else if utc <? utc_us 1942 5 14 17 30 0 then 23400
   else if utc <? utc_us 1942 8 31 18 30 0 then 19800
   else if utc <? utc_us 1945 10 14 17 30 0 then 23400
   else 19800)%Z.

Definition fromisoformat_ref (s : text) : exn + datetime :=
  let bad := inl (ValueError (lit "Invalid isoformat string: '" ++ s ++ lit "'")) in
  let parsed :=
    ('(y, s1) <-? field 4 (lit "-") s ;;
     '(m, s2) <-? field 2 (lit "-") s1 ;;
     '(d, s3) <-? field 2 (lit "T") s2 ;;
     '(hh, s4) <-? field 2 (lit ":") s3 ;;
     '(mm, s5) <-? field 2 (lit ":") s4 ;;
     '(ss, s6) <-? field 2 [] s5 ;;
     '(us, s7) <-? scan_fraction s6 ;;
     off <-? scan_offset s7 ;;
     if ((1 <=? y) && (1 <=? m) && (m <=? 12) && (1 <=? d) && (d <=? days_in_month y m)
         && (hh <? 24) && (mm <? 60) && (ss <? 60))%Z
     then Some (((ymd2ord y m d - 1) * 86400 + hh * 3600 + mm * 60 + ss) * 1000000 + us,
                off)%Z
     else None)%py in
  match parsed with
  | None => bad
  | Some (written, off) =>
      let utc := (written - off * us_per_minute)%Z in
      let local := (utc + kolkata_offset utc * 1000000)%Z in
      if in_range utc && in_range local then inr (aware local (kolkata_offset utc))
      else inl (OverflowError (lit "date value out of range"))
  end.

(** *** Field validators, a store and a model

    The validators at their strictest, each type accepting its own JSON
    type only; a store that accepts every record and returns it; a store
    that fails with a given message. *)

Definition strict_str (v : JSON) : option text :=
  match v with JString s => Some s | _ => None end.

Definition strict_int (v : JSON) : option Z :=
  match v with JInt n => Some n | _ => None end.

Definition strict_bool (v : JSON) : option bool :=
  match v with JBool b => Some b | _ => None end.

Definition schema_error_ref (kv : list (text * JSON)) : text :=
  lit "validation error for QuizCreate".

Definition db_accept (calls : list Row) (r : Row) : exn + Created.t :=
  match r with
  | QuizzesRow q => inr (Created.Build (QuizRow.id q) (QuizRow.title q))
  | QuestionsRow q => inr (Created.Build (QuestionRow.quiz_id q) [])
  end.

Definition db_fail (msg : text) (calls : list Row) (r : Row) : exn + Created.t :=
  inl (Exception msg).

(* ------------------------------------------------------------------ *)
(** ** Notions used in the statements *)

(** The braces of a text, in order. *)
Definition is_brace (c : ascii) : bool := is_lbrace c || is_rbrace c.

Definition braces (s : text) : text := filter is_brace s.

(** An opening brace with a closing brace somewhere after it. *)
Definition has_brace_span (s : text) : Prop :=
  exists a b c, s = a ++ "{"%char :: b ++ "}"%char :: c.

Definition span_b (s : text) : bool :=
  match drop_until is_lbrace s with
  | [] => false
  | _ :: rest => existsb is_rbrace rest
  end.

(** No match of the fence pattern starts inside [s]; [bol] as in
    [fence_at]. *)
Fixpoint fence_free (bol : bool) (s : text) : bool :=
  match s with
  | [] => true
  | c :: t => (fence_at bol s =? 0) && fence_free (is_nl c) t
  end.

(** The text of a JSON object, as far as the sanitizer looks at it: it
    opens with a brace and closes with one. *)
Definition object_text (o : text) : Prop :=
  startswith (lit "{") o = true /\ endswith (lit "}") o = true.

(** [o] lies in [s] with no opening brace before it and no closing brace
    after it. *)
Definition framed (o s : text) : Prop :=
  exists p q, s = p ++ o ++ q
              /\ existsb is_lbrace p = false /\ existsb is_rbrace q = false.

(** The constraints on a question, in the order of the source, each with
    the message that names it. *)
Definition constraints (q : QuestionCreate.t) : list (bool * text) :=
  [ (length (QuestionCreate.question_text q) <=? 500,
     lit "Question text cannot exceed 500 characters");
    (length (QuestionCreate.option_a q) <=? 200,
     lit "Option A cannot exceed 200 characters");
    (length (QuestionCreate.option_b q) <=? 200,
     lit "Option B cannot exceed 200 characters");
    (length (QuestionCreate.option_c q) <=? 200,
     lit "Option C cannot exceed 200 characters");
    (length (QuestionCreate.option_d q) <=? 200,
     lit "Option D cannot exceed 200 characters");
    (existsb (text_eqb (QuestionCreate.correct_option q))
       [lit "a"; lit "b"; lit "c"; lit "d"],
     lit "Correct option must be 'a', 'b', 'c', or 'd'") ].

Definition first_violation (q : QuestionCreate.t) : option text :=
  option_map snd (find (fun c => negb (fst c)) (constraints q)).

Definition within_bounds (q : QuestionCreate.t) : Prop :=
  length (QuestionCreate.question_text q) <= 500
  /\ length (QuestionCreate.option_a q) <= 200
  /\ length (QuestionCreate.option_b q) <= 200
  /\ length (QuestionCreate.option_c q) <= 200
  /\ length (QuestionCreate.option_d q) <= 200
  /\ In (QuestionCreate.correct_option q) [lit "a"; lit "b"; lit "c"; lit "d"].

(** The error of the validation loop for question number [i], counted from
    one. *)
Definition question_error (i : nat) (m : text) : exn :=
  HTTPException 400 (lit "Question " ++ str_of_nat i ++ lit ": " ++ m).

(** The two failures of the sanitizer. *)
Definition NoJsonFound (raw_text : text) : exn :=
  HTTPException 400
    (lit "Gemini returned no JSON block." ++ [nl] ++ lit "Output:" ++ [nl] ++ raw_text).

Definition MalformedJson (e cleaned : text) : exn :=
  HTTPException 400
    (lit "Gemini returned invalid JSON: " ++ e ++ [nl]
     ++ lit "Cleaned Output:" ++ [nl] ++ cleaned).


(** [timedelta(minutes=d)] exists. *)
Definition delta_ok (d : Z) : Prop := (Z.abs (d / 1440) <= 999999999)%Z.





(** The failures of the persister and of the router. *)
Definition DuplicateTitle : exn :=
  HTTPException 400
    (lit "A quiz with this title already exists. Please choose a different title.").

Definition PersistenceError (store_message : text) : exn :=
  HTTPException 400 (lit "Failed to create quiz: " ++ store_message).

Definition EmptyQuiz : exn :=
  HTTPException 400 (lit "Quiz must have at least 1 question").

Definition is_http (e : exn) : bool :=
  match e with
  | HTTPException _ _ => true
  | _ => false
  end.

(** What every quiz record of the chatbot has, whatever was asked for. *)
Definition chatbot_row (r : Row) : Prop :=
  match r with
  | QuizzesRow q =>
      QuizRow.is_trivia q = false /\ QuizRow.topic q = None
      /\ QuizRow.difficulty q = None /\ QuizRow.popularity q = 0%Z
      /\ QuizRow.is_active q = true
  | QuestionsRow _ => True
  end.

Definition is_questions_row (r : Row) : Prop :=
  match r with
  | QuestionsRow _ => True
  | QuizzesRow _ => False
  end.

(** [l1] is [l2] with some of its elements deleted. *)
Inductive subseq {A : Type} : list A -> list A -> Prop :=
| subseq_nil : subseq [] []
| subseq_skip x l1 l2 : subseq l1 l2 -> subseq l1 (x :: l2)
| subseq_keep x l1 l2 : subseq l1 l2 -> subseq (x :: l1) (x :: l2).

(** The failures the route answers with: status, message, and whether more
    text follows the message. *)
Definition route_failures : list (nat * string * bool) :=
  [(500, "Gemini returned empty response", false);
   (400, "Gemini returned no JSON block.", true);
   (400, "Gemini returned invalid JSON: ", true);
   (400, "Quiz must have at least 1 question", false);
   (400, "Question ", true);
   (400, "Start time must be in the future for scheduled quizzes", false);
   (400, "Invalid start_time format. Use ISO format.", false);
   (400, "Quiz duration too long for the specified end time", false);
   (400, "Invalid end_time format. Use ISO format.", false);
   (400, "A quiz with this title already exists. Please choose a different title.",
    false);
   (400, "Failed to create quiz: ", true);
   (400, "Failed to parse AI response as JSON: ", true);
   (500, "Quiz generation failed: ", true)]%string.

Definition is_failure (e : exn) (f : nat * string * bool) : bool :=
  match e, f with
  | HTTPException status detail, (c, message, more) =>
      (status =? c)
      && (if more then startswith (lit message) detail
          else text_eqb detail (lit message))
  | _, _ => false
  end.

Definition catalogued (e : exn) : Prop := existsb (is_failure e) route_failures = true.

(** The field [key] of a payload is missing or holds a value that the
    validator [v] accepts. *)
Definition accepts {A : Type} (v : JSON -> option A) (key : string)
    (kv : list (text * JSON)) : Prop :=
  forall j, dict_lookup (lit key) kv = Some j -> exists x, v j = Some x.

(** *** Sample inputs *)

(** 2026-01-01T00:00:00+05:30 *)
Definition sample_now : datetime :=
  aware ((ymd2ord 2026 1 1 - 1) * us_per_day)%Z ist_offset.

Definition sample_user : list (text * text) := [(lit "id", lit "user-1")].

Definition sample_question : QuestionCreate.t :=
  QuestionCreate.Build (lit "2 + 2 = ?") (lit "3") (lit "4") (lit "5") (lit "6") (lit "b").

Definition wrong_question : QuestionCreate.t :=
  QuestionCreate.Build (lit "2 + 3 = ?") (lit "3") (lit "4") (lit "5") (lit "6") (lit "e").

Definition sample_quiz (start_time end_time : option text) (duration : Z)
    (questions : list QuestionCreate.t) : QuizCreate.t :=
  QuizCreate.Build (lit "Sums") (lit "Small sums") true (Some (lit "maths"))
    start_time end_time duration 1%Z 0%Z (lit "omni") true (Some (lit "easy")) questions.

Definition sample_question_json : string :=
  "{'question_text': '2 + 2 = ?', 'option_a': '3', 'option_b': '4', 'option_c': '5', 'option_d': '6', 'correct_option': 'b'}".

(** A model that answers every prompt with the same text. *)
Definition gemini_says (answer : text) (current_time prompt : text) : exn + option text :=
  inr (Some answer).

(** An answer of the model: an object between prose, a fence and
    parentheses. *)
Definition non_quiz_object : text :=
  quoted "{'intent': 'non_quiz', 'message': 'Ask me for a quiz.'}".

Definition fenced_prefix : text :=
  lit "Here is your answer:" ++ [nl] ++ lit "```json" ++ [nl] ++ lit "(".

Definition fenced_suffix : text := lit ")" ++ [nl] ++ lit "```" ++ [nl].

Definition non_quiz_dict : list (text * JSON) :=
  [(lit "intent", JString (lit "non_quiz"));
   (lit "message", JString (lit "Ask me for a quiz."))].

(** 2030-01-01T10:00:00+05:30 *)
Definition sample_start : datetime :=
  aware (((ymd2ord 2030 1 1 - 1) * 86400 + 10 * 3600) * 1000000)%Z ist_offset.

(** An answer of intent "quiz_creation" with [n] questions. *)
Definition quiz_answer (n : nat) : text :=
  quoted "{'intent': 'quiz_creation', 'title': 'Sums', 'description': 'Small sums', 'duration': 30, 'start_time': null, 'questions': ["
  ++ concat (map (fun i => (if i =? 0 then [] else lit ", ") ++ quoted sample_question_json)
               (seq 0 n))
  ++ lit "]}".

(** The same answer as the decoder returns it, and as the schema object. *)
Definition sample_question_dict : JSON :=
  JObject [(lit "question_text", JString (lit "2 + 2 = ?"));
           (lit "option_a", JString (lit "3"));
           (lit "option_b", JString (lit "4"));
           (lit "option_c", JString (lit "5"));
           (lit "option_d", JString (lit "6"));
           (lit "correct_option", JString (lit "b"))].

Definition quiz_answer_dict (n : nat) : list (text * JSON) :=
  [(lit "intent", JString (lit "quiz_creation"));
   (lit "title", JString (lit "Sums"));
   (lit "description", JString (lit "Small sums"));
   (lit "duration", JInt 30);
   (lit "start_time", JNull);
   (lit "questions", JArray (repeat sample_question_dict n))].

Definition quiz_answer_parsed (n : nat) : QuizCreate.t :=
  QuizCreate.Build (lit "Sums") (lit "Small sums") false None None None
    30 1 0 (lit "omni") true None (repeat sample_question n).

(** An answer whose only question has no options. *)
Definition incomplete_answer : text :=
  quoted "{'intent': 'quiz_creation', 'title': 'Sums', 'description': 'Small sums', 'questions': [{'question_text': '2 + 2 = ?'}]}".

Definition incomplete_dict : list (text * JSON) :=
  [(lit "intent", JString (lit "quiz_creation"));
   (lit "title", JString (lit "Sums"));
   (lit "description", JString (lit "Small sums"));
   (lit "questions", JArray [JObject [(lit "question_text", JString (lit "2 + 2 = ?"))]])].

(** A model whose call raises. *)
Definition gemini_raises (e : exn) (current_time prompt : text) : exn + option text :=
  inl e.

(** A request that came through a proxy which terminated TLS. *)
Definition proxied_request : Scope.t :=
  Scope.Build (lit "http")
    [(lit "host", lit "quiz.example"); (lit "x-forwarded-proto", lit "https");
     (lit "x-forwarded-proto", lit "http")]
    [(lit "path", lit "/chatbot/generate-quiz")].

(** An object whose only value is an integer of 4301 digits. *)
Definition long_integer_object : text :=
  quoted "{'n': " ++ repeat "1"%char 4301 ++ lit "}".

Definition digits_message : text :=
  lit "Exceeds the limit (4300 digits) for integer string conversion: value has 4301 digits; use sys.set_int_max_str_digits() to increase the limit".

(** The keyword arguments of a quiz with one question and no duration. *)
Definition payload_without_duration : list (text * JSON) :=
  [(lit "title", JString (lit "Sums"));
   (lit "description", JString (lit "Small sums"));
   (lit "questions", JArray [sample_question_dict])].

(** An answer with the two required fields and nothing else. *)
Definition bare_answer : text :=
  quoted "{'intent': 'quiz_creation', 'title': 'Sums', 'description': 'Small sums'}".

Definition bare_dict : list (text * JSON) :=
  [(lit "intent", JString (lit "quiz_creation"));
   (lit "title", JString (lit "Sums"));
   (lit "description", JString (lit "Small sums"))].

(* ------------------------------------------------------------------ *)
(** ** The pipeline *)

Section Pipeline.

Open Scope py_scope.
Set Default Proof Using "Type".

(** [json.loads]: the decoded value, or what it raises. *)
Variable json_loads : text -> decoder_failure + JSON.

(** [datetime.fromisoformat(s).astimezone(IST)] *)
Variable fromisoformat_ist : text -> exn + datetime.

(** [datetime.now(IST)] where [generate_quiz] composes its prompt, where
    [create_quiz_internal] resolves the times, and where it stamps the
    record. *)
Variable now_prompt : datetime.
Variable now : datetime.
Variable now_created : datetime.

(** [str(uuid4())] *)
Variable uuid : text.

(** [db.insert]: what the store answers to a record, given the records it
    was handed before. *)
Variable db_insert : list Row -> Row -> exn + Created.t.

(** [client.models.generate_content(...).text] for the prompt composed of
    the instruction template, the current time and the user's request. *)
Variable gemini : text -> text -> exn + option text.

(** pydantic's validation of a [str], an [int] and a [bool] field, and
    the text of its [ValidationError]. *)
Variable v_str : JSON -> option text.
Variable v_int : JSON -> option Z.
Variable v_bool : JSON -> option bool.
Variable schema_error : list (text * JSON) -> text.

(** *** The constructor of [QuizCreate] on the keyword arguments [quiz_data] *)

Definition required {A : Type} (v : JSON -> option A) (key : string)
    (kv : list (text * JSON)) : option A :=
  match dict_lookup (lit key) kv with
  | Some j => v j
  | None => None
  end.

Definition defaulted {A : Type} (v : JSON -> option A) (key : string) (default : A)
    (kv : list (text * JSON)) : option A :=
  match dict_lookup (lit key) kv with
  | Some j => v j
  | None => Some default
  end.

(** [Optional[str]] *)
Definition v_optional_str (j : JSON) : option (option text) :=
  match j with
  | JNull => Some None
  | _ => option_map Some (v_str j)
  end.

Definition parse_question (j : JSON) : option QuestionCreate.t :=
  match j with
  | JObject kv =>
      question_text <-? required v_str "question_text" kv ;;
      option_a <-? required v_str "option_a" kv ;;
      option_b <-? required v_str "option_b" kv ;;
      option_c <-? required v_str "option_c" kv ;;
      option_d <-? required v_str "option_d" kv ;;
      correct_option <-? required v_str "correct_option" kv ;;
      Some (QuestionCreate.Build question_text option_a option_b option_c option_d
              correct_option)
  | _ => None
  end.

(** [List[QuestionCreate]] *)
Definition v_questions (j : JSON) : option (list QuestionCreate.t) :=
  match j with
  | JArray xs => omap parse_question xs
  | _ => None
  end.

Definition parse_fields (kv : list (text * JSON)) : option QuizCreate.t :=
  title <-? required v_str "title" kv ;;
  description <-? required v_str "description" kv ;;
  is_trivia <-? defaulted v_bool "is_trivia" false kv ;;
  topic <-? defaulted v_optional_str "topic" None kv ;;
  start_time <-? defaulted v_optional_str "start_time" None kv ;;
  end_time <-? defaulted v_optional_str "end_time" None kv ;;
  duration <-? defaulted v_int "duration" 60%Z kv ;;
  positive_mark <-? defaulted v_int "positive_mark" 1%Z kv ;;
  negative_mark <-? defaulted v_int "negative_mark" 0%Z kv ;;
  navigation_type <-? defaulted v_str "navigation_type" (lit "omni") kv ;;
  tab_switch_exit <-? defaulted v_bool "tab_switch_exit" true kv ;;
  difficulty <-? defaulted v_optional_str "difficulty" None kv ;;
  questions <-? defaulted v_questions "questions" [] kv ;;
  Some (QuizCreate.Build title description is_trivia topic start_time end_time
          duration positive_mark negative_mark navigation_type tab_switch_exit
          difficulty questions).

Definition parse_QuizCreate (kv : list (text * JSON)) : exn + QuizCreate.t :=
  match parse_fields kv with
  | Some q => inr q
  | None => inl (ValueError (schema_error kv))
  end.

(** *** [create_quiz_internal] *)

(** [datetime.fromisoformat(s.replace('Z', '+00:00')).astimezone(IST)] *)
Definition parse_ist (s : text) : exn + datetime :=
  fromisoformat_ist (replace_char "Z" (lit "+00:00") s).

(** The [try] block that starts from [start_time], with its handler. *)
Definition from_start_time (start_time : text) (duration : Z)
  : exn + (option text * option text) :=
  let current_time := now in
  let attempt :=
    start_dt <-! parse_ist start_time ;;
    if dt_le start_dt current_time then
      inl (HTTPException 400
             (lit "Start time must be in the future for scheduled quizzes"))
    else
      let start_time := isoformat start_dt in
      delta <-! timedelta_minutes duration ;;
      end_dt <-! dt_add start_dt delta ;;
      inr (Some start_time, Some (isoformat end_dt)) in
  match attempt with
  | inl e =>
      if is_ValueError e then
        inl (HTTPException 400 (lit "Invalid start_time format. Use ISO format."))
      else inl e
  | inr r => inr r
  end.

(** The [try] block that starts from [end_time], with its handler. *)
Definition from_end_time (end_time : text) (duration : Z)
  : exn + (option text * option text) :=
  let current_time := now in
  let attempt :=
    end_dt <-! parse_ist end_time ;;
    delta <-! timedelta_minutes duration ;;
    start_dt <-! dt_sub end_dt delta ;;
    if dt_le start_dt current_time then
      inl (HTTPException 400
             (lit "Quiz duration too long for the specified end time"))
    else inr (Some (isoformat start_dt), Some (isoformat end_dt)) in
  match attempt with
  | inl e =>
      if is_ValueError e then
        inl (HTTPException 400 (lit "Invalid end_time format. Use ISO format."))
      else inl e
  | inr r => inr r
  end.

(** The timestamps of the record, lines 176 to 214: [if start_time: ...
    elif end_time: ...], where [None] and the empty text are false. *)
Definition resolve_times (quiz_data : QuizCreate.t)
  : exn + (option text * option text) :=
  match QuizCreate.start_time quiz_data with
  | Some (c :: s) => from_start_time (c :: s) (QuizCreate.duration quiz_data)
  | _ =>
      match QuizCreate.end_time quiz_data with
      | Some (c :: e) => from_end_time (c :: e) (QuizCreate.duration quiz_data)
      | _ => inr (None, None)
      end
  end.

Definition insert (r : Row) : M Created.t :=
  fun calls => (db_insert calls r, calls ++ [r]).

Definition question_row (created_quiz : Created.t) (quiz_data : QuizCreate.t)
    (question_data : QuestionCreate.t) : Row :=
  QuestionsRow
    (QuestionRow.Build (Created.id created_quiz)
       (QuestionCreate.question_text question_data)
       (QuestionCreate.option_a question_data)
       (QuestionCreate.option_b question_data)
       (QuestionCreate.option_c question_data)
       (QuestionCreate.option_d question_data)
       (QuestionCreate.correct_option question_data)
       (QuizCreate.positive_mark quiz_data)).

Fixpoint insert_questions (created_quiz : Created.t) (quiz_data : QuizCreate.t)
    (qs : list QuestionCreate.t) : M unit :=
  match qs with
  | [] => ret tt
  | question_data :: qs' =>
      insert (question_row created_quiz quiz_data question_data) ;;;
      insert_questions created_quiz quiz_data qs'
  end.

Definition quiz_row (quiz_data : QuizCreate.t) (creator_id : text)
    (start_time end_time : option text) : Row :=
  QuizzesRow
    (QuizRow.Build uuid
       (QuizCreate.title quiz_data)
       (QuizCreate.description quiz_data)
       creator_id
       false
       None
       start_time
       end_time
       (QuizCreate.duration quiz_data)
       (QuizCreate.positive_mark quiz_data)
       (QuizCreate.negative_mark quiz_data)
       (QuizCreate.navigation_type quiz_data)
       (QuizCreate.tab_switch_exit quiz_data)
       None
       0%Z
       true
       (isoformat now_created)).

(** The [try] block of [create_quiz_internal]. *)
Definition create_quiz_body (quiz_data : QuizCreate.t)
    (current_user : list (text * text)) : M QuizRef.t :=
  if 50 <? length (QuizCreate.questions quiz_data) then
    raise (HTTPException 400 (lit "Maximum 50 questions allowed per quiz"))
  else if length (QuizCreate.questions quiz_data) <? 1 then
    raise (HTTPException 400 (lit "At least 1 question is required"))
  else
    lift (validate_questions 0 (QuizCreate.questions quiz_data)) ;;;
    times <- lift (resolve_times quiz_data) ;;
    creator_id <- lift (user_id current_user) ;;
    created_quiz <- insert (quiz_row quiz_data creator_id (fst times) (snd times)) ;;
    insert_questions created_quiz quiz_data (QuizCreate.questions quiz_data) ;;;
    ret (QuizRef.Build (Created.id created_quiz) (Created.title created_quiz)).

Definition create_quiz_internal (quiz_data : QuizCreate.t)
    (current_user : list (text * text)) : M QuizRef.t :=
  try_except (create_quiz_body quiz_data current_user)
    (fun e => raise (classify_failure e)).

(** *** [generate_quiz] *)

Definition fallback_message : text :=
  lit "I'm a Quiz Creation Bot. Please describe the quiz you want to create.".

Definition unclear_message : text :=
  lit "I'm a Quiz Creation Bot. I can only help you create quizzes. Please describe the quiz you want to create, for example: 'Create a quiz on Python programming with 10 questions'.".

Definition non_quiz_response (response_json : list (text * JSON)) : Response.t :=
  Response.Build false (lit "non_quiz")
    (dict_get (lit "message") (JString fallback_message) response_json)
    None None None None None false.

Definition unclear_response : Response.t :=
  Response.Build false (lit "unclear") (JString unclear_message)
    None None None None None false.

Definition created_response (result : QuizRef.t) (quiz_obj : QuizCreate.t)
    (prompt : text) : Response.t :=
  Response.Build true (lit "quiz_creation")
    (JString (lit "Quiz '" ++ QuizRef.title result
              ++ lit "' created successfully! You can view it in your My Quizzes page."))
    (Some (QuizRef.quiz_id result))
    (Some (QuizRef.title result))
    (Some (length (QuizCreate.questions quiz_obj)))
    (Some (lit "Check your quiz in /my-quizzes page"))
    (Some prompt)
    true.

(** The clamp on the number of generated questions. *)
Definition clamp_questions (quiz_obj : QuizCreate.t) : QuizCreate.t :=
  if 20 <? length (QuizCreate.questions quiz_obj) then
    QuizCreate.with_questions (firstn 20 (QuizCreate.questions quiz_obj)) quiz_obj
  else quiz_obj.

(** What [generate_quiz] does with the sanitized answer. *)
Definition route (response_json : list (text * JSON)) (prompt : text)
    (current_user : list (text * text)) : M Response.t :=
  if json_is_str (lit "non_quiz") (dict_get (lit "intent") JNull response_json) then
    ret (non_quiz_response response_json)
  else if json_is_str (lit "quiz_creation")
            (dict_get (lit "intent") JNull response_json) then
    let quiz_data :=
      filter (fun kv => negb (text_eqb (fst kv) (lit "intent"))) response_json in
    quiz_obj <- lift (parse_QuizCreate quiz_data) ;;
    if length (QuizCreate.questions quiz_obj) <? 1 then
      raise (HTTPException 400 (lit "Quiz must have at least 1 question"))
    else
      let quiz_obj := clamp_questions quiz_obj in
      result <- create_quiz_internal quiz_obj current_user ;;
      ret (created_response result quiz_obj prompt)
  else ret unclear_response.

(** The [try] block of [generate_quiz]. *)
Definition generate_quiz_body (prompt : text) (current_user : list (text * text))
  : M Response.t :=
  response_text <- lift (gemini (isoformat now_prompt) prompt) ;;
  match response_text with
  | Some (c :: t) =>
      response_json <- lift (clean_gemini_json json_loads (c :: t)) ;;
      d <- lift (as_dict response_json) ;;
      route d prompt current_user
  | _ => raise (HTTPException 500 (lit "Gemini returned empty response"))
  end.

Definition generate_quiz (prompt : text) (current_user : list (text * text))
  : M Response.t :=
  try_except (generate_quiz_body prompt current_user)
    (fun e =>
       match e with
       | HTTPException _ _ => raise e
       | JSONDecodeError m =>
           raise (HTTPException 400
                    (lit "Failed to parse AI response as JSON: " ++ m))
       | _ => raise (HTTPException 500 (lit "Quiz generation failed: " ++ exn_str e))
       end).

(** *** Notions used in the statements *)

(** The store accepts the records [rows] one after the other, after the
    calls [calls]. *)
Fixpoint accepted (calls : list Row) (rows : list Row) : Prop :=
  match rows with
  | [] => True
  | r :: rows' =>
      (exists c, db_insert calls r = inr c) /\ accepted (calls ++ [r]) rows'
  end.

(** The answer the sanitizer extracts from the model's text for a prompt. *)
Definition answer (prompt : text) (d : list (text * JSON)) : Prop :=
  exists txt, gemini (isoformat now_prompt) prompt = inr (Some txt)
              /\ txt <> []
              /\ clean_gemini_json json_loads txt = inr (JObject d).

Definition intent_is (s : string) (d : list (text * JSON)) : bool :=
  json_is_str (lit s) (dict_get (lit "intent") JNull d).

(** The keyword arguments of [QuizCreate] taken from the answer. *)
Definition quiz_fields (d : list (text * JSON)) : list (text * JSON) :=
  filter (fun kv => negb (text_eqb (fst kv) (lit "intent"))) d.
(* ------------------------------------------------------------------ *)
(** ** Properties of the text functions *)

Lemma is_space_not_brace c : is_space c = true -> is_brace c = false.
Proof.
  unfold is_brace, is_lbrace, is_rbrace; intros H.
  destruct (Ascii.eqb c "{") eqn:E1.
  - apply Ascii.eqb_eq in E1; subst c; discriminate H.
  - destruct (Ascii.eqb c "}") eqn:E2; [|reflexivity].
    apply Ascii.eqb_eq in E2; subst c; discriminate H.
Qed.

Lemma braces_app a b : braces (a ++ b) = braces a ++ braces b.
Proof. apply filter_app. Qed.

Lemma braces_rev s : braces (rev s) = rev (braces s).
Proof.
  induction s as [|c s IH]; simpl; [reflexivity|].
  rewrite braces_app, IH; simpl.
  destruct (is_brace c); simpl; [reflexivity | apply app_nil_r].
Qed.

Lemma braces_lstrip s : braces (lstrip s) = braces s.
Proof.
  induction s as [|c s IH]; simpl; [reflexivity|].
  destruct (is_space c) eqn:E; [|reflexivity].
  rewrite IH, (is_space_not_brace _ E); reflexivity.
Qed.

Lemma braces_strip s : braces (strip s) = braces s.
Proof.
  unfold strip, rstrip.
  rewrite braces_rev, braces_lstrip, braces_rev, rev_involutive.
  apply braces_lstrip.
Qed.

Lemma matches_firstn (Q : ascii -> Prop) ps s :
  (forall p c, In p ps -> p c = true -> Q c) ->
  matches ps s = true -> Forall Q (firstn (length ps) s).
Proof.
  revert s; induction ps as [|p ps IH]; intros s HQ H; simpl; [constructor|].
  destruct s as [|c s]; simpl in H; [discriminate|].
  apply andb_prop in H; destruct H as [Hp Hm].
  constructor.
  - apply (HQ p c); [left; reflexivity | exact Hp].
  - apply IH; [|exact Hm]. intros p' c' Hin; apply HQ; right; exact Hin.
Qed.

Lemma fence_class_not_brace p c :
  In p fence_json -> p c = true -> is_brace c = false.
Proof.
  unfold is_brace, is_lbrace, is_rbrace; intros Hin Hp.
  destruct (Ascii.eqb c "{") eqn:E1.
  - apply Ascii.eqb_eq in E1; subst c.
    simpl in Hin; repeat (destruct Hin as [<-|Hin]; [discriminate Hp|]); destruct Hin.
  - destruct (Ascii.eqb c "}") eqn:E2; [|reflexivity].
    apply Ascii.eqb_eq in E2; subst c.
    simpl in Hin; repeat (destruct Hin as [<-|Hin]; [discriminate Hp|]); destruct Hin.
Qed.

(** A match of the fence pattern covers no brace. *)
Lemma fence_at_no_brace bol s :
  Forall (fun c => is_brace c = false) (firstn (fence_at bol s) s).
Proof.
  unfold fence_at.
  destruct (matches fence3 s) eqn:E3; [|constructor].
  assert (H3 : Forall (fun c => is_brace c = false) (firstn 3 s)).
  { apply (matches_firstn (fun c => is_brace c = false) fence3 s); [|exact E3].
    intros p c Hin; apply fence_class_not_brace.
    unfold fence_json; apply in_or_app; left; exact Hin. }
  destruct bol.
  - destruct (matches fence_json s) eqn:E7; [|exact H3].
    apply (matches_firstn (fun c => is_brace c = false) fence_json s); [|exact E7].
    intros p c; apply fence_class_not_brace.
  - destruct (at_eol (skipn 3 s)); [exact H3 | constructor].
Qed.

Lemma braces_sub_fences s : forall skip bol,
  Forall (fun c => is_brace c = false) (firstn skip s) ->
  braces (sub_fences skip bol s) = braces s.
Proof.
  induction s as [|c t IH]; intros skip bol Hs; [reflexivity|].
  assert (Hdrop : forall k, Forall (fun c => is_brace c = false) (firstn (S k) (c :: t)) ->
                  braces (sub_fences k (is_nl c) t) = braces (c :: t)).
  { intros k Hk; simpl in Hk; inversion Hk as [|? ? Hc Ht]; subst.
    simpl; rewrite Hc; apply IH; exact Ht. }
  destruct skip as [|k].
  - change (sub_fences 0 bol (c :: t)) with
      (match fence_at bol (c :: t) with
       | S k => sub_fences k (is_nl c) t
       | O => c :: sub_fences 0 (is_nl c) t
       end).
    pose proof (fence_at_no_brace bol (c :: t)) as Hf.
    destruct (fence_at bol (c :: t)) as [|k].
    + simpl; rewrite (IH 0 (is_nl c)); [reflexivity | constructor].
    + apply Hdrop; exact Hf.
  - apply Hdrop; exact Hs.
Qed.

Lemma endswith_char x s :
  endswith [x] s = true -> exists s', s = s' ++ [x].
Proof.
  unfold endswith; simpl; intros H.
  destruct (rev s) as [|y r] eqn:E; [discriminate|].
  apply andb_prop in H; destruct H as [H _].
  apply Ascii.eqb_eq in H; subst y.
  exists (rev r). rewrite <- (rev_involutive s), E; reflexivity.
Qed.

Lemma startswith_char x s :
  startswith [x] s = true -> exists s', s = x :: s'.
Proof.
  destruct s as [|y s]; simpl; [discriminate|]; intros H.
  apply andb_prop in H; destruct H as [H _].
  apply Ascii.eqb_eq in H; subst y. exists s; reflexivity.
Qed.

Lemma braces_strip_parens s : braces (strip_parens s) = braces s.
Proof.
  unfold strip_parens.
  destruct (startswith (lit "(") s && endswith (lit ")") s) eqn:E; [|reflexivity].
  apply andb_prop in E; destruct E as [E1 E2].
  apply startswith_char in E1; destruct E1 as [t ->].
  apply endswith_char in E2; destruct E2 as [u Hu].
  rewrite braces_strip; unfold slice_1_m1; simpl tl.
  destruct u as [|c u]; [destruct t; discriminate Hu|].
  simpl in Hu; injection Hu as <- ->.
  rewrite removelast_last.
  change (braces u = braces ([ "("%char ] ++ u ++ lit ")")).
  rewrite !braces_app; simpl; rewrite app_nil_r; reflexivity.
Qed.

(** The cleaning steps delete no brace. *)
Lemma braces_cleaned_text raw : braces (cleaned_text raw) = braces raw.
Proof.
  unfold cleaned_text.
  rewrite braces_strip_parens, braces_strip, braces_sub_fences, braces_strip;
    [reflexivity | constructor].
Qed.

Lemma drop_until_nil p s : drop_until p s = [] <-> existsb p s = false.
Proof.
  induction s as [|c s IH]; simpl; [split; reflexivity|].
  destruct (p c); simpl; [split; discriminate | exact IH].
Qed.

Lemma existsb_rev (p : ascii -> bool) s : existsb p (rev s) = existsb p s.
Proof.
  induction s as [|c s IH]; simpl; [reflexivity|].
  rewrite existsb_app, IH; simpl; rewrite orb_false_r; apply orb_comm.
Qed.

Lemma search_braces_none s : search_braces s = None <-> span_b s = false.
Proof.
  unfold search_braces, span_b.
  destruct (drop_until is_lbrace s) as [|c rest]; [split; reflexivity|].
  rewrite <- (existsb_rev is_rbrace rest), <- drop_until_nil.
  destruct (drop_until is_rbrace (rev rest)) as [|y r] eqn:E; [split; reflexivity|].
  destruct (rev (y :: r)) eqn:E'.
  - apply (f_equal (@rev ascii)) in E'; rewrite rev_involutive in E'; discriminate E'.
  - split; discriminate.
Qed.

Lemma existsb_rbrace_braces s : existsb is_rbrace (braces s) = existsb is_rbrace s.
Proof.
  induction s as [|c s IH]; simpl; [reflexivity|].
  unfold is_brace at 1.
  destruct (is_lbrace c) eqn:E1, (is_rbrace c) eqn:E2; simpl; rewrite ?E2, IH; reflexivity.
Qed.

Lemma span_b_braces s : span_b (braces s) = span_b s.
Proof.
  unfold span_b.
  induction s as [|c s IH]; simpl; [reflexivity|].
  unfold is_brace at 1.
  destruct (is_lbrace c) eqn:E1; simpl.
  - rewrite E1; apply existsb_rbrace_braces.
  - destruct (is_rbrace c) eqn:E2; simpl; rewrite ?E1; exact IH.
Qed.

Lemma drop_until_split p s c rest :
  drop_until p s = c :: rest ->
  exists a, s = a ++ c :: rest /\ p c = true /\ existsb p a = false.
Proof.
  induction s as [|x s IH]; simpl; [discriminate|].
  destruct (p x) eqn:E.
  - intros H; injection H as -> ->. exists []; auto.
  - intros H; destruct (IH H) as (a & -> & Hc & Ha).
    exists (x :: a); simpl; rewrite E; auto.
Qed.

Lemma span_b_true s : span_b s = true <-> has_brace_span s.
Proof.
  unfold span_b, has_brace_span; split.
  - destruct (drop_until is_lbrace s) as [|c rest] eqn:E; [discriminate|].
    intros H. destruct (drop_until_split _ _ _ _ E) as (a & -> & Hc & _).
    apply Ascii.eqb_eq in Hc; subst c.
    apply existsb_exists in H; destruct H as (x & Hin & Hx).
    apply Ascii.eqb_eq in Hx; subst x.
    apply in_split in Hin; destruct Hin as (b & c & ->).
    exists a, b, c; reflexivity.
  - intros (a & b & c & ->).
    induction a as [|x a IH]; simpl.
    + rewrite existsb_app; simpl; apply orb_true_r.
    + destruct (is_lbrace x); [|exact IH].
      rewrite existsb_app; simpl. rewrite existsb_app; simpl.
      rewrite !orb_true_r; reflexivity.
Qed.

(** The sanitizer finds a span in the cleaned text exactly when the raw text
    has one. *)
Lemma search_cleaned_none raw :
  search_braces (cleaned_text raw) = None <-> ~ has_brace_span raw.
Proof.
  rewrite search_braces_none, <- span_b_braces, braces_cleaned_text, span_b_braces.
  rewrite <- span_b_true. destruct (span_b raw); split; congruence.
Qed.

(** *** The sanitizer on a framed object *)

Lemma object_text_shape o :
  object_text o -> exists mid, o = "{"%char :: mid ++ ["}"%char].
Proof.
  intros [H1 H2].
  apply startswith_char in H1; destruct H1 as [t ->].
  apply endswith_char in H2; destruct H2 as [u Hu].
  destruct u as [|c u]; [discriminate Hu|].
  simpl in Hu; injection Hu as <- ->. exists u; reflexivity.
Qed.

Lemma lstrip_app_stop p x r :
  is_space x = false -> lstrip (p ++ x :: r) = lstrip p ++ x :: r.
Proof.
  intros Hx; induction p as [|c p IH]; simpl; [rewrite Hx; reflexivity|].
  destruct (is_space c); [exact IH | reflexivity].
Qed.

Lemma existsb_lstrip (P : ascii -> bool) s :
  existsb P s = false -> existsb P (lstrip s) = false.
Proof.
  induction s as [|c s IH]; simpl; [reflexivity|]; intros H.
  destruct (is_space c); [|exact H].
  apply orb_false_elim in H; apply IH, H.
Qed.

Lemma existsb_rstrip (P : ascii -> bool) s :
  existsb P s = false -> existsb P (rstrip s) = false.
Proof.
  intros H; unfold rstrip. rewrite existsb_rev.
  apply existsb_lstrip. rewrite existsb_rev; exact H.
Qed.

Lemma strip_frame p mid q :
  strip (p ++ ("{"%char :: mid ++ ["}"%char]) ++ q)
  = lstrip p ++ ("{"%char :: mid ++ ["}"%char]) ++ rstrip q.
Proof.
  unfold strip.
  change (p ++ ("{"%char :: mid ++ ["}"%char]) ++ q)
    with (p ++ "{"%char :: ((mid ++ ["}"%char]) ++ q)).
  rewrite lstrip_app_stop by reflexivity.
  unfold rstrip.
  replace (rev (lstrip p ++ "{"%char :: (mid ++ ["}"%char]) ++ q))
    with (rev q ++ "}"%char :: (rev mid ++ ["{"%char] ++ rev (lstrip p))).
  2:{ rewrite rev_app_distr; simpl. rewrite !rev_app_distr; simpl.
      rewrite <- !app_assoc; reflexivity. }
  rewrite lstrip_app_stop by reflexivity.
  rewrite rev_app_distr; simpl. rewrite !rev_app_distr; simpl.
  rewrite !rev_involutive, <- !app_assoc; reflexivity.
Qed.

Lemma framed_strip o s : object_text o -> framed o s -> framed o (strip s).
Proof.
  intros Ho (p & q & -> & Hp & Hq).
  destruct (object_text_shape _ Ho) as [mid ->].
  rewrite strip_frame.
  exists (lstrip p), (rstrip q); repeat split.
  - apply existsb_lstrip, Hp.
  - apply existsb_rstrip, Hq.
Qed.

Lemma matches_app_last ps s x q :
  (forall p, In p ps -> p x = false) ->
  matches ps ((s ++ [x]) ++ q) = matches ps (s ++ [x]).
Proof.
  revert s; induction ps as [|p ps IH]; intros s Hx; [reflexivity|].
  destruct s as [|c s]; simpl.
  - rewrite (Hx p) by (left; reflexivity); reflexivity.
  - rewrite IH; [reflexivity|]. intros p' Hin; apply Hx; right; exact Hin.
Qed.

Lemma fence_class_rbrace p : In p fence_json -> p "}"%char = false.
Proof.
  intros Hin. destruct (p "}"%char) eqn:E; [|reflexivity].
  pose proof (fence_class_not_brace p _ Hin E) as H; discriminate H.
Qed.

(** What follows a text that ends with a closing brace has no say in the
    fence matches that start inside it. *)
Lemma fence_at_app bol s q :
  fence_at bol ((s ++ ["}"%char]) ++ q) = fence_at bol (s ++ ["}"%char]).
Proof.
  unfold fence_at.
  rewrite !matches_app_last.
  2:{ apply fence_class_rbrace. }
  2:{ intros p Hin; apply fence_class_rbrace.
      unfold fence_json; apply in_or_app; left; exact Hin. }
  destruct (matches fence3 (s ++ ["}"%char])) eqn:E; [|reflexivity].
  destruct bol; [reflexivity|].
  destruct s as [|a [|b [|c s]]]; simpl in E.
  - discriminate E.
  - rewrite andb_false_r in E; discriminate E.
  - rewrite !andb_false_r in E; discriminate E.
  - simpl. destruct s; reflexivity.
Qed.

Lemma sub_fences_0_cons bol c t :
  sub_fences 0 bol (c :: t)
  = match fence_at bol (c :: t) with
    | S k => sub_fences k (is_nl c) t
    | O => c :: sub_fences 0 (is_nl c) t
    end.
Proof. reflexivity. Qed.

Lemma sub_fences_object s : forall bol q,
  fence_free bol (s ++ ["}"%char]) = true ->
  sub_fences 0 bol ((s ++ ["}"%char]) ++ q) = (s ++ ["}"%char]) ++ sub_fences 0 false q.
Proof.
  induction s as [|c s IH]; intros bol q H.
  - simpl app. rewrite sub_fences_0_cons. reflexivity.
  - change ((c :: s) ++ ["}"%char]) with (c :: (s ++ ["}"%char])) in *.
    simpl in H. apply andb_prop in H; destruct H as [H0 Hf].
    apply Nat.eqb_eq in H0.
    change ((c :: s ++ ["}"%char]) ++ q) with (c :: (s ++ ["}"%char]) ++ q).
    rewrite sub_fences_0_cons.
    change (c :: (s ++ ["}"%char]) ++ q) with (((c :: s) ++ ["}"%char]) ++ q).
    rewrite fence_at_app. simpl app. rewrite H0.
    rewrite IH by exact Hf. reflexivity.
Qed.

Lemma fence_free_head bol t :
  fence_free bol ("{"%char :: t) = fence_free true ("{"%char :: t).
Proof. reflexivity. Qed.

Lemma firstn_forall_bound (Q : ascii -> Prop) x r : forall p n,
  Forall Q (firstn n (p ++ x :: r)) -> ~ Q x -> n <= length p.
Proof.
  induction p as [|c p IH]; intros n H Hx.
  - destruct n; [lia|]. simpl in H. inversion H; subst; contradiction.
  - destruct n; [simpl; lia|]. simpl in H. inversion H; subst.
    simpl. apply le_n_S. apply IH; assumption.
Qed.

Lemma existsb_sub_fences (P : ascii -> bool) s : forall k b,
  existsb P s = false -> existsb P (sub_fences k b s) = false.
Proof.
  induction s as [|c s IH]; intros k b H; [reflexivity|].
  simpl in H. apply orb_false_elim in H; destruct H as [Hc Hs].
  destruct k as [|k].
  - rewrite sub_fences_0_cons. destruct (fence_at b (c :: s)).
    + simpl. rewrite Hc. apply IH, Hs.
    + apply IH, Hs.
  - simpl. apply IH, Hs.
Qed.

Lemma sub_fences_frame mid q : forall p skip bol,
  skip <= length p ->
  existsb is_lbrace p = false ->
  fence_free true ("{"%char :: mid ++ ["}"%char]) = true ->
  exists p',
    sub_fences skip bol (p ++ ("{"%char :: mid ++ ["}"%char]) ++ q)
    = p' ++ ("{"%char :: mid ++ ["}"%char]) ++ sub_fences 0 false q
    /\ existsb is_lbrace p' = false.
Proof.
  induction p as [|c p IH]; intros skip bol Hk Hp Hf.
  - simpl in Hk. assert (skip = 0) by lia; subst skip.
    exists []; split; [|reflexivity]. simpl app at 1.
    apply (sub_fences_object ("{"%char :: mid) bol q).
    simpl app. rewrite fence_free_head. exact Hf.
  - simpl in Hp. apply orb_false_elim in Hp; destruct Hp as [Hc Hp].
    assert (Hdrop : forall k, k <= length p ->
              exists p',
                sub_fences k (is_nl c) (p ++ ("{"%char :: mid ++ ["}"%char]) ++ q)
                = p' ++ ("{"%char :: mid ++ ["}"%char]) ++ sub_fences 0 false q
                /\ existsb is_lbrace p' = false).
    { intros k Hk'. apply IH; assumption. }
    destruct skip as [|k].
    + change ((c :: p) ++ ("{"%char :: mid ++ ["}"%char]) ++ q)
        with (c :: (p ++ ("{"%char :: mid ++ ["}"%char]) ++ q)).
      rewrite sub_fences_0_cons.
      pose proof (fence_at_no_brace bol
                    (c :: (p ++ ("{"%char :: mid ++ ["}"%char]) ++ q))) as Hn.
      destruct (fence_at bol (c :: p ++ ("{"%char :: mid ++ ["}"%char]) ++ q)) as [|k].
      * destruct (Hdrop 0 (Nat.le_0_l _)) as (p' & E & Hp').
        exists (c :: p'); split; [rewrite E; reflexivity|].
        simpl; rewrite Hc; exact Hp'.
      * apply Hdrop.
        change (c :: p ++ ("{"%char :: mid ++ ["}"%char]) ++ q)
          with ((c :: p) ++ "{"%char :: ((mid ++ ["}"%char]) ++ q)) in Hn.
        apply firstn_forall_bound in Hn; [simpl in Hn; lia | discriminate].
    + simpl. apply Hdrop. simpl in Hk; lia.
Qed.

Lemma framed_sub_fences o s bol :
  object_text o -> fence_free true o = true ->
  framed o s -> framed o (sub_fences 0 bol s).
Proof.
  intros Ho Hf (p & q & -> & Hp & Hq).
  destruct (object_text_shape _ Ho) as [mid ->].
  destruct (sub_fences_frame mid q p 0 bol (Nat.le_0_l _) Hp Hf) as (p' & E & Hp').
  rewrite E. exists p', (sub_fences 0 false q); repeat split; [exact Hp'|].
  apply existsb_sub_fences, Hq.
Qed.

Lemma framed_strip_parens o s :
  object_text o -> framed o s -> framed o (strip_parens s).
Proof.
  intros Ho Hfr. unfold strip_parens.
  destruct (startswith (lit "(") s && endswith (lit ")") s) eqn:E; [|exact Hfr].
  apply framed_strip; [exact Ho|].
  destruct Hfr as (p & q & -> & Hp & Hq).
  destruct (object_text_shape _ Ho) as [mid ->].
  apply andb_prop in E; destruct E as [E1 E2].
  apply startswith_char in E1; destruct E1 as [t Ht].
  apply endswith_char in E2; destruct E2 as [u Hu].
  destruct p as [|c p]; [discriminate Ht|].
  simpl in Ht; injection Ht as -> <-.
  destruct (rev q) as [|y r] eqn:Eq.
  - apply (f_equal (@rev ascii)) in Eq; rewrite rev_involutive in Eq; simpl in Eq; subst q.
    exfalso. rewrite app_nil_r in Hu.
    assert (Hu' : (("("%char :: p) ++ "{"%char :: mid) ++ ["}"%char] = u ++ [")"%char])
      by (rewrite <- Hu; simpl; rewrite <- app_assoc; reflexivity).
    apply app_inj_tail in Hu'; destruct Hu' as [_ Hu']; discriminate Hu'.
  - apply (f_equal (@rev ascii)) in Eq; rewrite rev_involutive in Eq; simpl in Eq; subst q.
    rewrite existsb_app in Hq; apply orb_false_elim in Hq; destruct Hq as [Hq _].
    simpl in Hp.
    exists p, (rev r); repeat split; [|exact Hp|exact Hq].
    unfold slice_1_m1; simpl tl.
    transitivity (removelast ((p ++ ("{"%char :: mid ++ ["}"%char]) ++ rev r) ++ [y])).
    { f_equal. repeat (rewrite <- app_assoc; simpl). reflexivity. }
    apply removelast_last.
Qed.

Lemma drop_until_app_stop (P : ascii -> bool) p x r :
  existsb P p = false -> P x = true -> drop_until P (p ++ x :: r) = x :: r.
Proof.
  intros Hp Hx; induction p as [|c p IH]; simpl; [rewrite Hx; reflexivity|].
  simpl in Hp; apply orb_false_elim in Hp; destruct Hp as [Hc Hp].
  rewrite Hc; apply IH, Hp.
Qed.

Lemma search_braces_framed o s :
  object_text o -> framed o s -> search_braces s = Some o.
Proof.
  intros Ho (p & q & -> & Hp & Hq).
  destruct (object_text_shape _ Ho) as [mid ->].
  unfold search_braces.
  change (p ++ ("{"%char :: mid ++ ["}"%char]) ++ q)
    with (p ++ "{"%char :: ((mid ++ ["}"%char]) ++ q)).
  rewrite (drop_until_app_stop is_lbrace p) by (exact Hp || reflexivity).
  rewrite !rev_app_distr; simpl rev.
  rewrite drop_until_app_stop; [|rewrite existsb_rev; exact Hq|reflexivity].
  simpl rev. rewrite rev_involutive.
  destruct (mid ++ ["}"%char]) eqn:E; [|reflexivity].
  destruct mid; discriminate E.
Qed.

(** The sanitizer hands a framed object to the decoder as it stands. *)
Lemma cleaned_text_framed o raw :
  object_text o -> fence_free true o = true ->
  framed o raw -> search_braces (cleaned_text raw) = Some o.
Proof.
  intros Ho Hf Hfr. apply search_braces_framed; [exact Ho|].
  unfold cleaned_text.
  apply framed_strip_parens; [exact Ho|].
  apply framed_strip; [exact Ho|].
  apply framed_sub_fences; [exact Ho|exact Hf|].
  apply framed_strip; assumption.
Qed.

(* ------------------------------------------------------------------ *)
(** ** The sanitizer *)

(** C1, as amended. A JSON object text [o] that the decoder accepts, placed
    in a surrounding text with no opening brace before it and no closing
    brace after it (markdown fences, parentheses, prose and white space are
    all allowed there), is recovered exactly: the sanitizer returns what
    [json.loads] makes of [o]. No fence may start inside [o], which holds of
    every well-formed JSON text. *)
Theorem sanitizer_recovers_framed_object pre o post v :
  json_loads o = inr v ->
  object_text o ->
  fence_free true o = true ->
  existsb is_lbrace pre = false ->
  existsb is_rbrace post = false ->
  clean_gemini_json json_loads (pre ++ o ++ post) = inr v.
Proof.
  intros Hv Ho Hf Hpre Hpost. unfold clean_gemini_json.
  rewrite (cleaned_text_framed o (pre ++ o ++ post) Ho Hf).
  - rewrite Hv; reflexivity.
  - exists pre, post; auto.
Qed.

(** C6, as amended. A raw text without an opening brace followed by a
    closing brace fails with NoJsonFound, which carries the raw text as it
    came; a raw text with a span always has a candidate; a candidate on
    which the decoder raises its [JSONDecodeError] fails with MalformedJson,
    which carries the decoder's message and the candidate; on the two other
    failures of the decoder, the [ValueError] of an integer of too many
    digits and the [RecursionError] of too deep a nesting, the sanitizer
    raises no MalformedJson: the exception leaves it as it is, and the route
    answers with status 500 and the exception's text, the store not
    called. *)
Theorem sanitizer_failure_modes :
  (forall raw, ~ has_brace_span raw ->
     clean_gemini_json json_loads raw = inl (NoJsonFound raw))
  /\ (forall raw span e,
        search_braces (cleaned_text raw) = Some span ->
        json_loads span = inl (NotJson e) ->
        clean_gemini_json json_loads raw = inl (MalformedJson e span))
  /\ (forall raw, has_brace_span raw ->
        exists span, search_braces (cleaned_text raw) = Some span)
  /\ (forall raw span f,
        search_braces (cleaned_text raw) = Some span ->
        json_loads span = inl f -> (forall e, f <> NotJson e) ->
        clean_gemini_json json_loads raw = inl (decoder_exn f)
        /\ is_http (decoder_exn f) = false
        /\ forall prompt current_user calls,
             gemini (isoformat now_prompt) prompt = inr (Some raw) -> raw <> [] ->
             generate_quiz prompt current_user calls
             = (inl (HTTPException 500
                       (lit "Quiz generation failed: " ++ exn_str (decoder_exn f))),
                calls)).
Proof.
  split; [|split; [|split]].
  - intros raw H. apply search_cleaned_none in H.
    unfold clean_gemini_json; rewrite H; reflexivity.
  - intros raw span e Hs He.
    unfold clean_gemini_json; rewrite Hs, He; reflexivity.
  - intros raw H.
    destruct (search_braces (cleaned_text raw)) as [span|] eqn:E; [eauto|].
    apply search_cleaned_none in E; contradiction.
  - intros raw span f Hs Hf Hn.
    assert (Hc : clean_gemini_json json_loads raw = inl (decoder_exn f)).
    { unfold clean_gemini_json; rewrite Hs, Hf.
      destruct f as [m|m|m]; [destruct (Hn m eq_refl) | reflexivity | reflexivity]. }
    split; [exact Hc|]. split.
    + destruct f as [m|m|m]; [destruct (Hn m eq_refl) | reflexivity | reflexivity].
    + intros prompt current_user calls Hg Hne.
      unfold generate_quiz, try_except, generate_quiz_body, bind, lift.
      rewrite Hg. destruct raw as [|c t]; [destruct (Hne eq_refl)|].
      rewrite Hc.
      destruct f as [m|m|m]; [destruct (Hn m eq_refl) | reflexivity | reflexivity].
Qed.

(* ------------------------------------------------------------------ *)
(** ** The validator *)

Lemma text_eqb_eq a : forall b, text_eqb a b = true <-> a = b.
Proof.
  induction a as [|x a IH]; intros [|y b]; simpl; split; try discriminate; auto.
  - intros H; apply andb_prop in H; destruct H as [H1 H2].
    apply Ascii.eqb_eq in H1; apply IH in H2; subst; reflexivity.
  - intros H; injection H as -> ->.
    rewrite Ascii.eqb_refl; apply IH; reflexivity.
Qed.

Lemma text_eqb_refl a : text_eqb a a = true.
Proof. apply text_eqb_eq; reflexivity. Qed.

Lemma existsb_text_eqb x l : existsb (text_eqb x) l = true <-> In x l.
Proof.
  rewrite existsb_exists; split.
  - intros (y & Hin & H); apply text_eqb_eq in H; subst; exact Hin.
  - intros Hin; exists x; split; [exact Hin | apply text_eqb_refl].
Qed.

Lemma validate_lengths_first_violation q :
  validate_lengths q
  = match first_violation q with
    | Some m => inl (ValueError m)
    | None => inr tt
    end.
Proof.
  unfold validate_lengths, first_violation, constraints; simpl.
  rewrite !Nat.ltb_antisym.
  repeat match goal with
         | |- context [negb ?b] => destruct b; simpl; try reflexivity
         end.
Qed.

Lemma first_violation_none q : first_violation q = None <-> within_bounds q.
Proof.
  unfold first_violation, constraints, within_bounds.
  rewrite <- existsb_text_eqb, <- !Nat.leb_le.
  set (b1 := length (QuestionCreate.question_text q) <=? 500).
  set (b2 := length (QuestionCreate.option_a q) <=? 200).
  set (b3 := length (QuestionCreate.option_b q) <=? 200).
  set (b4 := length (QuestionCreate.option_c q) <=? 200).
  set (b5 := length (QuestionCreate.option_d q) <=? 200).
  set (b6 := existsb (text_eqb (QuestionCreate.correct_option q)) _).
  clearbody b1 b2 b3 b4 b5 b6.
  destruct b1, b2, b3, b4, b5, b6; simpl; split; intros H;
    try discriminate H; try (repeat split; reflexivity);
    destruct H as (H1 & H2 & H3 & H4 & H5 & H6); congruence.
Qed.

Lemma validate_questions_all_pass qs : forall i,
  Forall within_bounds qs -> validate_questions i qs = inr tt.
Proof.
  induction qs as [|q qs IH]; intros i H; [reflexivity|].
  inversion H as [|? ? Hq Hqs]; subst. simpl.
  rewrite validate_lengths_first_violation.
  apply first_violation_none in Hq; rewrite Hq. apply IH, Hqs.
Qed.

Lemma validate_questions_first_failure pre q post m : forall i,
  Forall within_bounds pre ->
  first_violation q = Some m ->
  validate_questions i (pre ++ q :: post) = inl (question_error (i + length pre + 1) m).
Proof.
  induction pre as [|p pre IH]; intros i Hpre Hq; simpl.
  - rewrite validate_lengths_first_violation, Hq; simpl.
    rewrite Nat.add_0_r; reflexivity.
  - inversion Hpre as [|? ? Hp Hpre']; subst.
    rewrite validate_lengths_first_violation.
    apply first_violation_none in Hp; rewrite Hp.
    rewrite (IH (S i) Hpre' Hq).
    replace (S i + length pre + 1) with (i + S (length pre) + 1) by lia; reflexivity.
Qed.

(** C5. A question within its bounds and with a correct option among a, b,
    c, d passes; any other question fails with the message of the first
    constraint it violates, in the order question text, options A to D,
    correct option; over the questions of a quiz, the persister fails on the
    first question that does not pass, with that message behind the
    question's number counted from one, and hands nothing to the store. *)
Theorem validator_contract :
  (forall q, within_bounds q -> validate_lengths q = inr tt)
  /\ (forall q, ~ within_bounds q ->
        exists m, first_violation q = Some m
                  /\ validate_lengths q = inl (ValueError m))
  /\ (forall qs, Forall within_bounds qs -> validate_questions 0 qs = inr tt)
  /\ (forall pre q post m,
        Forall within_bounds pre -> first_violation q = Some m ->
        validate_questions 0 (pre ++ q :: post)
        = inl (question_error (length pre + 1) m))
  /\ (forall quiz_data current_user calls pre q post m,
        QuizCreate.questions quiz_data = pre ++ q :: post ->
        length (QuizCreate.questions quiz_data) <= 50 ->
        Forall within_bounds pre -> first_violation q = Some m ->
        create_quiz_internal quiz_data current_user calls
        = (inl (question_error (length pre + 1) m), calls)).
Proof.
  repeat split.
  - intros q H. rewrite validate_lengths_first_violation.
    apply first_violation_none in H; rewrite H; reflexivity.
  - intros q H. rewrite validate_lengths_first_violation.
    destruct (first_violation q) as [m|] eqn:E; [eauto|].
    apply first_violation_none in E; contradiction.
  - intros qs H; apply validate_questions_all_pass, H.
  - intros pre q post m Hpre Hq.
    apply (validate_questions_first_failure pre q post m 0 Hpre Hq).
  - intros quiz_data current_user calls pre q post m Hqs Hlen Hpre Hq.
    unfold create_quiz_internal, try_except, create_quiz_body.
    destruct (50 <? length (QuizCreate.questions quiz_data)) eqn:E50;
      [apply Nat.ltb_lt in E50; lia|].
    destruct (length (QuizCreate.questions quiz_data) <? 1) eqn:E1.
    { apply Nat.ltb_lt in E1. rewrite Hqs, length_app in E1; simpl in E1; lia. }
    unfold bind, lift. rewrite Hqs.
    rewrite (validate_questions_first_failure pre q post m 0 Hpre Hq).
    reflexivity.
Qed.

(* ------------------------------------------------------------------ *)
(** ** The time resolver *)



Lemma timedelta_minutes_ok d :
  delta_ok d -> timedelta_minutes d = inr (d * us_per_minute)%Z.
Proof.
  unfold delta_ok, timedelta_minutes; intros H.
  destruct ((d / 1440 <? -2147483648) || (2147483647 <? d / 1440))%Z eqn:E1.
  - apply orb_prop in E1; destruct E1 as [E|E]; apply Z.ltb_lt in E; lia.
  - destruct (999999999 <? Z.abs (d / 1440))%Z eqn:E2; [|reflexivity].
    apply Z.ltb_lt in E2; lia.
Qed.

Lemma timedelta_minutes_inv d delta :
  timedelta_minutes d = inr delta -> delta = (d * us_per_minute)%Z.
Proof.
  unfold timedelta_minutes.
  destruct ((d / 1440 <? -2147483648) || (2147483647 <? d / 1440))%Z; [discriminate|].
  destruct (999999999 <? Z.abs (d / 1440))%Z; [discriminate|].
  intros H; injection H as <-; reflexivity.
Qed.

Lemma dt_shift_inv t x r : dt_shift t x = inr r -> r = dt_plus t x.
Proof.
  unfold dt_shift. destruct (in_range (wall (dt_plus t x))); [|discriminate].
  intros H; injection H as <-; reflexivity.
Qed.

Lemma dt_shift_ok t x :
  in_range (wall t + x)%Z = true -> dt_shift t x = inr (dt_plus t x).
Proof. unfold dt_shift; cbn [dt_plus wall]; intros ->; reflexivity. Qed.



Lemma dt_le_false a b : dt_le a b = false <-> (instant b < instant a)%Z.
Proof. unfold dt_le. apply Z.leb_gt. Qed.

Lemma from_start_time_ok s d ts te :
  from_start_time s d = inr (ts, te) ->
  exists t, parse_ist s = inr t /\ (instant now < instant t)%Z
            /\ ts = Some (isoformat t)
            /\ te = Some (isoformat (dt_plus t (d * us_per_minute))).
Proof.
  unfold from_start_time, ebind.
  destruct (parse_ist s) as [e|t]; [destruct (is_ValueError e); discriminate|].
  destruct (dt_le t now) eqn:E; [discriminate|].
  destruct (timedelta_minutes d) as [e|delta] eqn:Ed;
    [destruct (is_ValueError e); discriminate|].
  destruct (dt_add t delta) as [e|r] eqn:Ea;
    [destruct (is_ValueError e); discriminate|].
  intros H; injection H as <- <-.
  apply timedelta_minutes_inv in Ed; apply dt_shift_inv in Ea; subst.
  apply dt_le_false in E. exists t; auto.
Qed.



(* ------------------------------------------------------------------ *)
(** ** The persister *)

Lemma classify_failure_http e : is_http (classify_failure e) = true.
Proof.
  destruct e; simpl; try reflexivity;
    match goal with |- context [is_duplicate ?m] => destruct (is_duplicate m) end;
    reflexivity.
Qed.

Lemma classify_failure_store e :
  is_http e = false ->
  classify_failure e
  = if is_duplicate (exn_str e) then DuplicateTitle else PersistenceError (exn_str e).
Proof. destruct e; simpl; intros H; try discriminate H; reflexivity. Qed.

Lemma insert_questions_accepted created quiz_data rows : forall calls,
  accepted calls (map (question_row created quiz_data) rows) ->
  insert_questions created quiz_data rows calls
  = (inr tt, calls ++ map (question_row created quiz_data) rows).
Proof.
  induction rows as [|q rows IH]; intros calls H; simpl.
  - rewrite app_nil_r; reflexivity.
  - simpl in H; destruct H as [[c Hc] H].
    unfold bind, insert at 1. rewrite Hc, (IH _ H), <- app_assoc; reflexivity.
Qed.

Lemma insert_questions_refused created quiz_data pre q post e : forall calls,
  accepted calls (map (question_row created quiz_data) pre) ->
  db_insert (calls ++ map (question_row created quiz_data) pre)
    (question_row created quiz_data q) = inl e ->
  insert_questions created quiz_data (pre ++ q :: post) calls
  = (inl e, calls ++ map (question_row created quiz_data) (pre ++ [q])).
Proof.
  induction pre as [|p pre IH]; intros calls H He; simpl.
  - simpl in He; rewrite app_nil_r in He.
    unfold bind, insert at 1. rewrite He; reflexivity.
  - simpl in H; destruct H as [[c Hc] H].
    unfold bind, insert at 1. rewrite Hc.
    rewrite (IH (calls ++ [question_row created quiz_data p]) H).
    + rewrite <- app_assoc; reflexivity.
    + rewrite <- app_assoc; exact He.
Qed.

Lemma insert_questions_trace created quiz_data qs : forall calls,
  exists rest,
    snd (insert_questions created quiz_data qs calls) = calls ++ rest
    /\ Forall is_questions_row rest.
Proof.
  induction qs as [|q qs IH]; intros calls; simpl.
  - exists []; rewrite app_nil_r; split; [reflexivity | constructor].
  - unfold bind, insert at 1.
    destruct (db_insert calls (question_row created quiz_data q)) as [e|c].
    + exists [question_row created quiz_data q]; split; [reflexivity|].
      repeat constructor.
    + destruct (IH (calls ++ [question_row created quiz_data q])) as (rest & E & Hr).
      exists (question_row created quiz_data q :: rest); split.
      * rewrite E, <- app_assoc; reflexivity.
      * constructor; [exact I | exact Hr].
Qed.

(** The run of the [try] block once the checks have passed: the quiz record
    is handed to the store first. *)
Lemma create_quiz_body_prepared quiz_data current_user calls times creator_id :
  1 <= length (QuizCreate.questions quiz_data) <= 50 ->
  validate_questions 0 (QuizCreate.questions quiz_data) = inr tt ->
  resolve_times quiz_data = inr times ->
  user_id current_user = inr creator_id ->
  create_quiz_body quiz_data current_user calls
  = let row := quiz_row quiz_data creator_id (fst times) (snd times) in
    match db_insert calls row with
    | inl e => (inl e, calls ++ [row])
    | inr created_quiz =>
        match insert_questions created_quiz quiz_data
                (QuizCreate.questions quiz_data) (calls ++ [row]) with
        | (inl e, calls') => (inl e, calls')
        | (inr _, calls') =>
            (inr (QuizRef.Build (Created.id created_quiz) (Created.title created_quiz)),
             calls')
        end
    end.
Proof.
  intros [H1 H50] Hv Ht Hu. unfold create_quiz_body.
  destruct (50 <? length (QuizCreate.questions quiz_data)) eqn:E50;
    [apply Nat.ltb_lt in E50; lia|].
  destruct (length (QuizCreate.questions quiz_data) <? 1) eqn:E1;
    [apply Nat.ltb_lt in E1; lia|].
  unfold bind, lift. rewrite Hv, Ht, Hu. unfold insert at 1. simpl.
  destruct (db_insert calls (quiz_row quiz_data creator_id (fst times) (snd times)));
    [reflexivity|].
  destruct (insert_questions t quiz_data (QuizCreate.questions quiz_data)
              (calls ++ [quiz_row quiz_data creator_id (fst times) (snd times)]))
    as [[e|u] calls']; reflexivity.
Qed.

(** What the [try] block leaves in the store's log: nothing and a failure,
    or the quiz record followed by question records. *)
Lemma create_quiz_body_trace quiz_data current_user calls :
  (snd (create_quiz_body quiz_data current_user calls) = calls
   /\ exists e, fst (create_quiz_body quiz_data current_user calls) = inl e)
  \/ exists times creator_id rest,
       resolve_times quiz_data = inr times
       /\ snd (create_quiz_body quiz_data current_user calls)
          = calls ++ quiz_row quiz_data creator_id (fst times) (snd times) :: rest
       /\ Forall is_questions_row rest.
Proof.
  unfold create_quiz_body.
  destruct (50 <? length (QuizCreate.questions quiz_data)); [left; simpl; eauto|].
  destruct (length (QuizCreate.questions quiz_data) <? 1); [left; simpl; eauto|].
  unfold bind, lift.
  destruct (validate_questions 0 (QuizCreate.questions quiz_data)) as [e|[]];
    [left; simpl; eauto|].
  destruct (resolve_times quiz_data) as [e|times]; [left; simpl; eauto|].
  destruct (user_id current_user) as [e|creator_id]; [left; simpl; eauto|].
  right; exists times, creator_id. unfold insert at 1.
  destruct (db_insert calls (quiz_row quiz_data creator_id (fst times) (snd times)))
    as [e|created].
  - exists []; repeat split; constructor.
  - destruct (insert_questions_trace created quiz_data (QuizCreate.questions quiz_data)
                (calls ++ [quiz_row quiz_data creator_id (fst times) (snd times)]))
      as (rest & E & Hr).
    exists rest; repeat split; [|exact Hr].
    destruct (insert_questions created quiz_data (QuizCreate.questions quiz_data)
                (calls ++ [quiz_row quiz_data creator_id (fst times) (snd times)]))
      as [[e|u] calls']; simpl in *; rewrite E, <- app_assoc; reflexivity.
Qed.

Lemma create_quiz_internal_body quiz_data current_user calls :
  create_quiz_internal quiz_data current_user calls
  = match create_quiz_body quiz_data current_user calls with
    | (inl e, calls') => (inl (classify_failure e), calls')
    | r => r
    end.
Proof. reflexivity. Qed.

(** The persister raises nothing but [HTTPException]. *)
Lemma create_quiz_internal_raises quiz_data current_user calls e :
  fst (create_quiz_internal quiz_data current_user calls) = inl e -> is_http e = true.
Proof.
  rewrite create_quiz_internal_body.
  destruct (create_quiz_body quiz_data current_user calls) as [[e'|r] calls'];
    simpl; intros H; [|discriminate H].
  injection H as <-; apply classify_failure_http.
Qed.

(** C4, as amended. When the store refuses a record during persistence, be
    it the quiz record or one of the question records after a number of
    accepted ones, and raises an ordinary exception with the text [msg],
    the persister fails with DuplicateTitle exactly when [msg] contains
    "duplicate key value" as written, or "unique" in any mix of upper and
    lower case, and otherwise with PersistenceError, which embeds [msg]. *)
Theorem persister_error_classification
    quiz_data current_user calls times creator_id e :
  let row := quiz_row quiz_data creator_id (fst times) (snd times) in
  let outcome :=
    if contains (lit "duplicate key value") (exn_str e)
       || contains (lit "unique") (lower (exn_str e))
    then DuplicateTitle else PersistenceError (exn_str e) in
  1 <= length (QuizCreate.questions quiz_data) <= 50 ->
  validate_questions 0 (QuizCreate.questions quiz_data) = inr tt ->
  resolve_times quiz_data = inr times ->
  user_id current_user = inr creator_id ->
  is_http e = false ->
  (db_insert calls row = inl e ->
   create_quiz_internal quiz_data current_user calls = (inl outcome, calls ++ [row]))
  /\ (forall created_quiz pre q post,
        db_insert calls row = inr created_quiz ->
        QuizCreate.questions quiz_data = pre ++ q :: post ->
        accepted (calls ++ [row]) (map (question_row created_quiz quiz_data) pre) ->
        db_insert ((calls ++ [row]) ++ map (question_row created_quiz quiz_data) pre)
          (question_row created_quiz quiz_data q) = inl e ->
        create_quiz_internal quiz_data current_user calls
        = (inl outcome,
           (calls ++ [row]) ++ map (question_row created_quiz quiz_data) (pre ++ [q]))).
Proof.
  intros row outcome Hlen Hv Ht Hu He.
  assert (Ho : classify_failure e = outcome) by (apply classify_failure_store, He).
  split.
  - intros Hdb. rewrite create_quiz_internal_body.
    rewrite (create_quiz_body_prepared quiz_data current_user calls times creator_id
               Hlen Hv Ht Hu).
    cbv zeta. fold row. rewrite Hdb, Ho. reflexivity.
  - intros created_quiz pre q post Hdb Hqs Hacc Hq. rewrite create_quiz_internal_body.
    rewrite (create_quiz_body_prepared quiz_data current_user calls times creator_id
               Hlen Hv Ht Hu).
    cbv zeta. fold row. rewrite Hdb, Hqs.
    rewrite (insert_questions_refused created_quiz quiz_data pre q post e _ Hacc Hq).
    rewrite Ho. reflexivity.
Qed.

Lemma quiz_row_chatbot quiz_data creator_id ts te :
  chatbot_row (quiz_row quiz_data creator_id ts te).
Proof. simpl; auto. Qed.

Lemma questions_rows_chatbot rest :
  Forall is_questions_row rest -> Forall chatbot_row rest.
Proof.
  apply Forall_impl; intros [q|q] H; [destruct H | exact I].
Qed.

Lemma create_quiz_internal_trace quiz_data current_user calls :
  (snd (create_quiz_internal quiz_data current_user calls) = calls
   /\ exists e, fst (create_quiz_internal quiz_data current_user calls) = inl e)
  \/ exists times creator_id rest,
       resolve_times quiz_data = inr times
       /\ snd (create_quiz_internal quiz_data current_user calls)
          = calls ++ quiz_row quiz_data creator_id (fst times) (snd times) :: rest
       /\ Forall is_questions_row rest.
Proof.
  rewrite create_quiz_internal_body.
  destruct (create_quiz_body_trace quiz_data current_user calls)
    as [[Hs [e He]] | (times & creator_id & rest & Ht & Hs & Hr)].
  - left. destruct (create_quiz_body quiz_data current_user calls) as [[e'|r] calls'];
      simpl in *; [eauto | discriminate He].
  - right; exists times, creator_id, rest.
    destruct (create_quiz_body quiz_data current_user calls) as [[e'|r] calls'];
      simpl in *; auto.
Qed.

(** C8. Whatever the parsed quiz asks for, every quiz record the persister
    hands to the store has [is_trivia] false, no topic, no difficulty,
    popularity 0 and [is_active] true; and a quiz that was created has such
    a record, the first of the run. The same holds of the whole route. *)
Theorem persisted_quiz_constants :
  (forall quiz_data current_user calls,
     exists new,
       snd (create_quiz_internal quiz_data current_user calls) = calls ++ new
       /\ Forall chatbot_row new
       /\ (forall result,
             fst (create_quiz_internal quiz_data current_user calls) = inr result ->
             exists r rest, new = QuizzesRow r :: rest))
  /\ (forall prompt current_user calls,
        exists new,
          snd (generate_quiz prompt current_user calls) = calls ++ new
          /\ Forall chatbot_row new
          /\ (forall response,
                fst (generate_quiz prompt current_user calls) = inr response ->
                Response.is_quiz_request response = true ->
                exists r rest, new = QuizzesRow r :: rest)).
Proof.
  assert (Hint : forall quiz_data current_user calls,
     exists new,
       snd (create_quiz_internal quiz_data current_user calls) = calls ++ new
       /\ Forall chatbot_row new
       /\ (forall result,
             fst (create_quiz_internal quiz_data current_user calls) = inr result ->
             exists r rest, new = QuizzesRow r :: rest)).
  { intros quiz_data current_user calls.
    destruct (create_quiz_internal_trace quiz_data current_user calls)
      as [[Hs [e He]] | (times & creator_id & rest & _ & Hs & Hr)].
    - exists []; rewrite app_nil_r; repeat split; [exact Hs | constructor|].
      intros result H; rewrite He in H; discriminate H.
    - exists (quiz_row quiz_data creator_id (fst times) (snd times) :: rest).
      repeat split; [exact Hs | |].
      + constructor; [apply quiz_row_chatbot | apply questions_rows_chatbot, Hr].
      + intros _ _. unfold quiz_row; eauto. }
  split; [exact Hint|].
  intros prompt current_user calls.
  assert (Hnil : forall r : exn + Response.t,
            (forall response, r = inr response ->
               Response.is_quiz_request response = false) ->
            exists new, calls = calls ++ new /\ Forall chatbot_row new
              /\ (forall response, r = inr response ->
                    Response.is_quiz_request response = true ->
                    exists r rest, new = QuizzesRow r :: rest)).
  { intros r Hr. exists []; rewrite app_nil_r; repeat split; [constructor|].
    intros response H1 H2. rewrite (Hr _ H1) in H2; discriminate H2. }
  unfold generate_quiz, try_except, generate_quiz_body, bind, lift.
  destruct (gemini (isoformat now_prompt) prompt) as [e|[[|c t]|]];
    try (destruct e; apply Hnil; intros ? H; discriminate H);
    try (apply Hnil; intros ? H; discriminate H).
  destruct (clean_gemini_json json_loads (c :: t)) as [e|response_json];
    [destruct e; apply Hnil; intros ? H; discriminate H|].
  destruct (as_dict response_json) as [e|d];
    [destruct e; apply Hnil; intros ? H; discriminate H|].
  unfold route.
  destruct (json_is_str (lit "non_quiz") (dict_get (lit "intent") JNull d));
    [apply Hnil; intros ? H; injection H as <-; reflexivity|].
  destruct (json_is_str (lit "quiz_creation") (dict_get (lit "intent") JNull d));
    [|apply Hnil; intros ? H; injection H as <-; reflexivity].
  unfold bind, lift.
  destruct (parse_QuizCreate _) as [e|quiz_obj];
    [destruct e; apply Hnil; intros ? H; discriminate H|].
  destruct (length (QuizCreate.questions quiz_obj) <? 1);
    [apply Hnil; intros ? H; discriminate H|].
  destruct (Hint (clamp_questions quiz_obj) current_user calls) as (new & Hs & Hf & Hq).
  exists new.
  destruct (create_quiz_internal (clamp_questions quiz_obj) current_user calls)
    as [[e|result] calls'] eqn:E; simpl in *.
  - pose proof (create_quiz_internal_raises (clamp_questions quiz_obj) current_user calls e)
      as Hh. rewrite E in Hh. specialize (Hh eq_refl).
    destruct e; try discriminate Hh. simpl.
    repeat split; [exact Hs | exact Hf|]. intros ? H; discriminate H.
  - repeat split; [exact Hs | exact Hf|]. intros ? _ _. apply (Hq result eq_refl).
Qed.

Lemma insert_questions_with_end_time created e quiz_data qs : forall calls,
  insert_questions created (QuizCreate.with_end_time e quiz_data) qs calls
  = insert_questions created quiz_data qs calls.
Proof.
  induction qs as [|q qs IH]; intros calls; [reflexivity|].
  simpl. unfold bind. 
  change (question_row created (QuizCreate.with_end_time e quiz_data) q)
    with (question_row created quiz_data q).
  destruct (insert (question_row created quiz_data q) calls) as [[x|c] calls'];
    [reflexivity | apply IH].
Qed.

Lemma resolve_times_from_start quiz_data s t :
  QuizCreate.start_time quiz_data = Some s -> s <> [] ->
  parse_ist s = inr t -> (instant now < instant t)%Z ->
  delta_ok (QuizCreate.duration quiz_data) ->
  in_range (wall t + QuizCreate.duration quiz_data * us_per_minute)%Z = true ->
  resolve_times quiz_data
  = inr (Some (isoformat t),
         Some (isoformat (dt_plus t (QuizCreate.duration quiz_data * us_per_minute)))).
Proof.
  intros Hs Hne Hp Hlt Hd Hr. destruct s as [|c s]; [contradiction|].
  unfold resolve_times. rewrite Hs. unfold from_start_time, ebind. rewrite Hp.
  apply dt_le_false in Hlt; rewrite Hlt.
  rewrite (timedelta_minutes_ok _ Hd). unfold dt_add.
  rewrite (dt_shift_ok _ _ Hr). reflexivity.
Qed.

Lemma with_end_time_ignored quiz_data s e current_user calls :
  QuizCreate.start_time quiz_data = Some s -> s <> [] ->
  create_quiz_internal (QuizCreate.with_end_time e quiz_data) current_user calls
  = create_quiz_internal quiz_data current_user calls.
Proof.
  intros Hs Hne. destruct s as [|c s]; [contradiction|].
  rewrite !create_quiz_internal_body. unfold create_quiz_body.
  change (QuizCreate.questions (QuizCreate.with_end_time e quiz_data))
    with (QuizCreate.questions quiz_data).
  destruct (50 <? length (QuizCreate.questions quiz_data)); [reflexivity|].
  destruct (length (QuizCreate.questions quiz_data) <? 1); [reflexivity|].
  unfold bind, lift.
  destruct (validate_questions 0 (QuizCreate.questions quiz_data)) as [x|[]];
    [reflexivity|].
  assert (Hr : resolve_times (QuizCreate.with_end_time e quiz_data)
               = resolve_times quiz_data).
  { unfold resolve_times.
    change (QuizCreate.start_time (QuizCreate.with_end_time e quiz_data))
      with (QuizCreate.start_time quiz_data).
    rewrite Hs. reflexivity. }
  rewrite Hr. destruct (resolve_times quiz_data) as [x|times]; [reflexivity|].
  destruct (user_id current_user) as [x|creator_id]; [reflexivity|].
  change (quiz_row (QuizCreate.with_end_time e quiz_data) creator_id (fst times)
            (snd times))
    with (quiz_row quiz_data creator_id (fst times) (snd times)).
  destruct (insert (quiz_row quiz_data creator_id (fst times) (snd times)) calls)
    as [[x|created] calls1]; [reflexivity|].
  rewrite insert_questions_with_end_time. reflexivity.
Qed.

(** C9. When a start time is supplied (not empty), the end time of the
    request plays no part: the persister behaves the same whatever end time
    comes with it; the quiz record of a created quiz has the ISO form of
    the parsed start as its start and of the start plus the duration as its
    end; and such a record is written: when the start parses to a time
    strictly after [now], the duration keeps the end within the years 1 to
    9999, the questions are 1 to 50 and pass the validator, the user has an
    id and the store accepts the records, the persister succeeds whatever
    the end time of the request is, be it no timestamp at all, and hands
    the store the quiz record with these two timestamps, followed by the
    question records. *)
Theorem start_time_takes_precedence quiz_data s :
  QuizCreate.start_time quiz_data = Some s -> s <> [] ->
  (forall e current_user calls,
     create_quiz_internal (QuizCreate.with_end_time e quiz_data) current_user calls
     = create_quiz_internal quiz_data current_user calls)
  /\ (forall current_user calls result calls',
        create_quiz_internal quiz_data current_user calls = (inr result, calls') ->
        exists t r rest,
          parse_ist s = inr t
          /\ calls' = calls ++ QuizzesRow r :: rest
          /\ QuizRow.start_time r = Some (isoformat t)
          /\ QuizRow.end_time r
             = Some (isoformat
                       (dt_plus t (QuizCreate.duration quiz_data * us_per_minute))))
  /\ (forall e t current_user calls creator_id created_quiz,
        let d := QuizCreate.duration quiz_data in
        let row :=
          quiz_row quiz_data creator_id (Some (isoformat t))
            (Some (isoformat (dt_plus t (d * us_per_minute)))) in
        1 <= length (QuizCreate.questions quiz_data) <= 50 ->
        validate_questions 0 (QuizCreate.questions quiz_data) = inr tt ->
        parse_ist s = inr t -> (instant now < instant t)%Z ->
        delta_ok d -> in_range (wall t + d * us_per_minute)%Z = true ->
        user_id current_user = inr creator_id ->
        db_insert calls row = inr created_quiz ->
        accepted (calls ++ [row])
          (map (question_row created_quiz quiz_data) (QuizCreate.questions quiz_data)) ->
        create_quiz_internal (QuizCreate.with_end_time e quiz_data) current_user calls
        = (inr (QuizRef.Build (Created.id created_quiz) (Created.title created_quiz)),
           (calls ++ [row])
           ++ map (question_row created_quiz quiz_data) (QuizCreate.questions quiz_data))
        /\ exists r, row = QuizzesRow r
                     /\ QuizRow.start_time r = Some (isoformat t)
                     /\ QuizRow.end_time r
                        = Some (isoformat (dt_plus t (d * us_per_minute)))).
Proof.
  intros Hs Hne. split; [|split].
  - intros e current_user calls. apply (with_end_time_ignored quiz_data s); assumption.
  - intros current_user calls result calls' H.
    destruct (create_quiz_internal_trace quiz_data current_user calls)
      as [[_ [e He]] | (times & creator_id & rest & Ht & Hsnd & _)].
    + rewrite H in He; discriminate He.
    + rewrite H in Hsnd; simpl in Hsnd.
      destruct s as [|c s]; [contradiction|].
      unfold resolve_times in Ht; rewrite Hs in Ht.
      destruct times as [ts te].
      apply from_start_time_ok in Ht; destruct Ht as (t & Hp & _ & -> & ->).
      exists t. eexists. exists rest.
      split; [exact Hp|]. split; [exact Hsnd|]. split; reflexivity.
  - intros e t current_user calls creator_id created_quiz d row
           Hlen Hv Hp Hlt Hd Hr Hu Hdb Hacc.
    split; [|unfold row, quiz_row; eexists; split; [reflexivity|]; split; reflexivity].
    rewrite (with_end_time_ignored quiz_data s e current_user calls Hs Hne).
    rewrite create_quiz_internal_body.
    rewrite (create_quiz_body_prepared quiz_data current_user calls
               (Some (isoformat t), Some (isoformat (dt_plus t (d * us_per_minute))))
               creator_id Hlen Hv
               (resolve_times_from_start quiz_data s t Hs Hne Hp Hlt Hd Hr) Hu).
    cbv zeta. cbn [fst snd]. fold d. fold row. rewrite Hdb.
    rewrite (insert_questions_accepted created_quiz quiz_data
               (QuizCreate.questions quiz_data) (calls ++ [row]) Hacc).
    reflexivity.
Qed.

Lemma generate_quiz_routed prompt current_user calls d :
  answer prompt d ->
  generate_quiz prompt current_user calls
  = try_except (route d prompt current_user)
      (fun e =>
         match e with
         | HTTPException _ _ => raise e
         | JSONDecodeError m =>
             raise (HTTPException 400
                      (lit "Failed to parse AI response as JSON: " ++ m))
         | _ => raise (HTTPException 500 (lit "Quiz generation failed: " ++ exn_str e))
         end) calls.
Proof.
  intros (txt & Hg & Hne & Hc). destruct txt as [|c t]; [contradiction|].
  unfold generate_quiz, try_except, generate_quiz_body, bind, lift.
  rewrite Hg, Hc. reflexivity.
Qed.

Lemma quiz_creation_not_non_quiz d :
  intent_is "quiz_creation" d = true -> intent_is "non_quiz" d = false.
Proof.
  unfold intent_is, json_is_str.
  destruct (dict_get (lit "intent") JNull d); try discriminate.
  intros H; apply text_eqb_eq in H; subst; reflexivity.
Qed.

(** C7. When the answer's intent is not "quiz_creation", the route returns
    a response with [is_quiz_request] false and [success] false, hands
    nothing to the store, and carries the classification's message: for
    "non_quiz" the answer's own message, or the fallback when it has none,
    and for anything else the fixed message of the unclear case. *)
Theorem rejection_frame prompt current_user calls d :
  answer prompt d ->
  intent_is "quiz_creation" d = false ->
  exists response,
    generate_quiz prompt current_user calls = (inr response, calls)
    /\ Response.is_quiz_request response = false
    /\ Response.success response = false
    /\ Response.quiz_id response = None
    /\ (intent_is "non_quiz" d = true ->
        Response.intent response = lit "non_quiz"
        /\ Response.message response
           = dict_get (lit "message") (JString fallback_message) d)
    /\ (intent_is "non_quiz" d = false ->
        Response.intent response = lit "unclear"
        /\ Response.message response = JString unclear_message).
Proof.
  intros Ha Hq. rewrite (generate_quiz_routed prompt current_user calls d Ha).
  unfold try_except, route. unfold intent_is in *. rewrite Hq.
  destruct (json_is_str (lit "non_quiz") (dict_get (lit "intent") JNull d)).
  - exists (non_quiz_response d).
    repeat split; try reflexivity; congruence.
  - exists unclear_response.
    repeat split; try reflexivity; congruence.
Qed.

Lemma clamp_questions_firstn quiz_obj :
  clamp_questions quiz_obj
  = QuizCreate.with_questions (firstn 20 (QuizCreate.questions quiz_obj)) quiz_obj.
Proof.
  unfold clamp_questions.
  destruct (20 <? length (QuizCreate.questions quiz_obj)) eqn:E; [reflexivity|].
  apply Nat.ltb_ge in E. rewrite firstn_all2 by exact E.
  destruct quiz_obj; reflexivity.
Qed.

(** C3. For an answer of intent "quiz_creation" whose fields make a
    [QuizCreate]: without questions the route fails with EmptyQuiz and
    hands nothing to the store; with questions, the persister receives the
    first 20 of them, all other fields untouched, the route fails only where
    the persister fails, and the response of a created quiz reports as
    [questions_generated] the number of questions kept, the smaller of 20
    and the number parsed. *)
Theorem router_post_processing prompt current_user calls d quiz_obj :
  answer prompt d ->
  intent_is "quiz_creation" d = true ->
  parse_QuizCreate (quiz_fields d) = inr quiz_obj ->
  let qs := QuizCreate.questions quiz_obj in
  let kept := QuizCreate.with_questions (firstn 20 qs) quiz_obj in
  (qs = [] -> generate_quiz prompt current_user calls = (inl EmptyQuiz, calls))
  /\ (qs <> [] ->
      generate_quiz prompt current_user calls
      = match create_quiz_internal kept current_user calls with
        | (inr result, calls') => (inr (created_response result kept prompt), calls')
        | (inl e, calls') => (inl e, calls')
        end)
  /\ (forall result,
        Response.questions_generated (created_response result kept prompt)
        = Some (Nat.min 20 (length qs))).
Proof.
  intros Ha Hq Hp qs kept.
  rewrite (generate_quiz_routed prompt current_user calls d Ha).
  unfold try_except, route.
  pose proof (quiz_creation_not_non_quiz d Hq) as Hn.
  unfold intent_is in Hq, Hn. rewrite Hn, Hq.
  unfold bind, lift. fold (quiz_fields d). rewrite Hp. fold qs.
  split; [|split].
  - intros Hnil. rewrite Hnil. reflexivity.
  - intros Hne.
    assert (E1 : (length qs <? 1) = false).
    { destruct qs; [contradiction | reflexivity]. }
    rewrite E1, clamp_questions_firstn. fold qs. fold kept.
    destruct (create_quiz_internal kept current_user calls) as [[e|result] calls'] eqn:E;
      [|reflexivity].
    pose proof (create_quiz_internal_raises kept current_user calls e) as Hh.
    rewrite E in Hh. specialize (Hh eq_refl).
    destruct e; try discriminate Hh. reflexivity.
  - intros result. unfold created_response, kept.
    cbn [Response.questions_generated QuizCreate.questions QuizCreate.with_questions].
    rewrite length_firstn. reflexivity.
Qed.

Lemma dict_lookup_quiz_fields key d :
  text_eqb key (lit "intent") = false ->
  dict_lookup key (quiz_fields d) = dict_lookup key d.
Proof.
  intros Hk. induction d as [|[k v] d IH]; [reflexivity|].
  unfold quiz_fields in *. cbn [filter fst].
  destruct (text_eqb k (lit "intent")) eqn:Ei; cbn [negb dict_lookup].
  - destruct (text_eqb k key) eqn:Ek; [|exact IH].
    apply text_eqb_eq in Ei, Ek; subst. rewrite text_eqb_refl in Hk; discriminate Hk.
  - destruct (text_eqb k key); [reflexivity | exact IH].
Qed.

Lemma defaulted_missing {A : Type} (v : JSON -> option A) key default kv :
  dict_lookup (lit key) kv = None -> defaulted v key default kv = Some default.
Proof. unfold defaulted; intros ->; reflexivity. Qed.

Lemma parse_fields_inv kv q :
  parse_fields kv = Some q ->
  required v_str "title" kv = Some (QuizCreate.title q)
  /\ required v_str "description" kv = Some (QuizCreate.description q)
  /\ defaulted v_bool "is_trivia" false kv = Some (QuizCreate.is_trivia q)
  /\ defaulted v_optional_str "topic" None kv = Some (QuizCreate.topic q)
  /\ defaulted v_optional_str "start_time" None kv = Some (QuizCreate.start_time q)
  /\ defaulted v_optional_str "end_time" None kv = Some (QuizCreate.end_time q)
  /\ defaulted v_int "duration" 60%Z kv = Some (QuizCreate.duration q)
  /\ defaulted v_int "positive_mark" 1%Z kv = Some (QuizCreate.positive_mark q)
  /\ defaulted v_int "negative_mark" 0%Z kv = Some (QuizCreate.negative_mark q)
  /\ defaulted v_str "navigation_type" (lit "omni") kv
     = Some (QuizCreate.navigation_type q)
  /\ defaulted v_bool "tab_switch_exit" true kv = Some (QuizCreate.tab_switch_exit q)
  /\ defaulted v_optional_str "difficulty" None kv = Some (QuizCreate.difficulty q)
  /\ defaulted v_questions "questions" [] kv = Some (QuizCreate.questions q).
Proof.
  unfold parse_fields, obind.
  repeat match goal with
         | |- context [match ?o with Some _ => _ | None => None end] =>
             destruct o; [|discriminate]
         end.
  intros H; injection H as <-. simpl. repeat split; reflexivity.
Qed.

Lemma defaulted_accepts {A : Type} (v : JSON -> option A) key default kv :
  accepts v key kv -> exists x, defaulted v key default kv = Some x.
Proof.
  unfold accepts, defaulted. intros H.
  destruct (dict_lookup (lit key) kv) as [j|]; [apply (H j eq_refl) | eauto].
Qed.

Lemma accepts_quiz_fields {A : Type} (v : JSON -> option A) key d :
  text_eqb (lit key) (lit "intent") = false ->
  accepts v key d -> accepts v key (quiz_fields d).
Proof.
  intros Hk H j Hj. rewrite (dict_lookup_quiz_fields _ d Hk) in Hj. exact (H j Hj).
Qed.

(** A payload makes a quiz as soon as it has the two required fields and
    every other field it has is accepted. *)
Lemma parse_QuizCreate_accepts kv jt jd t d :
  dict_lookup (lit "title") kv = Some jt -> v_str jt = Some t ->
  dict_lookup (lit "description") kv = Some jd -> v_str jd = Some d ->
  accepts v_bool "is_trivia" kv -> accepts v_optional_str "topic" kv ->
  accepts v_optional_str "start_time" kv -> accepts v_optional_str "end_time" kv ->
  accepts v_int "duration" kv -> accepts v_int "positive_mark" kv ->
  accepts v_int "negative_mark" kv -> accepts v_str "navigation_type" kv ->
  accepts v_bool "tab_switch_exit" kv -> accepts v_optional_str "difficulty" kv ->
  accepts v_questions "questions" kv ->
  exists q, parse_QuizCreate kv = inr q
            /\ QuizCreate.title q = t /\ QuizCreate.description q = d.
Proof.
  intros Ht Hvt Hd Hvd H1 H2 H3 H4 H5 H6 H7 H8 H9 H10 H11.
  unfold parse_QuizCreate, parse_fields, obind, required.
  rewrite Ht, Hvt, Hd, Hvd.
  destruct (defaulted_accepts v_bool "is_trivia" false kv H1) as [x1 ->].
  destruct (defaulted_accepts v_optional_str "topic" None kv H2) as [x2 ->].
  destruct (defaulted_accepts v_optional_str "start_time" None kv H3) as [x3 ->].
  destruct (defaulted_accepts v_optional_str "end_time" None kv H4) as [x4 ->].
  destruct (defaulted_accepts v_int "duration" 60%Z kv H5) as [x5 ->].
  destruct (defaulted_accepts v_int "positive_mark" 1%Z kv H6) as [x6 ->].
  destruct (defaulted_accepts v_int "negative_mark" 0%Z kv H7) as [x7 ->].
  destruct (defaulted_accepts v_str "navigation_type" (lit "omni") kv H8) as [x8 ->].
  destruct (defaulted_accepts v_bool "tab_switch_exit" true kv H9) as [x9 ->].
  destruct (defaulted_accepts v_optional_str "difficulty" None kv H10) as [x10 ->].
  destruct (defaulted_accepts v_questions "questions" [] kv H11) as [x11 ->].
  eexists. split; [reflexivity|]. split; reflexivity.
Qed.

(** C10. In the constructor of [QuizCreate] only [title] and [description]
    are required: without one of them it fails with a schema error; a
    payload that has just these two makes a quiz with every default; a
    payload makes a quiz as soon as it has these two and each of the other
    eleven fields is either missing or holds a value its validator accepts,
    whichever of them are missing; in any payload that makes a quiz, each
    of the fields [duration], [positive_mark], [negative_mark],
    [navigation_type], [tab_switch_exit] and [questions] that is missing
    takes its default, 60, 1, 0, "omni", true and the empty list; and an
    answer of intent "quiz_creation" that has no [questions], the two
    required fields, and accepted values in the other fields it has, fails
    with EmptyQuiz, the error of the empty quiz, not with a schema error,
    and hands nothing to the store. *)
Theorem quiz_create_defaults :
  (forall kv,
     dict_lookup (lit "title") kv = None \/ dict_lookup (lit "description") kv = None ->
     parse_QuizCreate kv = inl (ValueError (schema_error kv)))
  /\ (forall kv jt jd t d,
        dict_lookup (lit "title") kv = Some jt -> v_str jt = Some t ->
        dict_lookup (lit "description") kv = Some jd -> v_str jd = Some d ->
        (forall key, In key ["is_trivia"; "topic"; "start_time"; "end_time"; "duration";
                             "positive_mark"; "negative_mark"; "navigation_type";
                             "tab_switch_exit"; "difficulty"; "questions"]%string ->
                     dict_lookup (lit key) kv = None) ->
        parse_QuizCreate kv
        = inr (QuizCreate.Build t d false None None None 60%Z 1%Z 0%Z (lit "omni") true
                 None []))
  /\ (forall kv q,
        parse_QuizCreate kv = inr q ->
        (dict_lookup (lit "duration") kv = None -> QuizCreate.duration q = 60%Z)
        /\ (dict_lookup (lit "positive_mark") kv = None ->
            QuizCreate.positive_mark q = 1%Z)
        /\ (dict_lookup (lit "negative_mark") kv = None ->
            QuizCreate.negative_mark q = 0%Z)
        /\ (dict_lookup (lit "navigation_type") kv = None ->
            QuizCreate.navigation_type q = lit "omni")
        /\ (dict_lookup (lit "tab_switch_exit") kv = None ->
            QuizCreate.tab_switch_exit q = true)
        /\ (dict_lookup (lit "questions") kv = None -> QuizCreate.questions q = []))
  /\ (forall prompt current_user calls d q,
        answer prompt d ->
        intent_is "quiz_creation" d = true ->
        dict_lookup (lit "questions") d = None ->
        parse_QuizCreate (quiz_fields d) = inr q ->
        generate_quiz prompt current_user calls = (inl EmptyQuiz, calls))
  /\ (forall kv jt jd t d,
        dict_lookup (lit "title") kv = Some jt -> v_str jt = Some t ->
        dict_lookup (lit "description") kv = Some jd -> v_str jd = Some d ->
        accepts v_bool "is_trivia" kv -> accepts v_optional_str "topic" kv ->
        accepts v_optional_str "start_time" kv ->
        accepts v_optional_str "end_time" kv ->
        accepts v_int "duration" kv -> accepts v_int "positive_mark" kv ->
        accepts v_int "negative_mark" kv -> accepts v_str "navigation_type" kv ->
        accepts v_bool "tab_switch_exit" kv -> accepts v_optional_str "difficulty" kv ->
        accepts v_questions "questions" kv ->
        exists q, parse_QuizCreate kv = inr q
                  /\ QuizCreate.title q = t /\ QuizCreate.description q = d)
  /\ (forall prompt current_user calls d jt jd t dsc,
        answer prompt d ->
        intent_is "quiz_creation" d = true ->
        dict_lookup (lit "questions") d = None ->
        dict_lookup (lit "title") d = Some jt -> v_str jt = Some t ->
        dict_lookup (lit "description") d = Some jd -> v_str jd = Some dsc ->
        accepts v_bool "is_trivia" d -> accepts v_optional_str "topic" d ->
        accepts v_optional_str "start_time" d -> accepts v_optional_str "end_time" d ->
        accepts v_int "duration" d -> accepts v_int "positive_mark" d ->
        accepts v_int "negative_mark" d -> accepts v_str "navigation_type" d ->
        accepts v_bool "tab_switch_exit" d -> accepts v_optional_str "difficulty" d ->
        generate_quiz prompt current_user calls = (inl EmptyQuiz, calls)).
Proof.
  assert (Hdef : forall kv q,
        parse_QuizCreate kv = inr q ->
        (dict_lookup (lit "duration") kv = None -> QuizCreate.duration q = 60%Z)
        /\ (dict_lookup (lit "positive_mark") kv = None ->
            QuizCreate.positive_mark q = 1%Z)
        /\ (dict_lookup (lit "negative_mark") kv = None ->
            QuizCreate.negative_mark q = 0%Z)
        /\ (dict_lookup (lit "navigation_type") kv = None ->
            QuizCreate.navigation_type q = lit "omni")
        /\ (dict_lookup (lit "tab_switch_exit") kv = None ->
            QuizCreate.tab_switch_exit q = true)
        /\ (dict_lookup (lit "questions") kv = None -> QuizCreate.questions q = [])).
  { intros kv q H. unfold parse_QuizCreate in H.
    destruct (parse_fields kv) as [q'|] eqn:E; [|discriminate H].
    injection H as ->. apply parse_fields_inv in E.
    destruct E as (_ & _ & _ & _ & _ & _ & H1 & H2 & H3 & H4 & H5 & _ & H6).
    repeat split; intros Hm.
    - rewrite (defaulted_missing _ _ _ _ Hm) in H1; congruence.
    - rewrite (defaulted_missing _ _ _ _ Hm) in H2; congruence.
    - rewrite (defaulted_missing _ _ _ _ Hm) in H3; congruence.
    - rewrite (defaulted_missing _ _ _ _ Hm) in H4; congruence.
    - rewrite (defaulted_missing _ _ _ _ Hm) in H5; congruence.
    - rewrite (defaulted_missing _ _ _ _ Hm) in H6; congruence. }
  assert (Hempty : forall prompt current_user calls d q,
        answer prompt d ->
        intent_is "quiz_creation" d = true ->
        dict_lookup (lit "questions") d = None ->
        parse_QuizCreate (quiz_fields d) = inr q ->
        generate_quiz prompt current_user calls = (inl EmptyQuiz, calls)).
  { intros prompt current_user calls d q Ha Hq Hm Hp.
    assert (Hqs : QuizCreate.questions q = []).
    { apply (Hdef (quiz_fields d) q Hp).
      rewrite dict_lookup_quiz_fields by reflexivity. exact Hm. }
    rewrite (generate_quiz_routed prompt current_user calls d Ha).
    unfold try_except, route.
    pose proof (quiz_creation_not_non_quiz d Hq) as Hn.
    unfold intent_is in Hq, Hn. rewrite Hn, Hq.
    unfold bind, lift. fold (quiz_fields d). rewrite Hp, Hqs. reflexivity. }
  split; [|split; [|split; [|split; [|split]]]].
  - intros kv H. unfold parse_QuizCreate, parse_fields, obind, required.
    destruct H as [H|H].
    + rewrite H; reflexivity.
    + rewrite H. destruct (dict_lookup (lit "title") kv) as [j|]; [|reflexivity].
      destruct (v_str j); reflexivity.
  - intros kv jt jd t d Ht Hvt Hd Hvd Hmiss.
    unfold parse_QuizCreate, parse_fields, obind, required.
    rewrite Ht, Hvt, Hd, Hvd.
    rewrite !defaulted_missing
      by (apply Hmiss; simpl; solve [repeat first [left; reflexivity | right]]).
    reflexivity.
  - exact Hdef.
  - exact Hempty.
  - apply parse_QuizCreate_accepts.
  - intros prompt current_user calls d jt jd t dsc Ha Hq Hm Ht Hvt Hd Hvd
           H1 H2 H3 H4 H5 H6 H7 H8 H9 H10.
    destruct (parse_QuizCreate_accepts (quiz_fields d) jt jd t dsc) as (q & Hp & _).
    + rewrite dict_lookup_quiz_fields by reflexivity; exact Ht.
    + exact Hvt.
    + rewrite dict_lookup_quiz_fields by reflexivity; exact Hd.
    + exact Hvd.
    + apply accepts_quiz_fields; [reflexivity | exact H1].
    + apply accepts_quiz_fields; [reflexivity | exact H2].
    + apply accepts_quiz_fields; [reflexivity | exact H3].
    + apply accepts_quiz_fields; [reflexivity | exact H4].
    + apply accepts_quiz_fields; [reflexivity | exact H5].
    + apply accepts_quiz_fields; [reflexivity | exact H6].
    + apply accepts_quiz_fields; [reflexivity | exact H7].
    + apply accepts_quiz_fields; [reflexivity | exact H8].
    + apply accepts_quiz_fields; [reflexivity | exact H9].
    + apply accepts_quiz_fields; [reflexivity | exact H10].
    + intros j Hj. rewrite dict_lookup_quiz_fields in Hj by reflexivity.
      rewrite Hm in Hj. discriminate Hj.
    + exact (Hempty prompt current_user calls d q Ha Hq Hm Hp).
Qed.

(* ------------------------------------------------------------------ *)
(** ** More on the persister *)

(** X1. [create_quiz_internal], lines 164 to 168. A quiz with more than 50
    questions, or with none, is refused with its own message before any
    question is looked at, whatever else the request holds, and the store is
    not called. *)
Theorem question_count_bounds quiz_data current_user calls :
  (50 < length (QuizCreate.questions quiz_data) ->
   create_quiz_internal quiz_data current_user calls
   = (inl (HTTPException 400 (lit "Maximum 50 questions allowed per quiz")), calls))
  /\ (QuizCreate.questions quiz_data = [] ->
      create_quiz_internal quiz_data current_user calls
      = (inl (HTTPException 400 (lit "At least 1 question is required")), calls)).
Proof.
  rewrite create_quiz_internal_body. unfold create_quiz_body. split.
  - intros H. apply Nat.ltb_lt in H. rewrite H. reflexivity.
  - intros H. rewrite H. reflexivity.
Qed.

Lemma insert_questions_success created quiz_data qs : forall calls u calls',
  insert_questions created quiz_data qs calls = (inr u, calls') ->
  calls' = calls ++ map (question_row created quiz_data) qs
  /\ accepted calls (map (question_row created quiz_data) qs).
Proof.
  induction qs as [|q qs IH]; intros calls u calls' H; simpl in *.
  - unfold ret in H. injection H as _ <-. rewrite app_nil_r; auto.
  - unfold bind in H. unfold insert in H at 1.
    destruct (db_insert calls (question_row created quiz_data q)) as [e|c] eqn:E;
      [discriminate H|].
    apply IH in H. destruct H as [-> Hacc].
    rewrite <- app_assoc. split; [reflexivity|]. split; [eauto | exact Hacc].
Qed.

Lemma create_quiz_body_success quiz_data current_user calls result calls' :
  create_quiz_body quiz_data current_user calls = (inr result, calls') ->
  exists times creator_id created_quiz,
    1 <= length (QuizCreate.questions quiz_data) <= 50
    /\ validate_questions 0 (QuizCreate.questions quiz_data) = inr tt
    /\ resolve_times quiz_data = inr times
    /\ user_id current_user = inr creator_id
    /\ db_insert calls (quiz_row quiz_data creator_id (fst times) (snd times))
       = inr created_quiz
    /\ accepted (calls ++ [quiz_row quiz_data creator_id (fst times) (snd times)])
         (map (question_row created_quiz quiz_data) (QuizCreate.questions quiz_data))
    /\ result = QuizRef.Build (Created.id created_quiz) (Created.title created_quiz)
    /\ calls' = (calls ++ [quiz_row quiz_data creator_id (fst times) (snd times)])
                ++ map (question_row created_quiz quiz_data)
                     (QuizCreate.questions quiz_data).
Proof.
  unfold create_quiz_body.
  destruct (50 <? length (QuizCreate.questions quiz_data)) eqn:E50; [discriminate|].
  destruct (length (QuizCreate.questions quiz_data) <? 1) eqn:E1; [discriminate|].
  apply Nat.ltb_ge in E50, E1.
  unfold bind, lift.
  destruct (validate_questions 0 (QuizCreate.questions quiz_data)) as [e|[]] eqn:Ev;
    [discriminate|].
  destruct (resolve_times quiz_data) as [e|times] eqn:Et; [discriminate|].
  destruct (user_id current_user) as [e|creator_id] eqn:Eu; [discriminate|].
  unfold insert at 1.
  destruct (db_insert calls (quiz_row quiz_data creator_id (fst times) (snd times)))
    as [e|created_quiz] eqn:Ed; [discriminate|].
  destruct (insert_questions created_quiz quiz_data (QuizCreate.questions quiz_data)
              (calls ++ [quiz_row quiz_data creator_id (fst times) (snd times)]))
    as [[e|u] calls1] eqn:Ei; [discriminate|].
  intros H. injection H as <- <-.
  apply insert_questions_success in Ei. destruct Ei as [-> Hacc].
  exists times, creator_id, created_quiz. repeat split; auto.
Qed.

(** X2. [create_quiz_internal], lines 163 to 252. The persister succeeds exactly
    when the quiz has 1 to 50 questions that all pass the validator, the
    times resolve, the user has an id, and the store accepts the quiz record
    and then every question record. It then returns the id and the title of
    the record the store answered with, and the store has been handed the
    quiz record followed by one record per question, in the order of the
    questions, each carrying that id and the positive mark of the quiz. *)
Theorem persister_success quiz_data current_user calls result calls' :
  create_quiz_internal quiz_data current_user calls = (inr result, calls')
  <-> exists times creator_id created_quiz,
        1 <= length (QuizCreate.questions quiz_data) <= 50
        /\ validate_questions 0 (QuizCreate.questions quiz_data) = inr tt
        /\ resolve_times quiz_data = inr times
        /\ user_id current_user = inr creator_id
        /\ db_insert calls (quiz_row quiz_data creator_id (fst times) (snd times))
           = inr created_quiz
        /\ accepted (calls ++ [quiz_row quiz_data creator_id (fst times) (snd times)])
             (map (question_row created_quiz quiz_data)
                (QuizCreate.questions quiz_data))
        /\ result = QuizRef.Build (Created.id created_quiz) (Created.title created_quiz)
        /\ calls' = (calls ++ [quiz_row quiz_data creator_id (fst times) (snd times)])
                    ++ map (fun q =>
                              QuestionsRow
                                (QuestionRow.Build (Created.id created_quiz)
                                   (QuestionCreate.question_text q)
                                   (QuestionCreate.option_a q)
                                   (QuestionCreate.option_b q)
                                   (QuestionCreate.option_c q)
                                   (QuestionCreate.option_d q)
                                   (QuestionCreate.correct_option q)
                                   (QuizCreate.positive_mark quiz_data)))
                         (QuizCreate.questions quiz_data).
Proof.
  rewrite create_quiz_internal_body. split.
  - intros H.
    destruct (create_quiz_body quiz_data current_user calls) as [[e|r] c] eqn:E;
      [discriminate H|].
    injection H as <- <-. apply create_quiz_body_success in E. exact E.
  - intros (times & creator_id & created_quiz & Hlen & Hv & Ht & Hu & Hd & Ha & -> & ->).
    rewrite (create_quiz_body_prepared quiz_data current_user calls times creator_id
               Hlen Hv Ht Hu).
    cbv zeta. rewrite Hd.
    rewrite (insert_questions_accepted created_quiz quiz_data _ _ Ha). reflexivity.
Qed.

Lemma insert_questions_count created quiz_data qs : forall calls,
  exists rest,
    snd (insert_questions created quiz_data qs calls) = calls ++ rest
    /\ length rest <= length qs.
Proof.
  induction qs as [|q qs IH]; intros calls; simpl.
  - exists []; rewrite app_nil_r; split; [reflexivity | apply Nat.le_refl].
  - unfold bind, insert at 1.
    destruct (db_insert calls (question_row created quiz_data q)) as [e|c].
    + exists [question_row created quiz_data q]; split; [reflexivity|].
      simpl. apply le_n_S, Nat.le_0_l.
    + destruct (IH (calls ++ [question_row created quiz_data q])) as (rest & E & Hr).
      exists (question_row created quiz_data q :: rest); split.
      * rewrite E, <- app_assoc; reflexivity.
      * simpl. apply le_n_S, Hr.
Qed.

Lemma create_quiz_internal_count quiz_data current_user calls :
  exists new,
    snd (create_quiz_internal quiz_data current_user calls) = calls ++ new
    /\ length new <= 1 + length (QuizCreate.questions quiz_data)
    /\ length new <= 51.
Proof.
  assert (H : exists new,
    snd (create_quiz_body quiz_data current_user calls) = calls ++ new
    /\ length new <= 1 + length (QuizCreate.questions quiz_data)
    /\ length new <= 51).
  { assert (Hnil : exists new : list Row,
              calls = calls ++ new
              /\ length new <= 1 + length (QuizCreate.questions quiz_data)
              /\ length new <= 51).
    { exists []; rewrite app_nil_r; simpl; repeat split;
        [apply Nat.le_0_l | apply Nat.le_0_l]. }
    unfold create_quiz_body.
    destruct (50 <? length (QuizCreate.questions quiz_data)) eqn:E50; [exact Hnil|].
    destruct (length (QuizCreate.questions quiz_data) <? 1); [exact Hnil|].
    apply Nat.ltb_ge in E50.
    unfold bind, lift.
    destruct (validate_questions 0 (QuizCreate.questions quiz_data)) as [e|[]];
      [exact Hnil|].
    destruct (resolve_times quiz_data) as [e|times]; [exact Hnil|].
    destruct (user_id current_user) as [e|creator_id]; [exact Hnil|].
    unfold insert at 1.
    destruct (db_insert calls (quiz_row quiz_data creator_id (fst times) (snd times)))
      as [e|created].
    - exists [quiz_row quiz_data creator_id (fst times) (snd times)].
      simpl; repeat split; [apply le_n_S, Nat.le_0_l | apply le_n_S, Nat.le_0_l].
    - destruct (insert_questions_count created quiz_data
                  (QuizCreate.questions quiz_data)
                  (calls ++ [quiz_row quiz_data creator_id (fst times) (snd times)]))
        as (rest & E & Hr).
      exists (quiz_row quiz_data creator_id (fst times) (snd times) :: rest).
      assert (Hs : snd (match insert_questions created quiz_data
                                (QuizCreate.questions quiz_data)
                                (calls ++ [quiz_row quiz_data creator_id (fst times)
                                             (snd times)]) with
                        | (inr a, st') =>
                            ret (QuizRef.Build (Created.id created) (Created.title created))
                              st'
                        | (inl e, st') => (inl e, st')
                        end)
                   = calls ++ quiz_row quiz_data creator_id (fst times) (snd times) :: rest).
      { destruct (insert_questions created quiz_data (QuizCreate.questions quiz_data)
                    (calls ++ [quiz_row quiz_data creator_id (fst times) (snd times)]))
          as [[e|u] c]; simpl in *; rewrite E, <- app_assoc; reflexivity. }
      split; [exact Hs|]. simpl. split; [apply le_n_S, Hr|].
      apply le_n_S. eapply Nat.le_trans; [exact Hr | exact E50]. }
  destruct H as (new & Hs & H1 & H2). exists new.
  rewrite create_quiz_internal_body.
  destruct (create_quiz_body quiz_data current_user calls) as [[e|r] c];
    simpl in *; auto.
Qed.

Lemma clamp_questions_length quiz_obj :
  length (QuizCreate.questions (clamp_questions quiz_obj)) <= 20.
Proof.
  rewrite clamp_questions_firstn.
  cbn [QuizCreate.questions QuizCreate.with_questions].
  rewrite length_firstn. apply Nat.le_min_l.
Qed.

(** What the route leaves in the store's log is what the persister leaves
    there, run on the clamped quiz, or nothing. *)
Lemma generate_quiz_store prompt current_user calls :
  snd (generate_quiz prompt current_user calls) = calls
  \/ exists quiz_obj,
       snd (generate_quiz prompt current_user calls)
       = snd (create_quiz_internal (clamp_questions quiz_obj) current_user calls).
Proof.
  unfold generate_quiz, try_except, generate_quiz_body, bind, lift.
  destruct (gemini (isoformat now_prompt) prompt) as [e|[[|c t]|]];
    try (destruct e; left; reflexivity); try (left; reflexivity).
  destruct (clean_gemini_json json_loads (c :: t)) as [e|response_json];
    [destruct e; left; reflexivity|].
  destruct (as_dict response_json) as [e|d]; [destruct e; left; reflexivity|].
  unfold route.
  destruct (json_is_str (lit "non_quiz") (dict_get (lit "intent") JNull d));
    [left; reflexivity|].
  destruct (json_is_str (lit "quiz_creation") (dict_get (lit "intent") JNull d));
    [|left; reflexivity].
  unfold bind, lift.
  destruct (parse_QuizCreate _) as [e|quiz_obj]; [destruct e; left; reflexivity|].
  destruct (length (QuizCreate.questions quiz_obj) <? 1); [left; reflexivity|].
  right. exists quiz_obj.
  destruct (create_quiz_internal (clamp_questions quiz_obj) current_user calls)
    as [[e|result] calls'] eqn:E; [|reflexivity].
  destruct e; reflexivity.
Qed.

(** X3. [create_quiz_internal] and [generate_quiz], lines 236 to 250 and 334 to
    339. The log of the store only grows, the persister hands it at most one
    record more than the quiz has questions and never more than 51, and one
    request to the route hands it at most 21 records, however many
    questions the model wrote. *)
Theorem store_call_bound :
  (forall quiz_data current_user calls,
     exists new,
       snd (create_quiz_internal quiz_data current_user calls) = calls ++ new
       /\ length new <= 1 + length (QuizCreate.questions quiz_data)
       /\ length new <= 51)
  /\ (forall prompt current_user calls,
        exists new,
          snd (generate_quiz prompt current_user calls) = calls ++ new
          /\ length new <= 21).
Proof.
  split; [exact create_quiz_internal_count|].
  intros prompt current_user calls.
  destruct (generate_quiz_store prompt current_user calls) as [H | [quiz_obj H]].
  - exists []. rewrite app_nil_r. split; [exact H | apply Nat.le_0_l].
  - destruct (create_quiz_internal_count (clamp_questions quiz_obj) current_user calls)
      as (new & Hs & H1 & _).
    exists new. split; [rewrite H; exact Hs|].
    eapply Nat.le_trans; [exact H1|].
    apply le_n_S, clamp_questions_length.
Qed.

(** X4. [create_quiz_internal], lines 220 and 256 to 263. A user record without
    the key "id" makes the persister fail, once the questions and the times
    have passed, with the 400 that embeds the text of the [KeyError]; the
    store is not called. *)
Theorem missing_user_id quiz_data current_user calls times :
  1 <= length (QuizCreate.questions quiz_data) <= 50 ->
  validate_questions 0 (QuizCreate.questions quiz_data) = inr tt ->
  resolve_times quiz_data = inr times ->
  (forall kv, In kv current_user -> fst kv <> lit "id") ->
  create_quiz_internal quiz_data current_user calls
  = (inl (PersistenceError (lit "'id'")), calls).
Proof.
  intros [H1 H50] Hv Ht Hu.
  assert (Hid : user_id current_user = inl (KeyError (lit "id"))).
  { unfold user_id.
    destruct (find (fun kv => text_eqb (fst kv) (lit "id")) current_user) as [kv|] eqn:E;
      [|reflexivity].
    apply find_some in E. destruct E as [Hin Heq].
    apply text_eqb_eq in Heq. destruct (Hu kv Hin Heq). }
  rewrite create_quiz_internal_body. unfold create_quiz_body.
  destruct (50 <? length (QuizCreate.questions quiz_data)) eqn:E50;
    [apply Nat.ltb_lt in E50; lia|].
  destruct (length (QuizCreate.questions quiz_data) <? 1) eqn:E1;
    [apply Nat.ltb_lt in E1; lia|].
  unfold bind, lift. rewrite Hv, Ht, Hid. reflexivity.
Qed.

(* ------------------------------------------------------------------ *)
(** ** More on the route *)

Lemma resolve_times_failure quiz_data e :
  (forall s x, fromisoformat_ist s = inl x -> is_http x = false) ->
  resolve_times quiz_data = inl e ->
  (exists d, e = HTTPException 400 d) \/ is_http e = false.
Proof.
  intros Hparse. unfold resolve_times.
  assert (Hs : forall s d, from_start_time s d = inl e ->
                 (exists d, e = HTTPException 400 d) \/ is_http e = false).
  { intros s d. unfold from_start_time, ebind, parse_ist.
    destruct (fromisoformat_ist _) as [x|t] eqn:Ep.
    - destruct (is_ValueError x) eqn:Ev; intros H; injection H as <-; [eauto|].
      right. eapply Hparse, Ep.
    - destruct (dt_le t now); [intros H; injection H as <-; eauto|].
      unfold timedelta_minutes.
      destruct ((d / 1440 <? -2147483648) || (2147483647 <? d / 1440))%Z;
        [intros H; injection H as <-; auto|].
      destruct (999999999 <? Z.abs (d / 1440))%Z; [intros H; injection H as <-; auto|].
      unfold dt_add, dt_shift.
      destruct (in_range _); [discriminate | intros H; injection H as <-; auto]. }
  assert (He : forall s d, from_end_time s d = inl e ->
                 (exists d, e = HTTPException 400 d) \/ is_http e = false).
  { intros s d. unfold from_end_time, ebind, parse_ist.
    destruct (fromisoformat_ist _) as [x|t] eqn:Ep.
    - destruct (is_ValueError x) eqn:Ev; intros H; injection H as <-; [eauto|].
      right. eapply Hparse, Ep.
    - unfold timedelta_minutes.
      destruct ((d / 1440 <? -2147483648) || (2147483647 <? d / 1440))%Z;
        [intros H; injection H as <-; auto|].
      destruct (999999999 <? Z.abs (d / 1440))%Z; [intros H; injection H as <-; auto|].
      unfold dt_sub, dt_shift.
      destruct (in_range _); [|intros H; injection H as <-; auto].
      destruct (dt_le _ now); [intros H; injection H as <-; eauto | discriminate]. }
  destruct (QuizCreate.start_time quiz_data) as [[|c s]|]; eauto;
    destruct (QuizCreate.end_time quiz_data) as [[|c e']|]; eauto; discriminate.
Qed.

Lemma validate_questions_failure qs : forall i e,
  validate_questions i qs = inl e -> exists d, e = HTTPException 400 d.
Proof.
  induction qs as [|q qs IH]; intros i e; simpl; [discriminate|].
  rewrite validate_lengths_first_violation.
  destruct (first_violation q); simpl; [|apply IH].
  intros H; injection H as <-; eauto.
Qed.

Lemma insert_questions_failure created quiz_data qs : forall calls e,
  (forall c r x, db_insert c r = inl x -> is_http x = false) ->
  fst (insert_questions created quiz_data qs calls) = inl e -> is_http e = false.
Proof.
  induction qs as [|q qs IH]; intros calls e Hdb; simpl; [discriminate|].
  unfold bind, insert at 1.
  destruct (db_insert calls (question_row created quiz_data q)) as [x|c] eqn:E.
  - simpl. intros H; injection H as <-. eapply Hdb, E.
  - apply IH, Hdb.
Qed.

Lemma create_quiz_internal_400 quiz_data current_user calls e :
  (forall s x, fromisoformat_ist s = inl x -> is_http x = false) ->
  (forall c r x, db_insert c r = inl x -> is_http x = false) ->
  fst (create_quiz_internal quiz_data current_user calls) = inl e ->
  exists d, e = HTTPException 400 d.
Proof.
  intros Hparse Hdb.
  assert (Hc : forall x, (exists d, x = HTTPException 400 d) \/ is_http x = false ->
                 exists d, classify_failure x = HTTPException 400 d).
  { intros x [[d ->] | Hx]; [simpl; eauto|].
    rewrite (classify_failure_store x Hx).
    destruct (is_duplicate (exn_str x)); unfold DuplicateTitle, PersistenceError; eauto. }
  rewrite create_quiz_internal_body.
  assert (Hb : forall x, fst (create_quiz_body quiz_data current_user calls) = inl x ->
                 (exists d, x = HTTPException 400 d) \/ is_http x = false).
  { intros x. unfold create_quiz_body.
    destruct (50 <? length (QuizCreate.questions quiz_data));
      [simpl; intros H; injection H as <-; eauto|].
    destruct (length (QuizCreate.questions quiz_data) <? 1);
      [simpl; intros H; injection H as <-; eauto|].
    unfold bind, lift.
    destruct (validate_questions 0 (QuizCreate.questions quiz_data)) as [y|[]] eqn:Ev.
    { simpl; intros H; injection H as <-. left. eapply validate_questions_failure, Ev. }
    destruct (resolve_times quiz_data) as [y|times] eqn:Et.
    { simpl; intros H; injection H as <-. eapply resolve_times_failure; eauto. }
    destruct (user_id current_user) as [y|creator_id] eqn:Eu.
    { simpl; intros H; injection H as <-. right.
      unfold user_id in Eu. destruct (find _ current_user); [discriminate Eu|].
      injection Eu as <-. reflexivity. }
    unfold insert at 1.
    destruct (db_insert calls (quiz_row quiz_data creator_id (fst times) (snd times)))
      as [y|created] eqn:Ed.
    { simpl; intros H; injection H as <-. right. eapply Hdb, Ed. }
    pose proof (insert_questions_failure created quiz_data
                  (QuizCreate.questions quiz_data)
                  (calls ++ [quiz_row quiz_data creator_id (fst times) (snd times)])) as Hq.
    destruct (insert_questions created quiz_data (QuizCreate.questions quiz_data)
                (calls ++ [quiz_row quiz_data creator_id (fst times) (snd times)]))
      as [[y|u] c]; simpl in *; [|discriminate].
    intros H; injection H as <-. right. apply (Hq y Hdb eq_refl). }
  destruct (create_quiz_body quiz_data current_user calls) as [[x|r] c]; simpl in *;
    [|discriminate].
  intros H; injection H as <-. apply Hc, Hb. reflexivity.
Qed.

(** X5. [create_quiz_internal] and [generate_quiz], lines 254 to 263 and 360 to
    365. Every failure of the route is an [HTTPException]. When the
    timestamp parser, the store and the model raise none of their own, every
    failure of the persister has status 400 and every failure of the route
    has status 400 or 500. *)
Theorem failure_statuses :
  (forall prompt current_user calls e,
     fst (generate_quiz prompt current_user calls) = inl e -> is_http e = true)
  /\ ((forall s x, fromisoformat_ist s = inl x -> is_http x = false) ->
      (forall c r x, db_insert c r = inl x -> is_http x = false) ->
      (forall a b x, gemini a b = inl x -> is_http x = false) ->
      (forall quiz_data current_user calls e,
         fst (create_quiz_internal quiz_data current_user calls) = inl e ->
         exists d, e = HTTPException 400 d)
      /\ (forall prompt current_user calls e,
            fst (generate_quiz prompt current_user calls) = inl e ->
            exists c d, e = HTTPException c d /\ (c = 400 \/ c = 500))).
Proof.
  split.
  - intros prompt current_user calls e. unfold generate_quiz, try_except.
    destruct (generate_quiz_body prompt current_user calls) as [[x|r] c]; simpl;
      [|discriminate].
    destruct x; simpl; intros H; injection H as <-; reflexivity.
  - intros Hparse Hdb Hgem. split.
    + intros quiz_data current_user calls e.
      apply create_quiz_internal_400; assumption.
    + intros prompt current_user calls e.
      assert (Hb : forall x, fst (generate_quiz_body prompt current_user calls) = inl x ->
                     (exists c d, x = HTTPException c d /\ (c = 400 \/ c = 500))
                     \/ is_http x = false).
      { intros x. unfold generate_quiz_body, bind, lift.
        destruct (gemini (isoformat now_prompt) prompt) as [y|[[|c t]|]] eqn:Eg; simpl.
        - intros H; injection H as <-. right. eapply Hgem, Eg.
        - intros H; injection H as <-. left; eauto.
        - unfold clean_gemini_json.
          destruct (search_braces (cleaned_text (c :: t))) as [span|]; simpl;
            [|intros H; injection H as <-; left; eauto].
          destruct (json_loads span) as [[m|m|m]|v]; simpl;
            [intros H; injection H as <-; left; eauto
            |intros H; injection H as <-; right; reflexivity
            |intros H; injection H as <-; right; reflexivity|].
          destruct (as_dict v) as [y|d] eqn:Ea; simpl.
          { intros H; injection H as <-. right.
            destruct v; simpl in Ea; try discriminate Ea; injection Ea as <-; reflexivity. }
          unfold route.
          destruct (json_is_str (lit "non_quiz") (dict_get (lit "intent") JNull d));
            [simpl; discriminate|].
          destruct (json_is_str (lit "quiz_creation") (dict_get (lit "intent") JNull d));
            [|simpl; discriminate].
          unfold bind, lift, parse_QuizCreate.
          destruct (parse_fields _) as [quiz_obj|]; simpl;
            [|intros H; injection H as <-; right; reflexivity].
          destruct (length (QuizCreate.questions quiz_obj) <? 1); simpl;
            [intros H; injection H as <-; left; eauto|].
          pose proof (create_quiz_internal_400 (clamp_questions quiz_obj) current_user
                        calls) as Hc.
          destruct (create_quiz_internal (clamp_questions quiz_obj) current_user calls)
            as [[y|r] c']; simpl in *; [|discriminate].
          intros H; injection H as <-.
          destruct (Hc y Hparse Hdb eq_refl) as [d' ->]. left; eauto.
        - intros H; injection H as <-. left; eauto. }
      unfold generate_quiz, try_except.
      destruct (generate_quiz_body prompt current_user calls) as [[x|r] c]; simpl in *;
        [|discriminate].
      destruct (Hb x eq_refl) as [(c0 & d0 & -> & Hc0) | Hx].
      * simpl. intros H; injection H as <-. eauto.
      * destruct x; try discriminate Hx; simpl; intros H; injection H as <-; eauto.
Qed.

(** X6. [generate_quiz], lines 311 to 317 and 360 to 365. When the call to the
    model raises an ordinary exception the route answers 500 with its text,
    and 400 when the exception is a [JSONDecodeError]; when the model
    returns no text, or the empty text, the route answers 500 with the
    message of the empty response. In each case the store is not called. *)
Theorem model_failures prompt current_user calls :
  (forall m, gemini (isoformat now_prompt) prompt = inl (JSONDecodeError m) ->
     generate_quiz prompt current_user calls
     = (inl (HTTPException 400 (lit "Failed to parse AI response as JSON: " ++ m)),
        calls))
  /\ (forall e, gemini (isoformat now_prompt) prompt = inl e ->
        is_http e = false -> (forall m, e <> JSONDecodeError m) ->
        generate_quiz prompt current_user calls
        = (inl (HTTPException 500 (lit "Quiz generation failed: " ++ exn_str e)), calls))
  /\ (gemini (isoformat now_prompt) prompt = inr None
      \/ gemini (isoformat now_prompt) prompt = inr (Some []) ->
      generate_quiz prompt current_user calls
      = (inl (HTTPException 500 (lit "Gemini returned empty response")), calls)).
Proof.
  unfold generate_quiz, try_except, generate_quiz_body, bind, lift.
  split; [|split].
  - intros m ->. reflexivity.
  - intros e -> Hh Hj. destruct e; try reflexivity; [discriminate Hh|].
    destruct (Hj msg eq_refl).
  - intros [-> | ->]; reflexivity.
Qed.

Lemma omap_none {A B : Type} (f : A -> option B) l x :
  In x l -> f x = None -> omap f l = None.
Proof.
  induction l as [|a l IH]; intros Hin Hx; [destruct Hin|].
  simpl. destruct Hin as [-> | Hin].
  - rewrite Hx; reflexivity.
  - destruct (f a); [|reflexivity]. rewrite (IH Hin Hx); reflexivity.
Qed.

Lemma parse_question_missing kv key :
  In key ["question_text"; "option_a"; "option_b"; "option_c"; "option_d";
          "correct_option"]%string ->
  dict_lookup (lit key) kv = None ->
  parse_question (JObject kv) = None.
Proof.
  intros Hin Hm.
  assert (Hr : required v_str key kv = None)
    by (unfold required; rewrite Hm; reflexivity).
  unfold parse_question, obind.
  destruct Hin as [<-|[<-|[<-|[<-|[<-|[<-|[]]]]]]]; rewrite Hr;
    repeat match goal with
           | |- context [match required ?v ?k ?d with _ => _ end] =>
               destruct (required v k d)
           end; reflexivity.
Qed.

Lemma parse_fields_questions kv j :
  dict_lookup (lit "questions") kv = Some j ->
  v_questions j = None -> parse_fields kv = None.
Proof.
  intros Hl Hv. unfold parse_fields, obind.
  assert (Hq : defaulted v_questions "questions" [] kv = None)
    by (unfold defaulted; rewrite Hl; exact Hv).
  rewrite Hq.
  repeat match goal with
         | |- context [match ?o with Some _ => _ | None => None end] =>
             destruct o; try reflexivity
         end.
Qed.

(** X7. [generate_quiz] with [QuizCreate] and [QuestionCreate], lines 96 to 102,
    118 to 131, 329 to 332 and 364 to 365. An answer of intent
    "quiz_creation" whose fields do not make a [QuizCreate] is answered
    with status 500, not 400, with the text of the validation error, and the
    store is not called. That is the case when [title] or [description] is
    missing, when [questions] is not a list, and as soon as one object
    among the entries of [questions] lacks one of its six fields. *)
Theorem schema_failure prompt current_user calls d :
  answer prompt d ->
  intent_is "quiz_creation" d = true ->
  (parse_QuizCreate (quiz_fields d) = inl (ValueError (schema_error (quiz_fields d))) ->
   generate_quiz prompt current_user calls
   = (inl (HTTPException 500
             (lit "Quiz generation failed: " ++ schema_error (quiz_fields d))), calls))
  /\ (dict_lookup (lit "title") d = None \/ dict_lookup (lit "description") d = None ->
      parse_QuizCreate (quiz_fields d) = inl (ValueError (schema_error (quiz_fields d))))
  /\ (forall j, dict_lookup (lit "questions") d = Some j ->
        (forall xs, j <> JArray xs) ->
        parse_QuizCreate (quiz_fields d) = inl (ValueError (schema_error (quiz_fields d))))
  /\ (forall xs kv key,
        dict_lookup (lit "questions") d = Some (JArray xs) -> In (JObject kv) xs ->
        In key ["question_text"; "option_a"; "option_b"; "option_c"; "option_d";
                "correct_option"]%string ->
        dict_lookup (lit key) kv = None ->
        parse_QuizCreate (quiz_fields d) = inl (ValueError (schema_error (quiz_fields d)))).
Proof.
  intros Ha Hq.
  assert (Hnone : parse_fields (quiz_fields d) = None ->
                  parse_QuizCreate (quiz_fields d)
                  = inl (ValueError (schema_error (quiz_fields d)))).
  { unfold parse_QuizCreate; intros ->; reflexivity. }
  split; [|split; [|split]].
  - intros Hp.
    rewrite (generate_quiz_routed prompt current_user calls d Ha).
    unfold try_except, route.
    pose proof (quiz_creation_not_non_quiz d Hq) as Hn.
    unfold intent_is in Hq, Hn. rewrite Hn, Hq.
    unfold bind, lift. fold (quiz_fields d). rewrite Hp. reflexivity.
  - intros H. apply Hnone. unfold parse_fields, obind, required.
    rewrite !dict_lookup_quiz_fields by reflexivity.
    destruct H as [H|H].
    + rewrite H; reflexivity.
    + rewrite H. destruct (dict_lookup (lit "title") d) as [j|]; [|reflexivity].
      destruct (v_str j); reflexivity.
  - intros j Hl Hj. apply Hnone.
    apply (parse_fields_questions (quiz_fields d) j).
    + rewrite dict_lookup_quiz_fields by reflexivity. exact Hl.
    + destruct j; try reflexivity. destruct (Hj xs eq_refl).
  - intros xs kv key Hl Hin Hk Hm. apply Hnone.
    apply (parse_fields_questions (quiz_fields d) (JArray xs)).
    + rewrite dict_lookup_quiz_fields by reflexivity. exact Hl.
    + simpl. apply (omap_none parse_question xs (JObject kv) Hin).
      apply (parse_question_missing kv key Hk Hm).
Qed.

Lemma generate_quiz_created prompt current_user calls d quiz_obj :
  answer prompt d ->
  intent_is "quiz_creation" d = true ->
  parse_QuizCreate (quiz_fields d) = inr quiz_obj ->
  QuizCreate.questions quiz_obj <> [] ->
  generate_quiz prompt current_user calls
  = match create_quiz_internal (clamp_questions quiz_obj) current_user calls with
    | (inr result, calls') =>
        (inr (created_response result (clamp_questions quiz_obj) prompt), calls')
    | (inl e, calls') => (inl e, calls')
    end.
Proof.
  intros Ha Hq Hp Hne.
  rewrite (generate_quiz_routed prompt current_user calls d Ha).
  unfold try_except, route.
  pose proof (quiz_creation_not_non_quiz d Hq) as Hn.
  unfold intent_is in Hq, Hn. rewrite Hn, Hq.
  unfold bind, lift. fold (quiz_fields d). rewrite Hp.
  assert (E1 : (length (QuizCreate.questions quiz_obj) <? 1) = false).
  { destruct (QuizCreate.questions quiz_obj); [contradiction | reflexivity]. }
  rewrite E1.
  destruct (create_quiz_internal (clamp_questions quiz_obj) current_user calls)
    as [[e|result] calls'] eqn:E; [|reflexivity].
  pose proof (create_quiz_internal_raises (clamp_questions quiz_obj) current_user calls e)
    as Hh.
  rewrite E in Hh. specialize (Hh eq_refl).
  destruct e; try discriminate Hh. reflexivity.
Qed.

(** X8. [generate_quiz], lines 339 to 351. When a quiz is created, the response
    has [success] and [is_quiz_request] true, repeats the prompt, and
    carries the id and the title the store answered with; the store has been
    handed the quiz record and then exactly [questions_generated] question
    records, each with the id of the response as its [quiz_id]. *)
Theorem created_response_matches_store prompt current_user calls d quiz_obj
    result calls' :
  answer prompt d ->
  intent_is "quiz_creation" d = true ->
  parse_QuizCreate (quiz_fields d) = inr quiz_obj ->
  QuizCreate.questions quiz_obj <> [] ->
  create_quiz_internal (clamp_questions quiz_obj) current_user calls
  = (inr result, calls') ->
  exists response r rows n,
    generate_quiz prompt current_user calls = (inr response, calls')
    /\ Response.success response = true
    /\ Response.is_quiz_request response = true
    /\ Response.parsed_from response = Some prompt
    /\ Response.quiz_id response = Some (QuizRef.quiz_id result)
    /\ Response.quiz_title response = Some (QuizRef.title result)
    /\ Response.questions_generated response = Some n
    /\ calls' = calls ++ QuizzesRow r :: map QuestionsRow rows
    /\ length rows = n
    /\ Forall (fun row => QuestionRow.quiz_id row = QuizRef.quiz_id result) rows.
Proof.
  intros Ha Hq Hp Hne Hc.
  set (kept := clamp_questions quiz_obj) in *.
  pose proof Hc as Hs. rewrite create_quiz_internal_body in Hs.
  destruct (create_quiz_body kept current_user calls) as [[x|r0] c0] eqn:Eb;
    [discriminate Hs|].
  injection Hs as -> ->. apply create_quiz_body_success in Eb.
  destruct Eb as (times & creator_id & created & _ & _ & _ & _ & _ & _ & Hr & Hcalls).
  exists (created_response result kept prompt).
  eexists.
  exists (map (fun q =>
                 QuestionRow.Build (Created.id created)
                   (QuestionCreate.question_text q) (QuestionCreate.option_a q)
                   (QuestionCreate.option_b q) (QuestionCreate.option_c q)
                   (QuestionCreate.option_d q) (QuestionCreate.correct_option q)
                   (QuizCreate.positive_mark kept))
            (QuizCreate.questions kept)).
  exists (length (QuizCreate.questions kept)).
  split.
  { rewrite (generate_quiz_created prompt current_user calls d quiz_obj Ha Hq Hp Hne).
    fold kept. rewrite Hc. reflexivity. }
  repeat split.
  - rewrite Hcalls, <- app_assoc, map_map. reflexivity.
  - apply length_map.
  - rewrite Hr. apply Forall_forall. intros row Hin.
    apply in_map_iff in Hin. destruct Hin as (q & <- & _). reflexivity.
Qed.

(* ------------------------------------------------------------------ *)
(** ** More on the sanitizer *)

Lemma object_text_intro mid : object_text ("{"%char :: mid ++ ["}"%char]).
Proof.
  split; [reflexivity|]. unfold endswith. simpl rev.
  rewrite rev_app_distr. reflexivity.
Qed.

Lemma search_braces_inv s span :
  search_braces s = Some span ->
  exists a mid b,
    s = a ++ span ++ b
    /\ span = "{"%char :: mid ++ ["}"%char]
    /\ existsb is_lbrace a = false
    /\ existsb is_rbrace b = false.
Proof.
  unfold search_braces.
  destruct (drop_until is_lbrace s) as [|c rest] eqn:E; [discriminate|].
  destruct (drop_until_split _ _ _ _ E) as (a & -> & Hc & Ha).
  apply Ascii.eqb_eq in Hc; subst c.
  destruct (drop_until is_rbrace (rev rest)) as [|y r] eqn:E2; [discriminate|].
  destruct (drop_until_split _ _ _ _ E2) as (b' & Hrest & Hy & Hb).
  apply Ascii.eqb_eq in Hy; subst y.
  apply (f_equal (@rev ascii)) in Hrest. rewrite rev_involutive in Hrest.
  rewrite rev_app_distr in Hrest. simpl in Hrest. rewrite <- app_assoc in Hrest.
  subst rest.
  destruct (rev ("}"%char :: r)) as [|z l] eqn:E3.
  { apply (f_equal (@rev ascii)) in E3. rewrite rev_involutive in E3. discriminate E3. }
  intros H. injection H as <-. simpl in E3.
  exists a, (rev r), (rev b'). repeat split.
  - rewrite <- E3. simpl. rewrite <- app_assoc. reflexivity.
  - rewrite <- E3. reflexivity.
  - exact Ha.
  - rewrite existsb_rev. exact Hb.
Qed.

(** X9. [clean_gemini_json], line 277. The search finds a candidate exactly
    when the text has an opening brace with a closing brace after it, and
    the candidate is then the part of the text from its first opening brace
    to its last closing brace: nothing before it holds an opening brace and
    nothing after it a closing one. *)
Theorem search_braces_spec s span :
  search_braces s = Some span
  <-> exists a mid b,
        s = a ++ span ++ b
        /\ span = "{"%char :: mid ++ ["}"%char]
        /\ existsb is_lbrace a = false
        /\ existsb is_rbrace b = false.
Proof.
  split; [apply search_braces_inv|].
  intros (a & mid & b & -> & -> & Ha & Hb).
  apply search_braces_framed; [apply object_text_intro|].
  exists a, b. auto.
Qed.

Lemma replace_char_app old new a b :
  replace_char old new (a ++ b) = replace_char old new a ++ replace_char old new b.
Proof. apply flat_map_app. Qed.

Lemma replace_char_absent old new s :
  existsb (Ascii.eqb old) s = false -> replace_char old new s = s.
Proof.
  induction s as [|c s IH]; simpl; [reflexivity|]. intros H.
  apply orb_false_elim in H. destruct H as [Hc Hs].
  rewrite Ascii.eqb_sym, Hc. simpl. rewrite (IH Hs). reflexivity.
Qed.

(** X10. [create_quiz_internal], lines 182 to 184 and 200 to 202. A timestamp
    that ends with the designator Z is read as the same timestamp with the
    offset +00:00, every Z of the text being replaced, and a text without Z
    reaches the parser as it is. *)
Theorem utc_designator s :
  parse_ist (s ++ lit "Z") = parse_ist (s ++ lit "+00:00")
  /\ (existsb (Ascii.eqb "Z") s = false -> parse_ist s = fromisoformat_ist s).
Proof.
  unfold parse_ist. split.
  - rewrite !replace_char_app. reflexivity.
  - intros H. rewrite (replace_char_absent _ _ _ H). reflexivity.
Qed.

Lemma scan_members_object : forall fuel depth s acc v r,
  scan_members fuel depth s acc = inr (v, r) -> exists d, v = JObject d.
Proof.
  induction fuel as [|f IH]; intros depth s acc v r; simpl; [discriminate|].
  destruct s as [|c s']; [discriminate|].
  destruct (Ascii.eqb c dq); [|discriminate].
  destruct (scan_string s' []) as [[key r1]|]; [|discriminate].
  destruct (skip_ws r1) as [|c1 r2]; [discriminate|].
  destruct (Ascii.eqb c1 ":"); [|discriminate].
  destruct (scan_value f depth (skip_ws r2)) as [e|[v' r3]]; [discriminate|].
  destruct (skip_ws r3) as [|c3 r4]; [discriminate|].
  destruct (Ascii.eqb c3 "}").
  - intros H; injection H as <- _. eauto.
  - destruct (Ascii.eqb c3 ","); [apply IH | discriminate].
Qed.

(** The reference decoder makes an object of a text that opens with a
    brace, or refuses it. *)
Lemma json_loads_ref_object s v :
  startswith (lit "{") s = true -> json_loads_ref s = inr v -> exists d, v = JObject d.
Proof.
  intros Hs. apply startswith_char in Hs. destruct Hs as [t ->].
  unfold json_loads_ref.
  change (skip_ws ("{"%char :: t)) with ("{"%char :: t).
  destruct (scan_value (2 * length ("{"%char :: t) + 2) nesting_limit ("{"%char :: t))
    as [e|[v' r]] eqn:E; [discriminate|].
  destruct (skip_ws r); [|discriminate]. intros H; injection H as <-.
  unfold nesting_limit in E. simpl in E.
  destruct (skip_ws t) as [|c' r'] eqn:Et; [discriminate E|].
  destruct (Ascii.eqb c' "}").
  - injection E as <- _. eauto.
  - eapply scan_members_object, E.
Qed.

(** X11. [clean_gemini_json], lines 277 to 284. The text handed to the decoder
    opens with a brace and closes with one; so with a decoder that, like
    [json.loads], makes nothing but an object of a text that opens with a
    brace, what the sanitizer returns is always an object, on which the
    route can call [get]. *)
Theorem sanitizer_returns_objects :
  (forall raw span, search_braces (cleaned_text raw) = Some span -> object_text span)
  /\ ((forall s v, startswith (lit "{") s = true -> json_loads s = inr v ->
                   exists d, v = JObject d) ->
      forall raw v, clean_gemini_json json_loads raw = inr v ->
                    exists d, v = JObject d /\ as_dict v = inr d).
Proof.
  assert (Hspan : forall raw span,
            search_braces (cleaned_text raw) = Some span -> object_text span).
  { intros raw span H. apply search_braces_inv in H.
    destruct H as (a & mid & b & _ & -> & _). apply object_text_intro. }
  split; [exact Hspan|].
  intros Hloads raw v. unfold clean_gemini_json.
  destruct (search_braces (cleaned_text raw)) as [span|] eqn:E; [|discriminate].
  destruct (json_loads span) as [[m|m|m]|v'] eqn:Ev; try discriminate.
  intros H; injection H as <-.
  destruct (Hloads span v' (proj1 (Hspan raw span E)) Ev) as [d ->].
  exists d; auto.
Qed.

Lemma subseq_refl {A : Type} (l : list A) : subseq l l.
Proof. induction l; [apply subseq_nil | apply subseq_keep; assumption]. Qed.

Lemma subseq_nil_l {A : Type} (l : list A) : subseq [] l.
Proof. induction l; [apply subseq_nil | apply subseq_skip; assumption]. Qed.

Lemma subseq_trans {A : Type} (l1 l2 l3 : list A) :
  subseq l1 l2 -> subseq l2 l3 -> subseq l1 l3.
Proof.
  intros H12 H23. revert l1 H12.
  induction H23 as [|x l2 l3 H23 IH|x l2 l3 H23 IH]; intros l1 H12.
  - exact H12.
  - apply subseq_skip, IH, H12.
  - inversion H12; subst.
    + apply subseq_skip, IH; assumption.
    + apply subseq_keep, IH; assumption.
Qed.

Lemma subseq_app {A : Type} (a1 a2 b1 b2 : list A) :
  subseq a1 a2 -> subseq b1 b2 -> subseq (a1 ++ b1) (a2 ++ b2).
Proof.
  intros Ha Hb.
  induction Ha; simpl; [exact Hb | apply subseq_skip | apply subseq_keep]; assumption.
Qed.

Lemma subseq_rev {A : Type} (l1 l2 : list A) :
  subseq l1 l2 -> subseq (rev l1) (rev l2).
Proof.
  intros H. induction H; simpl.
  - apply subseq_nil.
  - rewrite <- (app_nil_r (rev l1)). apply subseq_app; [assumption|].
    apply subseq_nil_l.
  - apply subseq_app; [assumption | apply subseq_refl].
Qed.

Lemma subseq_length {A : Type} (l1 l2 : list A) :
  subseq l1 l2 -> length l1 <= length l2.
Proof.
  intros H. induction H; simpl;
    [apply Nat.le_refl | apply Nat.le_le_succ_r; assumption | apply le_n_S; assumption].
Qed.

Lemma subseq_lstrip s : subseq (lstrip s) s.
Proof.
  induction s as [|c s IH]; simpl; [apply subseq_nil|].
  destruct (is_space c); [apply subseq_skip; exact IH | apply subseq_refl].
Qed.

Lemma subseq_strip s : subseq (strip s) s.
Proof.
  unfold strip, rstrip.
  apply (subseq_trans _ (lstrip s)); [|apply subseq_lstrip].
  rewrite <- (rev_involutive (lstrip s)) at 2.
  apply subseq_rev, subseq_lstrip.
Qed.

Lemma subseq_sub_fences s : forall skip bol, subseq (sub_fences skip bol s) s.
Proof.
  induction s as [|c t IH]; intros skip bol; [apply subseq_nil|].
  destruct skip as [|k].
  - rewrite sub_fences_0_cons.
    destruct (fence_at bol (c :: t)); [apply subseq_keep | apply subseq_skip]; apply IH.
  - simpl. apply subseq_skip. apply IH.
Qed.

Lemma subseq_removelast (s : text) : subseq (removelast s) s.
Proof.
  induction s as [|c s IH]; [apply subseq_nil|].
  destruct s as [|d s]; [apply subseq_skip, subseq_nil|].
  change (removelast (c :: d :: s)) with (c :: removelast (d :: s)).
  apply subseq_keep. exact IH.
Qed.

Lemma subseq_strip_parens s : subseq (strip_parens s) s.
Proof.
  unfold strip_parens.
  destruct (startswith (lit "(") s && endswith (lit ")") s); [|apply subseq_refl].
  apply (subseq_trans _ (slice_1_m1 s)); [apply subseq_strip|].
  unfold slice_1_m1.
  apply (subseq_trans _ (tl s)); [apply subseq_removelast|].
  destruct s; [apply subseq_nil | simpl; apply subseq_skip, subseq_refl].
Qed.

Lemma subseq_cleaned_text raw : subseq (cleaned_text raw) raw.
Proof.
  unfold cleaned_text.
  eapply subseq_trans; [apply subseq_strip_parens|].
  eapply subseq_trans; [apply subseq_strip|].
  eapply subseq_trans; [apply subseq_sub_fences|].
  apply subseq_strip.
Qed.

(** X12. [clean_gemini_json], lines 270 to 281. The sanitizer only deletes: the
    cleaned text, and with it the candidate handed to the decoder and
    quoted in the error, is the raw text with some characters taken out, the
    others in their order; the candidate is never longer than the raw
    text. *)
Theorem sanitizer_only_deletes raw :
  subseq (cleaned_text raw) raw
  /\ (forall span, search_braces (cleaned_text raw) = Some span ->
        subseq span raw /\ length span <= length raw).
Proof.
  split; [apply subseq_cleaned_text|].
  intros span H. apply search_braces_inv in H.
  destruct H as (a & mid & b & E & _).
  assert (Hs : subseq span raw).
  { apply (subseq_trans _ (cleaned_text raw)); [|apply subseq_cleaned_text].
    rewrite E.
    rewrite <- (app_nil_l span) at 1. apply subseq_app; [apply subseq_nil_l|].
    rewrite <- (app_nil_r span) at 1. apply subseq_app; [apply subseq_refl|].
    apply subseq_nil_l. }
  split; [exact Hs | apply subseq_length, Hs].
Qed.

(* ------------------------------------------------------------------ *)
(** ** The proxy middleware *)

Lemma headers_get_first key pre value rest :
  (forall h, In h pre -> fst h <> lower key) ->
  headers_get key (pre ++ (lower key, value) :: rest) = Some value.
Proof.
  induction pre as [|[n v] pre IH]; intros H; simpl.
  - rewrite text_eqb_refl. reflexivity.
  - destruct (text_eqb n (lower key)) eqn:E.
    + apply text_eqb_eq in E. destruct (H (n, v) (or_introl eq_refl) E).
    + apply IH. intros h Hin. apply H. right. exact Hin.
Qed.

Lemma headers_get_absent key headers :
  (forall h, In h headers -> fst h <> lower key) -> headers_get key headers = None.
Proof.
  induction headers as [|[n v] hs IH]; intros H; simpl; [reflexivity|].
  destruct (text_eqb n (lower key)) eqn:E.
  - apply text_eqb_eq in E. destruct (H (n, v) (or_introl eq_refl) E).
  - apply IH. intros h Hin. apply H. right. exact Hin.
Qed.

(** X13. [proxy_headers_middleware], [app/main.py] lines 16 to 23. The rest of
    the application runs exactly once and its response is returned as it
    is. It sees the scheme of the first header named x-forwarded-proto,
    whatever that header says, and the request's own scheme when there is
    no such header; the headers and the other entries of the scope are
    never touched, and running the middleware twice is the same as running
    it once. *)
Theorem proxy_scheme {R : Type} (request : Scope.t) (call_next : Scope.t -> R) :
  (forall pre proto rest,
     Scope.headers request = pre ++ (lit "x-forwarded-proto", proto) :: rest ->
     (forall h, In h pre -> fst h <> lit "x-forwarded-proto") ->
     proxy_headers_middleware request call_next
     = call_next (Scope.Build proto (Scope.headers request) (Scope.others request)))
  /\ ((forall h, In h (Scope.headers request) -> fst h <> lit "x-forwarded-proto") ->
      proxy_headers_middleware request call_next = call_next request)
  /\ (exists seen,
        proxy_headers_middleware request call_next = call_next seen
        /\ Scope.headers seen = Scope.headers request
        /\ Scope.others seen = Scope.others request)
  /\ proxy_headers_middleware request
       (fun inner => proxy_headers_middleware inner call_next)
     = proxy_headers_middleware request call_next.
Proof.
  unfold proxy_headers_middleware. repeat split.
  - intros pre proto rest E Hpre.
    pose proof (headers_get_first (lit "x-forwarded-proto") pre proto rest Hpre) as G.
    change (lower (lit "x-forwarded-proto")) with (lit "x-forwarded-proto") in G.
    rewrite <- E in G. rewrite G. reflexivity.
  - intros H.
    rewrite (headers_get_absent (lit "x-forwarded-proto") _ H). reflexivity.
  - destruct (headers_get (lit "x-forwarded-proto") (Scope.headers request)) as [p|].
    + eexists; repeat split.
    + exists request; repeat split.
  - destruct request as [s hs os]. cbn [Scope.headers Scope.others].
    destruct (headers_get (lit "x-forwarded-proto") hs) as [p|] eqn:E;
      cbn [Scope.headers Scope.others]; rewrite ?E; reflexivity.
Qed.

(* ------------------------------------------------------------------ *)
(** ** The failures of the route *)

Lemma startswith_app p s : startswith p (p ++ s) = true.
Proof. induction p as [|c p IH]; simpl; [reflexivity|]. rewrite Ascii.eqb_refl. exact IH. Qed.

Lemma catalogued_message c s m :
  In (c, s, true) route_failures -> catalogued (HTTPException c (lit s ++ m)).
Proof.
  intros Hin. apply existsb_exists. exists (c, s, true). split; [exact Hin|].
  cbn [is_failure]. rewrite Nat.eqb_refl, startswith_app. reflexivity.
Qed.

Lemma catalogued_exact c s :
  In (c, s, false) route_failures -> catalogued (HTTPException c (lit s)).
Proof.
  intros Hin. apply existsb_exists. exists (c, s, false). split; [exact Hin|].
  cbn [is_failure]. rewrite Nat.eqb_refl, text_eqb_refl. reflexivity.
Qed.

Ltac listed := solve [repeat first [left; reflexivity | right]].

Lemma resolve_times_catalogued quiz_data e :
  (forall s x, fromisoformat_ist s = inl x -> is_http x = false) ->
  resolve_times quiz_data = inl e ->
  catalogued e \/ is_http e = false.
Proof.
  intros Hparse. unfold resolve_times.
  assert (Hs : forall s d, from_start_time s d = inl e ->
                 catalogued e \/ is_http e = false).
  { intros s d. unfold from_start_time, ebind, parse_ist.
    destruct (fromisoformat_ist _) as [x|t] eqn:Ep.
    - destruct (is_ValueError x) eqn:Ev; intros H; injection H as <-.
      + left. apply (catalogued_exact 400 "Invalid start_time format. Use ISO format.").
        listed.
      + right. eapply Hparse, Ep.
    - destruct (dt_le t now).
      { intros H; injection H as <-. left.
        apply (catalogued_exact 400
                 "Start time must be in the future for scheduled quizzes").
        listed. }
      unfold timedelta_minutes.
      destruct ((d / 1440 <? -2147483648) || (2147483647 <? d / 1440))%Z;
        [intros H; injection H as <-; auto|].
      destruct (999999999 <? Z.abs (d / 1440))%Z; [intros H; injection H as <-; auto|].
      unfold dt_add, dt_shift.
      destruct (in_range _); [discriminate | intros H; injection H as <-; auto]. }
  assert (He : forall s d, from_end_time s d = inl e ->
                 catalogued e \/ is_http e = false).
  { intros s d. unfold from_end_time, ebind, parse_ist.
    destruct (fromisoformat_ist _) as [x|t] eqn:Ep.
    - destruct (is_ValueError x) eqn:Ev; intros H; injection H as <-.
      + left. apply (catalogued_exact 400 "Invalid end_time format. Use ISO format.").
        listed.
      + right. eapply Hparse, Ep.
    - unfold timedelta_minutes.
      destruct ((d / 1440 <? -2147483648) || (2147483647 <? d / 1440))%Z;
        [intros H; injection H as <-; auto|].
      destruct (999999999 <? Z.abs (d / 1440))%Z; [intros H; injection H as <-; auto|].
      unfold dt_sub, dt_shift.
      destruct (in_range _); [|intros H; injection H as <-; auto].
      destruct (dt_le _ now); [|discriminate].
      intros H; injection H as <-. left.
      apply (catalogued_exact 400 "Quiz duration too long for the specified end time").
      listed. }
  destruct (QuizCreate.start_time quiz_data) as [[|c s]|]; eauto;
    destruct (QuizCreate.end_time quiz_data) as [[|c e']|]; eauto; discriminate.
Qed.

Lemma validate_questions_catalogued qs : forall i e,
  validate_questions i qs = inl e -> catalogued e.
Proof.
  induction qs as [|q qs IH]; intros i e; simpl; [discriminate|].
  rewrite validate_lengths_first_violation.
  destruct (first_violation q); simpl; [|apply IH].
  intros H; injection H as <-.
  apply (catalogued_message 400 "Question "). listed.
Qed.

Lemma classify_failure_catalogued x :
  catalogued x \/ is_http x = false -> catalogued (classify_failure x).
Proof.
  intros [Hx | Hx].
  - destruct x; try discriminate Hx. exact Hx.
  - rewrite (classify_failure_store x Hx).
    destruct (is_duplicate (exn_str x)).
    + apply (catalogued_exact 400
               "A quiz with this title already exists. Please choose a different title.").
      listed.
    + apply (catalogued_message 400 "Failed to create quiz: "). listed.
Qed.

Lemma create_quiz_internal_catalogued quiz_data current_user calls e :
  (forall s x, fromisoformat_ist s = inl x -> is_http x = false) ->
  (forall c r x, db_insert c r = inl x -> is_http x = false) ->
  1 <= length (QuizCreate.questions quiz_data) <= 50 ->
  fst (create_quiz_internal quiz_data current_user calls) = inl e ->
  catalogued e.
Proof.
  intros Hparse Hdb [Hlo Hhi].
  rewrite create_quiz_internal_body.
  assert (Hb : forall x, fst (create_quiz_body quiz_data current_user calls) = inl x ->
                 catalogued x \/ is_http x = false).
  { intros x. unfold create_quiz_body.
    destruct (Nat.ltb_spec 50 (length (QuizCreate.questions quiz_data))) as [Hc|_];
      [lia|].
    destruct (Nat.ltb_spec (length (QuizCreate.questions quiz_data)) 1) as [Hc|_];
      [lia|].
    unfold bind, lift.
    destruct (validate_questions 0 (QuizCreate.questions quiz_data)) as [y|[]] eqn:Ev.
    { simpl; intros H; injection H as <-. left. eapply validate_questions_catalogued, Ev. }
    destruct (resolve_times quiz_data) as [y|times] eqn:Et.
    { simpl; intros H; injection H as <-. eapply resolve_times_catalogued; eauto. }
    destruct (user_id current_user) as [y|creator_id] eqn:Eu.
    { simpl; intros H; injection H as <-. right.
      unfold user_id in Eu. destruct (find _ current_user); [discriminate Eu|].
      injection Eu as <-. reflexivity. }
    unfold insert at 1.
    destruct (db_insert calls (quiz_row quiz_data creator_id (fst times) (snd times)))
      as [y|created] eqn:Ed.
    { simpl; intros H; injection H as <-. right. eapply Hdb, Ed. }
    pose proof (insert_questions_failure created quiz_data
                  (QuizCreate.questions quiz_data)
                  (calls ++ [quiz_row quiz_data creator_id (fst times) (snd times)])) as Hq.
    destruct (insert_questions created quiz_data (QuizCreate.questions quiz_data)
                (calls ++ [quiz_row quiz_data creator_id (fst times) (snd times)]))
      as [[y|u] c]; simpl in *; [|discriminate].
    intros H; injection H as <-. right. apply (Hq y Hdb eq_refl). }
  destruct (create_quiz_body quiz_data current_user calls) as [[x|r] c]; simpl in *;
    [|discriminate].
  intros H; injection H as <-. apply classify_failure_catalogued, Hb. reflexivity.
Qed.

Lemma clamp_questions_bounds quiz_obj :
  (length (QuizCreate.questions quiz_obj) <? 1) = false ->
  1 <= length (QuizCreate.questions (clamp_questions quiz_obj)) <= 50.
Proof.
  intros H. apply Nat.ltb_ge in H.
  rewrite clamp_questions_firstn.
  cbn [QuizCreate.questions QuizCreate.with_questions].
  rewrite length_firstn. lia.
Qed.

(** X14. [generate_quiz] with [create_quiz_internal] and [clean_gemini_json],
    lines 164 to 168, 254 to 263, 279, 286, 317, 334 to 337 and 360 to 365.
    When the timestamp parser, the store and the model raise no
    [HTTPException] of their own, every failure of the route carries one of
    thirteen messages with its status. The two bounds the persister puts on
    the number of questions are not among them: the route has refused the
    empty list and cut a long one to 20 before the persister counts, so that
    through the route neither of its two messages is ever sent. *)
Theorem route_failure_catalogue prompt current_user calls e :
  (forall s x, fromisoformat_ist s = inl x -> is_http x = false) ->
  (forall c r x, db_insert c r = inl x -> is_http x = false) ->
  (forall a b x, gemini a b = inl x -> is_http x = false) ->
  fst (generate_quiz prompt current_user calls) = inl e ->
  catalogued e
  /\ e <> HTTPException 400 (lit "Maximum 50 questions allowed per quiz")
  /\ e <> HTTPException 400 (lit "At least 1 question is required").
Proof.
  intros Hparse Hdb Hgem He.
  assert (Hc : catalogued e).
  { revert He.
    assert (Hb : forall x, fst (generate_quiz_body prompt current_user calls) = inl x ->
                   catalogued x \/ is_http x = false).
    { intros x. unfold generate_quiz_body, bind, lift.
      destruct (gemini (isoformat now_prompt) prompt) as [y|[[|c t]|]] eqn:Eg; simpl.
      - intros H; injection H as <-. right. eapply Hgem, Eg.
      - intros H; injection H as <-. left.
        apply (catalogued_exact 500 "Gemini returned empty response"). listed.
      - unfold clean_gemini_json.
        destruct (search_braces (cleaned_text (c :: t))) as [span|]; simpl.
        2: { intros H; injection H as <-. left.
             apply (catalogued_message 400 "Gemini returned no JSON block."). listed. }
        destruct (json_loads span) as [[m|m|m]|v]; simpl.
        { intros H; injection H as <-. left.
          apply (catalogued_message 400 "Gemini returned invalid JSON: "). listed. }
        { intros H; injection H as <-. right. reflexivity. }
        { intros H; injection H as <-. right. reflexivity. }
        destruct (as_dict v) as [y|d] eqn:Ea; simpl.
        { intros H; injection H as <-. right.
          destruct v; simpl in Ea; try discriminate Ea; injection Ea as <-; reflexivity. }
        unfold route.
        destruct (json_is_str (lit "non_quiz") (dict_get (lit "intent") JNull d));
          [simpl; discriminate|].
        destruct (json_is_str (lit "quiz_creation") (dict_get (lit "intent") JNull d));
          [|simpl; discriminate].
        unfold bind, lift, parse_QuizCreate.
        destruct (parse_fields _) as [quiz_obj|]; simpl;
          [|intros H; injection H as <-; right; reflexivity].
        destruct (length (QuizCreate.questions quiz_obj) <? 1) eqn:El; simpl.
        { intros H; injection H as <-. left.
          apply (catalogued_exact 400 "Quiz must have at least 1 question"). listed. }
        pose proof (create_quiz_internal_catalogued (clamp_questions quiz_obj)
                      current_user calls) as Hc.
        destruct (create_quiz_internal (clamp_questions quiz_obj) current_user calls)
          as [[y|r] c']; simpl in *; [|discriminate].
        intros H; injection H as <-. left.
        apply (Hc y Hparse Hdb (clamp_questions_bounds quiz_obj El) eq_refl).
      - intros H; injection H as <-. left.
        apply (catalogued_exact 500 "Gemini returned empty response"). listed. }
    unfold generate_quiz, try_except.
    destruct (generate_quiz_body prompt current_user calls) as [[x|r] c]; simpl in *;
      [|discriminate].
    destruct (Hb x eq_refl) as [Hx | Hx].
    - destruct x; try discriminate Hx. simpl. intros H; injection H as <-. exact Hx.
    - destruct x; try discriminate Hx; simpl; intros H; injection H as <-;
        match goal with
        | |- catalogued (HTTPException 400 _) =>
            apply (catalogued_message 400 "Failed to parse AI response as JSON: ")
        | |- catalogued (HTTPException 500 _) =>
            apply (catalogued_message 500 "Quiz generation failed: ")
        end; listed. }
  split; [exact Hc|].
  split; intros ->; vm_compute in Hc; discriminate Hc.
Qed.

End Pipeline.

(* ------------------------------------------------------------------ *)
(** ** The theorems on the reference instances *)

(** The pipeline on the reference instances, the model answering [answer]
    and the store behaving as [db]. *)
Abbreviation ref_create db :=
  (create_quiz_internal fromisoformat_ref sample_now sample_now (lit "quiz-1") db).

Abbreviation ref_generate answer db :=
  (generate_quiz json_loads_ref fromisoformat_ref sample_now sample_now sample_now
     (lit "quiz-1") db (gemini_says answer) strict_str strict_int strict_bool
     schema_error_ref).

(** C1 as the specification states it, surrounding text being arbitrary,
    fails: the span runs from the first opening brace of the whole text, so
    a brace in the prose before the object is taken into the candidate, and
    the object is not recovered. *)
Lemma sanitizer_round_trip_counterexample :
  object_text (quoted "{'a': 1}")
  /\ json_loads_ref (quoted "{'a': 1}") = inr (JObject [(lit "a", JInt 1)])
  /\ clean_gemini_json json_loads_ref (lit "Use {braces}: " ++ quoted "{'a': 1}" ++ [])
     = inl (MalformedJson (lit "invalid JSON") (quoted "{braces}: {'a': 1}"))
  /\ ~ (forall pre o post v,
          object_text o -> json_loads_ref o = inr v ->
          clean_gemini_json json_loads_ref (pre ++ o ++ post) = inr v).
Proof.
  split; [split; vm_compute; reflexivity|].
  split; [vm_compute; reflexivity|].
  split; [vm_compute; reflexivity|].
  intros H.
  specialize (H (lit "Use {braces}: ") (quoted "{'a': 1}") []
                (JObject [(lit "a", JInt 1)])
                (conj eq_refl eq_refl) eq_refl).
  vm_compute in H. discriminate H.
Qed.

(** The amended C1 on an object between prose, a fence and parentheses. *)
Lemma sanitizer_recovers_framed_object_witness :
  clean_gemini_json json_loads_ref (fenced_prefix ++ non_quiz_object ++ fenced_suffix)
  = inr (JObject non_quiz_dict).
Proof.
  apply (sanitizer_recovers_framed_object json_loads_ref fenced_prefix non_quiz_object
           fenced_suffix (JObject non_quiz_dict)).
  - vm_compute; reflexivity.
  - split; vm_compute; reflexivity.
  - vm_compute; reflexivity.
  - vm_compute; reflexivity.
  - vm_compute; reflexivity.
Defined.

(** C6 as the specification states it fails on a candidate that the
    decoder refuses with another exception than its [JSONDecodeError]: an
    object with an integer of 4301 digits does not parse, the decoder
    raising the [ValueError] of the integer conversion, which the handler
    of [JSONDecodeError] does not catch; the sanitizer fails with that
    [ValueError], not with MalformedJson, and the route answers 500. *)
Lemma sanitizer_failure_counterexample :
  search_braces (cleaned_text long_integer_object) = Some long_integer_object
  /\ json_loads_ref long_integer_object = inl (TooManyDigits digits_message)
  /\ clean_gemini_json json_loads_ref long_integer_object
     = inl (ValueError digits_message)
  /\ ref_generate long_integer_object db_accept (lit "A quiz on sums") sample_user []
     = (inl (HTTPException 500 (lit "Quiz generation failed: " ++ digits_message)), [])
  /\ ~ (forall raw span,
          search_braces (cleaned_text raw) = Some span ->
          (forall v, json_loads_ref span <> inr v) ->
          exists e, clean_gemini_json json_loads_ref raw = inl (MalformedJson e span)).
Proof.
  assert (Hs : search_braces (cleaned_text long_integer_object)
               = Some long_integer_object) by (vm_compute; reflexivity).
  assert (Hl : json_loads_ref long_integer_object = inl (TooManyDigits digits_message))
    by (vm_compute; reflexivity).
  assert (Hc : clean_gemini_json json_loads_ref long_integer_object
               = inl (ValueError digits_message)) by (vm_compute; reflexivity).
  split; [exact Hs|]. split; [exact Hl|]. split; [exact Hc|].
  split; [vm_compute; reflexivity|].
  intros H.
  destruct (H long_integer_object long_integer_object Hs) as [e He].
  - intros v Hv. rewrite Hl in Hv. discriminate Hv.
  - rewrite Hc in He. discriminate He.
Qed.

(** The amended C6 on a text without braces, on a span that is not JSON and
    on the object with the long integer. *)
Lemma sanitizer_failure_modes_witness :
  clean_gemini_json json_loads_ref (lit "Hello there") = inl (NoJsonFound (lit "Hello there"))
  /\ clean_gemini_json json_loads_ref (lit "Sure: {oops}")
     = inl (MalformedJson (lit "invalid JSON") (lit "{oops}"))
  /\ clean_gemini_json json_loads_ref long_integer_object
     = inl (decoder_exn (TooManyDigits digits_message)).
Proof.
  pose proof (sanitizer_failure_modes json_loads_ref fromisoformat_ref sample_now
                sample_now sample_now (lit "quiz-1") db_accept
                (gemini_says long_integer_object) strict_str strict_int strict_bool
                schema_error_ref) as (H1 & H2 & _ & H4).
  split; [|split].
  - apply H1.
    intros H; apply span_b_true in H; vm_compute in H; discriminate H.
  - apply H2.
    + vm_compute; reflexivity.
    + vm_compute; reflexivity.
  - apply (H4 long_integer_object long_integer_object (TooManyDigits digits_message)).
    + vm_compute; reflexivity.
    + vm_compute; reflexivity.
    + intros e; discriminate.
Defined.

(** C5 on a question that passes and on a quiz whose second question has
    the correct option e. *)
Lemma validator_contract_witness :
  validate_lengths sample_question = inr tt
  /\ ref_create db_accept (sample_quiz None None 30 [sample_question; wrong_question])
       sample_user []
     = (inl (question_error 2 (lit "Correct option must be 'a', 'b', 'c', or 'd'")), []).
Proof.
  pose proof (validator_contract fromisoformat_ref sample_now sample_now (lit "quiz-1")
                db_accept) as (H1 & _ & _ & _ & H5).
  assert (Hok : within_bounds sample_question).
  { unfold within_bounds; simpl; repeat split; try lia. right; left; reflexivity. }
  split.
  - apply H1, Hok.
  - apply (H5 _ sample_user [] [sample_question] wrong_question []).
    + reflexivity.
    + simpl; lia.
    + constructor; [exact Hok | constructor].
    + reflexivity.
Defined.



(** C4 as the specification states it, the pattern being "duplicate" or
    "unique", fails: a store message that contains "duplicate" without the
    words "key value" after it, and no "unique", is not classified as a
    duplicate title. *)
Lemma persister_classification_counterexample :
  contains (lit "duplicate") (lit "duplicate entry for title") = true
  /\ ref_create (db_fail (lit "duplicate entry for title"))
       (sample_quiz None None 30 [sample_question]) sample_user []
     = (inl (PersistenceError (lit "duplicate entry for title")),
        [quiz_row sample_now (lit "quiz-1") (sample_quiz None None 30 [sample_question])
           (lit "user-1") None None])
  /\ PersistenceError (lit "duplicate entry for title") <> DuplicateTitle
  /\ ~ (forall msg,
          contains (lit "duplicate") msg || contains (lit "unique") msg = true <->
          fst (ref_create (db_fail msg) (sample_quiz None None 30 [sample_question])
                 sample_user [])
          = inl DuplicateTitle).
Proof.
  split; [vm_compute; reflexivity|].
  split; [vm_compute; reflexivity|].
  split; [discriminate|].
  intros H.
  destruct (H (lit "duplicate entry for title")) as [H1 _].
  specialize (H1 eq_refl). vm_compute in H1. discriminate H1.
Qed.

(** The amended C4 on a store that reports a UNIQUE constraint. *)
Lemma persister_error_classification_witness :
  ref_create (db_fail (lit "UNIQUE constraint failed: quizzes.title"))
    (sample_quiz None None 30 [sample_question]) sample_user []
  = (inl DuplicateTitle,
     [] ++ [quiz_row sample_now (lit "quiz-1") (sample_quiz None None 30 [sample_question])
              (lit "user-1") None None]).
Proof.
  apply (proj1 (persister_error_classification fromisoformat_ref sample_now sample_now
                  (lit "quiz-1") (db_fail (lit "UNIQUE constraint failed: quizzes.title"))
                  (sample_quiz None None 30 [sample_question]) sample_user []
                  (None, None) (lit "user-1")
                  (Exception (lit "UNIQUE constraint failed: quizzes.title"))
                  ltac:(simpl; lia) eq_refl eq_refl eq_refl eq_refl)).
  reflexivity.
Defined.

(** C8 on a request for a trivia quiz with a topic and a difficulty. *)
Lemma persisted_quiz_constants_witness :
  exists r rest,
    snd (ref_create db_accept
           (sample_quiz (Some (lit "2030-01-01T04:30:00Z")) None 45 [sample_question])
           sample_user [])
    = QuizzesRow r :: rest
    /\ QuizRow.is_trivia r = false /\ QuizRow.topic r = None
    /\ QuizRow.difficulty r = None.
Proof.
  destruct (proj1 (persisted_quiz_constants json_loads_ref fromisoformat_ref sample_now
                     sample_now sample_now (lit "quiz-1") db_accept (gemini_says [])
                     strict_str strict_int strict_bool schema_error_ref)
              (sample_quiz (Some (lit "2030-01-01T04:30:00Z")) None 45 [sample_question])
              sample_user [])
    as (new & Hs & Hf & Hq).
  destruct (Hq (QuizRef.Build (lit "quiz-1") (lit "Sums")) ltac:(vm_compute; reflexivity))
    as (r & rest & ->).
  exists r, rest. split; [exact Hs|].
  inversion Hf as [|? ? Hr _]; simpl in Hr. destruct Hr as (H1 & H2 & H3 & _); auto.
Defined.

(** C9 on a request with both a start and an end time: the quiz is created,
    and the end that is stored is the start plus the 45 minutes, not the
    end that was asked for. *)
Lemma start_time_takes_precedence_witness :
  ref_create db_accept
    (sample_quiz (Some (lit "2030-01-01T04:30:00Z")) (Some (lit "2031-06-01T00:00:00Z"))
       45 [sample_question]) sample_user []
  = (inr (QuizRef.Build (lit "quiz-1") (lit "Sums")),
     ([] ++ [quiz_row sample_now (lit "quiz-1")
               (sample_quiz (Some (lit "2030-01-01T04:30:00Z")) None 45 [sample_question])
               (lit "user-1") (Some (lit "2030-01-01T10:00:00+05:30"))
               (Some (lit "2030-01-01T10:45:00+05:30"))])
     ++ [question_row (Created.Build (lit "quiz-1") (lit "Sums"))
           (sample_quiz (Some (lit "2030-01-01T04:30:00Z")) None 45 [sample_question])
           sample_question]).
Proof.
  refine (proj1 (proj2 (proj2 (start_time_takes_precedence fromisoformat_ref sample_now
                                 sample_now (lit "quiz-1") db_accept
                                 (sample_quiz (Some (lit "2030-01-01T04:30:00Z")) None 45
                                    [sample_question])
                                 (lit "2030-01-01T04:30:00Z") eq_refl
                                 ltac:(discriminate)))
                  (Some (lit "2031-06-01T00:00:00Z")) sample_start sample_user []
                  (lit "user-1") (Created.Build (lit "quiz-1") (lit "Sums"))
                  _ _ _ _ _ _ _ _ _)).
  - cbn; lia.
  - vm_compute; reflexivity.
  - vm_compute; reflexivity.
  - vm_compute; reflexivity.
  - unfold delta_ok; vm_compute; discriminate.
  - vm_compute; reflexivity.
  - reflexivity.
  - vm_compute; reflexivity.
  - simpl. split; [eexists; reflexivity | exact I].
Defined.

(** C7 on a fenced answer of intent non_quiz. *)
Lemma rejection_frame_witness :
  exists response,
    ref_generate (fenced_prefix ++ non_quiz_object ++ fenced_suffix) db_accept
      (lit "Hello") sample_user []
    = (inr response, [])
    /\ Response.is_quiz_request response = false
    /\ Response.message response = JString (lit "Ask me for a quiz.").
Proof.
  destruct (rejection_frame json_loads_ref fromisoformat_ref sample_now sample_now
              sample_now (lit "quiz-1") db_accept
              (gemini_says (fenced_prefix ++ non_quiz_object ++ fenced_suffix))
              strict_str strict_int strict_bool schema_error_ref
              (lit "Hello") sample_user [] non_quiz_dict)
    as (response & H1 & H2 & _ & _ & H5 & _).
  - exists (fenced_prefix ++ non_quiz_object ++ fenced_suffix).
    split; [reflexivity | split; [discriminate | vm_compute; reflexivity]].
  - vm_compute; reflexivity.
  - exists response. repeat split; [exact H1 | exact H2|].
    apply H5. vm_compute; reflexivity.
Defined.

(** C3 on an answer with an empty list of questions. *)
Lemma router_post_processing_witness :
  ref_generate
    (quoted "{'intent': 'quiz_creation', 'title': 'Sums', 'description': 'Small sums', 'questions': []}")
    db_accept (lit "A quiz on sums") sample_user []
  = (inl EmptyQuiz, []).
Proof.
  refine (proj1 (router_post_processing json_loads_ref fromisoformat_ref sample_now
                   sample_now sample_now (lit "quiz-1") db_accept
                   (gemini_says (quoted "{'intent': 'quiz_creation', 'title': 'Sums', 'description': 'Small sums', 'questions': []}"))
                   strict_str strict_int strict_bool schema_error_ref
                   (lit "A quiz on sums") sample_user []
                   [(lit "intent", JString (lit "quiz_creation"));
                    (lit "title", JString (lit "Sums"));
                    (lit "description", JString (lit "Small sums"));
                    (lit "questions", JArray [])]
                   (QuizCreate.Build (lit "Sums") (lit "Small sums") false None None None
                      60 1 0 (lit "omni") true None [])
                   _ _ _) _).
  - exists (quoted "{'intent': 'quiz_creation', 'title': 'Sums', 'description': 'Small sums', 'questions': []}").
    split; [reflexivity | split; [discriminate | vm_compute; reflexivity]].
  - vm_compute; reflexivity.
  - vm_compute; reflexivity.
  - reflexivity.
Defined.

(** C10 on a payload with questions and no duration, which makes a quiz of
    60 minutes, and on an answer with a title and a description and nothing
    else, which ends in the error of the empty quiz. *)
Lemma quiz_create_defaults_witness :
  (exists q,
     parse_QuizCreate strict_str strict_int strict_bool schema_error_ref
       payload_without_duration = inr q
     /\ QuizCreate.duration q = 60%Z
     /\ QuizCreate.title q = lit "Sums")
  /\ ref_generate bare_answer db_accept (lit "A quiz on sums") sample_user []
     = (inl EmptyQuiz, []).
Proof.
  pose proof (quiz_create_defaults json_loads_ref fromisoformat_ref sample_now sample_now
                sample_now (lit "quiz-1") db_accept (gemini_says bare_answer)
                strict_str strict_int strict_bool schema_error_ref)
    as (_ & _ & H3 & _ & H5 & H6).
  split.
  - destruct (H5 payload_without_duration (JString (lit "Sums"))
                (JString (lit "Small sums")) (lit "Sums") (lit "Small sums")
                eq_refl eq_refl eq_refl eq_refl) as (q & Hp & Ht & _);
      try (intros j Hj; vm_compute in Hj; discriminate Hj).
    + intros j Hj. vm_compute in Hj. injection Hj as <-.
      eexists. vm_compute. reflexivity.
    + exists q. split; [exact Hp|]. split; [|exact Ht].
      apply (H3 payload_without_duration q Hp). reflexivity.
  - apply (H6 (lit "A quiz on sums") sample_user [] bare_dict
              (JString (lit "Sums")) (JString (lit "Small sums"))
              (lit "Sums") (lit "Small sums"));
      try reflexivity; try (intros j Hj; vm_compute in Hj; discriminate Hj).
    exists bare_answer.
    split; [reflexivity | split; [discriminate | vm_compute; reflexivity]].
Defined.

(* ------------------------------------------------------------------ *)
(** ** The scenarios of the specification, run on the reference instances *)

(** A fenced answer with ten questions and no start time: the quiz is
    created with its ten questions. *)
Example scenario_ten_questions :
  exists response calls,
    ref_generate (lit "```json" ++ [nl] ++ quiz_answer 10 ++ [nl] ++ lit "```") db_accept
      (lit "Create a quiz on sums with 10 questions") sample_user []
    = (inr response, calls)
    /\ Response.is_quiz_request response = true
    /\ Response.questions_generated response = Some 10
    /\ length calls = 11.
Proof. eexists; eexists; split; [vm_compute; reflexivity|]. repeat split. Qed.

(** An answer with 25 questions: 20 are kept. *)
Example scenario_twenty_five_questions :
  exists response calls,
    ref_generate (quiz_answer 25) db_accept (lit "A long quiz on sums") sample_user []
    = (inr response, calls)
    /\ Response.questions_generated response = Some 20
    /\ length calls = 21.
Proof. eexists; eexists; split; [vm_compute; reflexivity|]. repeat split. Qed.

(** An answer without braces: the failure carries the raw text. *)
Example scenario_no_braces :
  ref_generate (lit "I cannot help with that.") db_accept (lit "Hello") sample_user []
  = (inl (NoJsonFound (lit "I cannot help with that.")), []).
Proof. vm_compute; reflexivity. Qed.

(* ------------------------------------------------------------------ *)
(** ** Further properties, across two runs and on the reference instances *)

(** X15. [create_quiz_internal], lines 176 to 214. The clock enters the
    timestamps only through the two comparisons with the current time: a
    schedule that is accepted at one moment is accepted, with the same two
    timestamps, at every earlier moment. *)
Theorem schedule_accepted_earlier fromisoformat_ist
    (now now' : datetime) quiz_data times :
  (instant now' <= instant now)%Z ->
  resolve_times fromisoformat_ist now quiz_data = inr times ->
  resolve_times fromisoformat_ist now' quiz_data = inr times.
Proof.
  intros Hle. unfold resolve_times.
  assert (Hcmp : forall t, dt_le t now = false -> dt_le t now' = false).
  { intros t H. unfold dt_le in *. apply Z.leb_gt in H. apply Z.leb_gt. lia. }
  destruct (QuizCreate.start_time quiz_data) as [[|c s]|].
  2: { unfold from_start_time, ebind.
       destruct (parse_ist fromisoformat_ist (c :: s)) as [e|start_dt]; [auto|].
       destruct (dt_le start_dt now) eqn:H1.
       - simpl. discriminate.
       - rewrite (Hcmp _ H1). auto. }
  all: destruct (QuizCreate.end_time quiz_data) as [[|c e]|]; auto.
  all: unfold from_end_time, ebind.
  all: destruct (parse_ist fromisoformat_ist (c :: e)) as [x|end_dt]; auto.
  all: destruct (timedelta_minutes (QuizCreate.duration quiz_data)) as [x|delta]; auto.
  all: destruct (dt_sub end_dt delta) as [x|start_dt]; auto.
  all: destruct (dt_le start_dt now) eqn:H1; [simpl; discriminate|].
  all: rewrite (Hcmp _ H1); auto.
Qed.

Lemma fromisoformat_ref_raises s x :
  fromisoformat_ref s = inl x -> is_http x = false.
Proof.
  unfold fromisoformat_ref. cbv zeta.
  match goal with
  | |- context [match ?p with Some _ => _ | None => _ end] =>
      destruct p as [[wall off]|];
      [destruct (in_range _ && in_range _)|];
      intros H; inversion H; reflexivity
  end.
Qed.

Lemma db_accept_raises (c : list Row) (r : Row) x :
  db_accept c r = inl x -> is_http x = false.
Proof. destruct r; discriminate. Qed.

Lemma gemini_says_raises answer (a b : text) x :
  gemini_says answer a b = inl x -> is_http x = false.
Proof. discriminate. Qed.

Lemma db_fail_raises msg (c : list Row) (r : Row) x :
  db_fail msg c r = inl x -> is_http x = false.
Proof. intros H; injection H as <-; reflexivity. Qed.

Lemma question_count_bounds_witness :
  ref_create db_accept (sample_quiz None None 30 (repeat sample_question 51)) sample_user []
  = (inl (HTTPException 400 (lit "Maximum 50 questions allowed per quiz")), []).
Proof.
  apply (proj1 (question_count_bounds fromisoformat_ref sample_now sample_now
                  (lit "quiz-1") db_accept
                  (sample_quiz None None 30 (repeat sample_question 51)) sample_user [])).
  cbn. lia.
Defined.

Lemma persister_success_witness :
  exists created_quiz,
    db_accept [] (quiz_row sample_now (lit "quiz-1")
                    (sample_quiz None None 30 [sample_question]) (lit "user-1") None None)
    = inr created_quiz
    /\ Created.id created_quiz = lit "quiz-1".
Proof.
  destruct (proj1 (persister_success fromisoformat_ref sample_now sample_now
                     (lit "quiz-1") db_accept
                     (sample_quiz None None 30 [sample_question]) sample_user []
                     (QuizRef.Build (lit "quiz-1") (lit "Sums"))
                     [quiz_row sample_now (lit "quiz-1")
                        (sample_quiz None None 30 [sample_question]) (lit "user-1")
                        None None;
                      question_row (Created.Build (lit "quiz-1") (lit "Sums"))
                        (sample_quiz None None 30 [sample_question]) sample_question])
                  ltac:(vm_compute; reflexivity))
    as (times & creator_id & created_quiz & _ & _ & Ht & Hu & Hq & _ & Hr & _).
  injection Ht as <-. injection Hu as <-. injection Hr as Hr _.
  exists created_quiz. split; [exact Hq | symmetry; exact Hr].
Defined.

Lemma missing_user_id_witness :
  ref_create db_accept (sample_quiz None None 30 [sample_question])
    [(lit "name", lit "Asha")] []
  = (inl (PersistenceError (lit "'id'")), []).
Proof.
  refine (missing_user_id fromisoformat_ref sample_now sample_now (lit "quiz-1") db_accept
            (sample_quiz None None 30 [sample_question]) [(lit "name", lit "Asha")] []
            (None, None) _ eq_refl eq_refl _).
  - cbn. lia.
  - intros kv [<- | []]. vm_compute. discriminate.
Defined.

Lemma failure_statuses_witness :
  exists c d,
    NoJsonFound (lit "I cannot help with that.") = HTTPException c d
    /\ (c = 400 \/ c = 500).
Proof.
  refine (proj2 (proj2 (failure_statuses json_loads_ref fromisoformat_ref sample_now
                          sample_now sample_now (lit "quiz-1") db_accept
                          (gemini_says (lit "I cannot help with that."))
                          strict_str strict_int strict_bool schema_error_ref)
                   fromisoformat_ref_raises db_accept_raises
                   (gemini_says_raises (lit "I cannot help with that.")))
            (lit "Hello") sample_user [] _ _).
  vm_compute; reflexivity.
Defined.

Lemma model_failures_witness :
  generate_quiz json_loads_ref fromisoformat_ref sample_now sample_now sample_now
    (lit "quiz-1") db_accept (gemini_raises (Exception (lit "quota exceeded")))
    strict_str strict_int strict_bool schema_error_ref (lit "A quiz on sums")
    sample_user []
  = (inl (HTTPException 500 (lit "Quiz generation failed: quota exceeded")), []).
Proof.
  refine (proj1 (proj2 (model_failures json_loads_ref fromisoformat_ref sample_now
                          sample_now sample_now (lit "quiz-1") db_accept
                          (gemini_raises (Exception (lit "quota exceeded")))
                          strict_str strict_int strict_bool schema_error_ref
                          (lit "A quiz on sums") sample_user []))
            (Exception (lit "quota exceeded")) eq_refl eq_refl _).
  intros m; discriminate.
Defined.

Lemma schema_failure_witness :
  ref_generate incomplete_answer db_accept (lit "A quiz on sums") sample_user []
  = (inl (HTTPException 500
            (lit "Quiz generation failed: "
             ++ schema_error_ref (quiz_fields incomplete_dict))), []).
Proof.
  assert (Ha : answer json_loads_ref sample_now (gemini_says incomplete_answer)
                 (lit "A quiz on sums") incomplete_dict).
  { exists incomplete_answer.
    split; [reflexivity | split; [discriminate | vm_compute; reflexivity]]. }
  pose proof (schema_failure json_loads_ref fromisoformat_ref sample_now sample_now
                sample_now (lit "quiz-1") db_accept (gemini_says incomplete_answer)
                strict_str strict_int strict_bool schema_error_ref
                (lit "A quiz on sums") sample_user [] incomplete_dict Ha eq_refl)
    as (Hroute & _ & _ & Hentry).
  apply Hroute.
  apply (Hentry [JObject [(lit "question_text", JString (lit "2 + 2 = ?"))]]
           [(lit "question_text", JString (lit "2 + 2 = ?"))] "option_a"%string
           eq_refl (or_introl eq_refl)).
  - right; left; reflexivity.
  - reflexivity.
Defined.

Lemma created_response_matches_store_witness :
  exists response r rows n,
    ref_generate (quiz_answer 2) db_accept (lit "A quiz on sums") sample_user []
    = (inr response,
       [quiz_row sample_now (lit "quiz-1") (quiz_answer_parsed 2) (lit "user-1") None None;
        question_row (Created.Build (lit "quiz-1") (lit "Sums")) (quiz_answer_parsed 2)
          sample_question;
        question_row (Created.Build (lit "quiz-1") (lit "Sums")) (quiz_answer_parsed 2)
          sample_question])
    /\ Response.success response = true
    /\ Response.is_quiz_request response = true
    /\ Response.parsed_from response = Some (lit "A quiz on sums")
    /\ Response.quiz_id response = Some (lit "quiz-1")
    /\ Response.quiz_title response = Some (lit "Sums")
    /\ Response.questions_generated response = Some n
    /\ [quiz_row sample_now (lit "quiz-1") (quiz_answer_parsed 2) (lit "user-1") None None;
        question_row (Created.Build (lit "quiz-1") (lit "Sums")) (quiz_answer_parsed 2)
          sample_question;
        question_row (Created.Build (lit "quiz-1") (lit "Sums")) (quiz_answer_parsed 2)
          sample_question]
       = [] ++ QuizzesRow r :: map QuestionsRow rows
    /\ length rows = n
    /\ Forall (fun row => QuestionRow.quiz_id row = lit "quiz-1") rows.
Proof.
  refine (created_response_matches_store json_loads_ref fromisoformat_ref sample_now
            sample_now sample_now (lit "quiz-1") db_accept (gemini_says (quiz_answer 2))
            strict_str strict_int strict_bool schema_error_ref
            (lit "A quiz on sums") sample_user [] (quiz_answer_dict 2)
            (quiz_answer_parsed 2) (QuizRef.Build (lit "quiz-1") (lit "Sums")) _
            _ _ _ _ _).
  - exists (quiz_answer 2).
    split; [reflexivity | split; [discriminate | vm_compute; reflexivity]].
  - vm_compute; reflexivity.
  - vm_compute; reflexivity.
  - discriminate.
  - vm_compute; reflexivity.
Defined.

Lemma search_braces_spec_witness :
  search_braces (lit "see {a} and {b} ok") = Some (lit "{a} and {b}").
Proof.
  apply (proj2 (search_braces_spec (lit "see {a} and {b} ok") (lit "{a} and {b}"))).
  exists (lit "see "), (lit "a} and {b"), (lit " ok").
  split; [reflexivity | split; [reflexivity | split; reflexivity]].
Defined.

Lemma utc_designator_witness :
  parse_ist fromisoformat_ref (lit "2030-01-01T10:00:00")
  = fromisoformat_ref (lit "2030-01-01T10:00:00").
Proof.
  apply (proj2 (utc_designator fromisoformat_ref (lit "2030-01-01T10:00:00"))).
  reflexivity.
Defined.

Lemma sanitizer_returns_objects_witness :
  exists d, JObject non_quiz_dict = JObject d /\ as_dict (JObject non_quiz_dict) = inr d.
Proof.
  apply (proj2 (sanitizer_returns_objects json_loads_ref) json_loads_ref_object
           (fenced_prefix ++ non_quiz_object ++ fenced_suffix) (JObject non_quiz_dict)).
  vm_compute; reflexivity.
Defined.

Lemma sanitizer_only_deletes_witness :
  subseq non_quiz_object (fenced_prefix ++ non_quiz_object ++ fenced_suffix)
  /\ length non_quiz_object
     <= length (fenced_prefix ++ non_quiz_object ++ fenced_suffix).
Proof.
  apply (proj2 (sanitizer_only_deletes (fenced_prefix ++ non_quiz_object ++ fenced_suffix))
           non_quiz_object).
  vm_compute; reflexivity.
Defined.

Lemma proxy_scheme_witness :
  proxy_headers_middleware proxied_request Scope.scheme = lit "https".
Proof.
  apply (proj1 (proxy_scheme proxied_request Scope.scheme)
           [(lit "host", lit "quiz.example")] (lit "https")
           [(lit "x-forwarded-proto", lit "http")] eq_refl).
  intros h [<- | []]. vm_compute. discriminate.
Defined.

Lemma schedule_accepted_earlier_witness :
  resolve_times fromisoformat_ref (dt_plus sample_now (-1))
    (sample_quiz (Some (lit "2030-01-01T04:30:00Z")) None 45 [sample_question])
  = inr (Some (lit "2030-01-01T10:00:00+05:30"), Some (lit "2030-01-01T10:45:00+05:30")).
Proof.
  apply (schedule_accepted_earlier fromisoformat_ref sample_now (dt_plus sample_now (-1))
           (sample_quiz (Some (lit "2030-01-01T04:30:00Z")) None 45 [sample_question])
           (Some (lit "2030-01-01T10:00:00+05:30"), Some (lit "2030-01-01T10:45:00+05:30"))).
  - vm_compute; discriminate.
  - vm_compute; reflexivity.
Defined.

Lemma route_failure_catalogue_witness :
  catalogued (PersistenceError (lit "connection refused"))
  /\ PersistenceError (lit "connection refused")
     <> HTTPException 400 (lit "Maximum 50 questions allowed per quiz")
  /\ PersistenceError (lit "connection refused")
     <> HTTPException 400 (lit "At least 1 question is required").
Proof.
  refine (route_failure_catalogue json_loads_ref fromisoformat_ref sample_now sample_now
            sample_now (lit "quiz-1") (db_fail (lit "connection refused"))
            (gemini_says (quiz_answer 1)) strict_str strict_int strict_bool
            schema_error_ref (lit "A quiz on sums") sample_user []
            (PersistenceError (lit "connection refused"))
            fromisoformat_ref_raises (db_fail_raises (lit "connection refused"))
            (gemini_says_raises (quiz_answer 1)) _).
  vm_compute; reflexivity.
Defined.
